(** * BIOTICA: the IBR composite score and the tipping-point detector

    A shallow embedding of the numeric core of the [biotica] package:

    - [BIOTICACore]           src/biotica/equations_fixed.py
    - [IBRComposite]          src/biotica/ibr/composite.py
    - [TippingPointDetector]  src/biotica/statistics/tipping_points.py

    Conventions.  Python floats are modelled by exact rationals ([Q]), so no
    rounding takes place; where the source tests for NaN (the detector) a
    float is an [npfloat], a rational or NaN.  [np.sqrt] is the real square
    root.  A Python [dict] is an association list in insertion order; a
    method that mutates [self] or raises is a computation in a small
    state-and-exception monad. *)

From Stdlib Require Import QArith Qabs Qround Qreals Reals Psatz.
From Stdlib Require Import List String Ascii ZArith Bool.
From Stdlib Require Import DecimalString.
Import ListNotations.

Open Scope string_scope.
Open Scope Q_scope.

(* ================================================================== *)
(** * Python values *)
(* ================================================================== *)

Module Py.

(** Exceptions raised by the modelled code. *)
Inductive exn : Type :=
| ValueError (msg : string)
| IndexError (msg : string).

(** The result of a call: a value or a raised exception. *)
Inductive outcome (A : Type) : Type :=
| Return (a : A)
| Raise (e : exn).

Arguments Return {A} a.
Arguments Raise {A} e.

Definition outcome_map {A B : Type} (f : A -> B) (o : outcome A) : outcome B :=
  match o with
  | Return a => Return (f a)
  | Raise e => Raise e
  end.

Definition obind {A B : Type} (o : outcome A) (k : A -> outcome B) : outcome B :=
  match o with
  | Return a => k a
  | Raise e => Raise e
  end.

(** Float comparisons [a > b] and [a < b] on finite values. *)
Definition Qgtb (a b : Q) : bool := negb (Qle_bool a b).
Definition Qltb (a b : Q) : bool := negb (Qle_bool b a).

(** [0 <= v <= 1]. *)
Definition in_unit_interval (v : Q) : bool := Qle_bool 0 v && Qle_bool v 1.

(** [sum(l)] for a list of rationals. *)
Definition Qsum (l : list Q) : Q := fold_right Qplus 0 l.

(** [sub in s] on strings. *)
Fixpoint str_in (sub s : string) : bool :=
  match s with
  | EmptyString => String.prefix sub EmptyString
  | String _ s' => String.prefix sub s || str_in sub s'
  end.

(** [sep.join(l)]. *)
Definition join (sep : string) (l : list string) : string := String.concat sep l.

(** [str(n)] for an integer. *)
Definition str_int (z : Z) : string := NilZero.string_of_int (Z.to_int z).

(** [str(l)] for a list of strings; quotes inside the items are not escaped. *)
Definition repr_list (l : list string) : string :=
  "[" ++ join ", " (map (fun w => "'" ++ w ++ "'") l) ++ "]".

(** How floats are rendered inside messages: [str(x)] and [format(x, '.3f')].
    The rendering itself is left open. *)
Record FloatFormat : Type := {
  str_float : Q -> string;
  format_3f : Q -> string
}.

(** ** Dictionaries, in insertion order *)

Section Dict.
Context {V : Type}.

Definition dict : Type := list (string * V).

Fixpoint dict_get (k : string) (d : dict) : option V :=
  match d with
  | [] => None
  | (k', v) :: d' => if String.eqb k k' then Some v else dict_get k d'
  end.

(** [k in d] *)
Definition dict_mem (k : string) (d : dict) : bool :=
  match dict_get k d with Some _ => true | None => false end.

(** [d[k] = v]: an existing key keeps its position. *)
Fixpoint dict_set (k : string) (v : V) (d : dict) : dict :=
  match d with
  | [] => [(k, v)]
  | (k', v') :: d' =>
      if String.eqb k k' then (k, v) :: d' else (k', v') :: dict_set k v d'
  end.

Definition dict_keys (d : dict) : list string := map fst d.

End Dict.

Arguments dict V : clear implicits.

(** Sets of names are duplicate-free lists; Python leaves the iteration order
    of a set open, here it is the order of first occurrence. *)
Definition set_of (l : list string) : list string := nodup string_dec l.

Definition set_mem (k : string) (l : list string) : bool :=
  existsb (String.eqb k) l.

(** [a - b] *)
Definition set_diff (a b : list string) : list string :=
  filter (fun k => negb (set_mem k b)) a.

End Py.

Import Py.

(* ================================================================== *)
(** * equations_fixed.py *)
(* ================================================================== *)

Inductive BiomeType : Type :=
| TROPICAL_FOREST | TEMPERATE_FOREST | GRASSLAND | DESERT | TUNDRA.

Inductive IBRClass : Type :=
| PRISTINE | FUNCTIONAL | IMPAIRED | DEGRADED | COLLAPSED.

Record ParameterResult : Type := {
  pr_value : Q;
  pr_uncertainty : Q;
  pr_confidence : Q
}.

Module BIOTICACore.

Definition IBR_WEIGHTS : dict Q :=
  [ ("VCA", 0.20); ("MDI", 0.15); ("PTS", 0.12);
    ("HFI", 0.11); ("BNC", 0.10); ("SGH", 0.09);
    ("AES", 0.08); ("TMI", 0.08); ("RRC", 0.07) ].

(** The dictionary returned by [compute_ibr]. *)
Record result : Type := {
  score : Q;
  normalized_score : Q;
  classification : IBRClass;
  contributions : dict Q;
  uncertainty : Q;
  confidence : Q
}.

(** The accumulators of the loop of [compute_ibr]. *)
Record acc : Type := {
  raw_score : Q;
  total_weight : Q;
  contribs : dict Q
}.

(** One iteration of [for param, weight in self.IBR_WEIGHTS.items()]. *)
Definition ibr_step (parameters : dict Q) (a : acc) (pw : string * Q) : acc :=
  let (param, weight) := pw in
  match dict_get param parameters with
  | Some v =>
      let contrib := v * weight in
      {| raw_score := raw_score a + contrib;
         total_weight := total_weight a + weight;
         contribs := dict_set param contrib (contribs a) |}
  | None => a
  end.

Definition ibr_loop (weights : dict Q) (parameters : dict Q) : acc :=
  fold_left (ibr_step parameters) weights
            {| raw_score := 0; total_weight := 0; contribs := [] |}.

(** The [if]/[elif] chain of [compute_ibr] (lines 60-70). *)
Definition classify (normalized_score : Q) : IBRClass :=
  if Qgtb normalized_score 0.88 then PRISTINE
  else if Qgtb normalized_score 0.75 then FUNCTIONAL
  else if Qgtb normalized_score 0.60 then IMPAIRED
  else if Qgtb normalized_score 0.45 then DEGRADED
  else COLLAPSED.

Definition compute_ibr (parameters : dict Q) : result :=
  let a := ibr_loop IBR_WEIGHTS parameters in
  let normalized_score :=
    if Qgtb (total_weight a) 0 then raw_score a / total_weight a else 0 in
  {| score := raw_score a;
     normalized_score := normalized_score;
     classification := classify normalized_score;
     contributions := contribs a;
     uncertainty := 0.05;
     confidence := 0.95 |}.

(** Modelled from the spec: [_classify_ibr] is a method of the class
    [BIOTICACore] of [biotica/equations.py], the module [composite.py]
    imports, which is absent from the package sources.  The spec gives the classification as the
    threshold table on its argument, strict [>] bounds tried top-down; the
    repository's unit test [test_ibr_classification] agrees on the five
    scores it tries (0.92, 0.80, 0.68, 0.52, 0.35).  It serves as an instance
    of the method that [IBRComposite.compute] calls. *)
Definition _classify_ibr (score : Q) : IBRClass :=
  if Qgtb score 0.88 then PRISTINE
  else if Qgtb score 0.75 then FUNCTIONAL
  else if Qgtb score 0.60 then IMPAIRED
  else if Qgtb score 0.45 then DEGRADED
  else COLLAPSED.

End BIOTICACore.

(* ================================================================== *)
(** * ibr/composite.py *)
(* ================================================================== *)

Module IBRResult.

Record Metadata : Type := {
  n_parameters : nat;
  validation_passed : bool;
  method : string
}.

(** The dataclass [IBRResult]; its [timestamp] (the wall clock at creation)
    is left out. *)
Record t : Type := {
  score : Q;
  classification : IBRClass;
  contributions : dict Q;
  uncertainty : R;
  confidence : R;
  plot_id : option string;
  biome : option BiomeType;
  warnings : list string;
  metadata : Metadata
}.

Definition with_biome (b : option BiomeType) (r : t) : t :=
  {| score := score r;
     classification := classification r;
     contributions := contributions r;
     uncertainty := uncertainty r;
     confidence := confidence r;
     plot_id := plot_id r;
     biome := b;
     warnings := warnings r;
     metadata := metadata r |}.

End IBRResult.

Module IBRComposite.

Import BIOTICACore.

(** An item of [self.parameters]: the dict [{'value': .., 'uncertainty': ..}].
    The key ['uncertainty'] is read back with [data.get('uncertainty', 0.05)],
    hence optional. *)
Record entry : Type := {
  value : Q;
  uncertainty : option Q
}.

(** The attributes of an [IBRComposite] object that its methods use. *)
Record state : Type := {
  plot_id : option string;
  biome : option BiomeType;
  parameters : dict entry
}.

(** [IBRComposite(plot_id=.., biome=..)] *)
Definition __init__ (plot_id : option string) (biome : option BiomeType) : state :=
  {| plot_id := plot_id; biome := biome; parameters := [] |}.

Definition with_parameters (self : state) (p : dict entry) : state :=
  {| plot_id := plot_id self; biome := biome self; parameters := p |}.

Definition with_biome (self : state) (b : option BiomeType) : state :=
  {| plot_id := plot_id self; biome := b; parameters := parameters self |}.

(** ** Methods: computations over [self] that may raise *)

Definition M (A : Type) : Type := state -> outcome A * state.

Definition ret {A : Type} (a : A) : M A := fun self => (Return a, self).

Definition raise {A : Type} (e : exn) : M A := fun self => (Raise e, self).

Definition bind {A B : Type} (m : M A) (k : A -> M B) : M B :=
  fun self =>
    match m self with
    | (Return a, self') => k a self'
    | (Raise e, self') => (Raise e, self')
    end.

Definition get_self : M state := fun self => (Return self, self).

Definition put_self (s : state) : M unit := fun _ => (Return tt, s).

Notation "x <- m ;; k" := (bind m (fun x => k))
  (at level 61, m at next level, right associativity).
Notation "m ;;; k" := (bind m (fun _ => k))
  (at level 61, right associativity).

(** [uncertainty or 0.05]: [None] and [0.0] are both falsy. *)
Definition uncertainty_or_default (uncertainty : option Q) : Q :=
  match uncertainty with
  | Some u => if Qeq_bool u 0 then 0.05 else u
  | None => 0.05
  end.

Section WithCore.

(** [self.core._classify_ibr]: a method of the class [BIOTICACore] of
    [biotica/equations.py], the module [composite.py] imports, which is
    absent from the package sources; the calculator is modelled for any such
    method. *)
Variable _classify_ibr : Q -> IBRClass.

Variable fmt : FloatFormat.

Definition set_parameter (name : string) (value : Q) (uncertainty : option Q)
  : M unit :=
  if negb (in_unit_interval value) then
    raise (ValueError ("Parameter " ++ name ++ " value " ++ str_float fmt value
                       ++ " must be in [0,1]"))
  else
    self <- get_self ;;
    put_self (with_parameters self
      (dict_set name
         {| value := value;
            uncertainty := Some (uncertainty_or_default uncertainty) |}
         (parameters self))).

(** [for name, value in params.items(): self.set_parameter(name, value)] *)
Fixpoint set_parameters (params : dict Q) : M unit :=
  match params with
  | [] => ret tt
  | (name, value) :: rest =>
      set_parameter name value None ;;; set_parameters rest
  end.

Definition set_parameter_result (name : string) (result : ParameterResult)
  : M unit :=
  self <- get_self ;;
  put_self (with_parameters self
    (dict_set name
       {| value := pr_value result;
          uncertainty := Some (pr_uncertainty result) |}
       (parameters self))).

(** *** validate_parameters *)

Definition required_params : list string := set_of (dict_keys IBR_WEIGHTS).

Definition provided_params (self : state) : list string :=
  set_of (dict_keys (parameters self)).

Definition missing (self : state) : list string :=
  set_diff required_params (provided_params self).

Definition extra (self : state) : list string :=
  set_diff (provided_params self) required_params.

Definition missing_warning (self : state) : list string :=
  match missing self with
  | [] => []
  | m => ["Missing parameters: " ++ join ", " m]
  end.

Definition extra_warning (self : state) : list string :=
  match extra self with
  | [] => []
  | e => ["Extra parameters (will be ignored): " ++ join ", " e]
  end.

Definition out_of_range_message (name : string) (v : Q) : string :=
  "Parameter " ++ name ++ " value " ++ str_float fmt v ++ " out of range".

(** The first loop over [self.parameters.items()]. *)
Definition range_warnings (self : state) : list string :=
  flat_map (fun nd : string * entry =>
              let (name, data) := nd in
              if negb (in_unit_interval (value data))
              then [out_of_range_message name (value data)] else [])
           (parameters self).

(** The second loop over [self.parameters.items()]. *)
Definition extreme_warnings (self : state) : list string :=
  flat_map (fun nd : string * entry =>
              let (name, data) := nd in
              if Qltb (value data) 0.2 then
                ["Critical low value for " ++ name ++ ": "
                 ++ format_3f fmt (value data)]
              else if Qgtb (value data) 0.95 then
                ["Unusually high value for " ++ name ++ ": "
                 ++ format_3f fmt (value data)]
              else [])
           (parameters self).

Definition validate_parameters : M (bool * list string) :=
  self <- get_self ;;
  let warnings :=
    (missing_warning self ++ extra_warning self
     ++ range_warnings self ++ extreme_warnings self)%list in
  let is_valid :=
    Nat.eqb (List.length (filter (str_in "Missing") warnings)) 0 in
  ret (is_valid, warnings).

(** *** compute *)

Definition _apply_biome_correction (score : Q) (params : dict Q) : Q := score.

(** [for name, data in self.parameters.items(): if name in IBR_WEIGHTS: ...] *)
Definition param_values (self : state) : dict Q :=
  fold_left (fun (d : dict Q) (nd : string * entry) =>
               let (name, data) := nd in
               if dict_mem name IBR_WEIGHTS then dict_set name (value data) d
               else d)
            (parameters self) [].

Definition param_uncertainties (self : state) : dict Q :=
  fold_left (fun (d : dict Q) (nd : string * entry) =>
               let (name, data) := nd in
               if dict_mem name IBR_WEIGHTS then
                 dict_set name
                   (match uncertainty data with Some u => u | None => 0.05 end) d
               else d)
            (parameters self) [].

(** The loop that accumulates [ibr_score] and [contributions]. *)
Definition score_loop (pv : dict Q) : Q * dict Q :=
  fold_left (fun (a : Q * dict Q) (pw : string * Q) =>
               let (ibr_score, contributions) := a in
               let (param, weight) := pw in
               match dict_get param pv with
               | Some v =>
                   let contrib := v * weight in
                   (ibr_score + contrib, dict_set param contrib contributions)
               | None => a
               end)
            IBR_WEIGHTS (0, []).

(** The loop that accumulates [uncertainty_sq]. *)
Definition uncertainty_sq (pu : dict Q) : Q :=
  fold_left (fun (usq : Q) (pw : string * Q) =>
               let (param, weight) := pw in
               match dict_get param pu with
               | Some u => usq + (weight ^ 2) * (u ^ 2)
               | None => usq
               end)
            IBR_WEIGHTS 0.

Definition is_truthy {A : Type} (o : option A) : bool :=
  match o with Some _ => true | None => false end.

Definition compute (validate : bool) : M IBRResult.t :=
  warnings <-
    (if validate then
       r <- validate_parameters ;;
       let (is_valid, warnings) := r : bool * list string in
       if negb is_valid then
         raise (ValueError ("Parameter validation failed: " ++ repr_list warnings))
       else ret warnings
     else ret []) ;;
  self <- get_self ;;
  let pv := param_values self in
  let pu := param_uncertainties self in
  let (ibr_score0, contributions) := score_loop pv in
  let ibr_score :=
    if is_truthy (biome self) then _apply_biome_correction ibr_score0 pv
    else ibr_score0 in
  let uncertainty := sqrt (Q2R (uncertainty_sq pu)) in
  let classification := _classify_ibr ibr_score in
  let confidence := (1 - uncertainty)%R in
  let warnings :=
    if Qltb ibr_score 0.45 then
      (warnings ++ ["CRITICAL: Ecosystem in COLLAPSED state"])%list
    else if Qltb ibr_score 0.6 then
      (warnings ++ ["WARNING: Ecosystem DEGRADED, intervention recommended"])%list
    else warnings in
  ret {| IBRResult.score := ibr_score;
         IBRResult.classification := classification;
         IBRResult.contributions := contributions;
         IBRResult.uncertainty := uncertainty;
         IBRResult.confidence := confidence;
         IBRResult.plot_id := plot_id self;
         IBRResult.biome := biome self;
         IBRResult.warnings := warnings;
         IBRResult.metadata :=
           {| IBRResult.n_parameters := List.length pv;
              IBRResult.validation_passed := validate;
              IBRResult.method := "weighted_sum" |} |}.

End WithCore.

End IBRComposite.

(* ================================================================== *)
(** * statistics/tipping_points.py *)
(* ================================================================== *)

(** A NumPy float: a finite value or NaN.  Every comparison with NaN is
    false and arithmetic on NaN gives NaN. *)
Inductive npfloat : Type :=
| Fin (q : Q)
| NaN.

Module Np.

Definition isnan (x : npfloat) : bool :=
  match x with Fin _ => false | NaN => true end.

(** [x > c] and [x < c] for a float [x] and a finite [c]. *)
Definition gt (x : npfloat) (c : Q) : bool :=
  match x with Fin q => Qgtb q c | NaN => false end.

Definition lt (x : npfloat) (c : Q) : bool :=
  match x with Fin q => Qltb q c | NaN => false end.

Definition abs (x : npfloat) : npfloat :=
  match x with Fin q => Fin (Qabs q) | NaN => NaN end.

Definition add (x y : npfloat) : npfloat :=
  match x, y with Fin a, Fin b => Fin (a + b) | _, _ => NaN end.

Definition div (x : npfloat) (c : Q) : npfloat :=
  match x with Fin a => Fin (a / c) | NaN => NaN end.

(** [timeseries[~np.isnan(timeseries)]] *)
Fixpoint dropna (l : list npfloat) : list Q :=
  match l with
  | [] => []
  | Fin q :: l' => q :: dropna l'
  | NaN :: l' => dropna l'
  end.

(** [a[mask]] for a boolean mask of the same length. *)
Fixpoint select (mask : list bool) (a : list Q) : list Q :=
  match mask, a with
  | true :: m, x :: a' => x :: select m a'
  | false :: m, _ :: a' => select m a'
  | _, _ => []
  end.

(** [np.diff] *)
Fixpoint diff (l : list Q) : list Q :=
  match l with
  | a :: ((b :: _) as l') => (b - a) :: diff l'
  | _ => []
  end.

Fixpoint insert_sorted (x : Q) (l : list Q) : list Q :=
  match l with
  | [] => [x]
  | y :: l' => if Qle_bool x y then x :: l else y :: insert_sorted x l'
  end.

Definition sort (l : list Q) : list Q := fold_right insert_sorted [] l.

(** [np.median] of a non-empty array. *)
Definition median (l : list Q) : Q :=
  let s := sort l in
  let n := List.length s in
  if Nat.even n
  then (nth (n / 2 - 1) s 0 + nth (n / 2) s 0) / 2
  else nth (n / 2) s 0.

(** [min(a, b)] of Python: [b] only where it is strictly smaller. *)
Definition py_min (a b : Q) : Q := if Qltb b a then b else a.

End Np.

Module TippingPointResult.

(** The trend and p-value of each of the four Kendall tests. *)
Record KendallStats : Type := {
  tau_var : npfloat;  p_var : npfloat;
  tau_ac : npfloat;   p_ac : npfloat;
  tau_skew : npfloat; p_skew : npfloat;
  tau_rec : npfloat;  p_rec : npfloat
}.

(** The [metrics] dictionary; its entries read off the rolling arrays
    ([current], [initial], [ratio]) are left out. *)
Record Metrics : Type := {
  stats : KendallStats;
  indicators : list string;
  n_points : Z;
  window_size : Z
}.

Inductive Metadata : Type :=
| Error (error : string)
| Info (variable_name : string) (detrended : bool) (lag : Z)
       (significance_level : Q).

Record t : Type := {
  critical_slowing_down : bool;
  warning_level : Z;
  variance_trend : npfloat;
  autocorrelation_trend : npfloat;
  skewness_trend : npfloat;
  recovery_rate_trend : npfloat;
  estimated_months : Z;
  confidence : Q;
  metrics : option Metrics;
  metadata : Metadata
}.

End TippingPointResult.

Module TippingPointDetector.

Import TippingPointResult.

(** The configuration fixed by [__init__]. *)
Record state : Type := {
  window : Z;
  lag : Z;
  min_data_points : Z;
  significance_level : Q;
  detrend : bool
}.

(** [TippingPointDetector()] *)
Definition default : state :=
  {| window := 24; lag := 1; min_data_points := 50;
     significance_level := 0.05; detrend := true |}.

Definition _fallback_result : TippingPointResult.t :=
  {| critical_slowing_down := false;
     warning_level := 0;
     variance_trend := Fin 0;
     autocorrelation_trend := Fin 0;
     skewness_trend := Fin 0;
     recovery_rate_trend := Fin 0;
     estimated_months := 0;
     confidence := 0;
     metrics := None;
     metadata := Error "SciPy not available" |}.

(** The result built at lines 111-122 of [detect]. *)
Definition insufficient_data_result (self : state) (n : Z) : TippingPointResult.t :=
  {| critical_slowing_down := false;
     warning_level := 0;
     variance_trend := Fin 0;
     autocorrelation_trend := Fin 0;
     skewness_trend := Fin 0;
     recovery_rate_trend := Fin 0;
     estimated_months := 0;
     confidence := 0;
     metrics := None;
     metadata :=
       Error ("Insufficient data: " ++ str_int n ++ " < "
              ++ str_int (min_data_points self)) |}.

(** The local [months_per_step] of [_estimate_time_to_tipping]. *)
Definition months_per_step (timestamps : option (list Q)) : Q :=
  match timestamps with
  | Some ts =>
      if (1 <? List.length ts)%nat then
        let time_diffs := Np.diff ts in
        let median_step := Np.median time_diffs in
        if Qle_bool median_step 31 then 1 / 30.44
        else if Qle_bool median_step 365 then 1
        else 12
      else 1
  | None => 1
  end.

Definition trend_strength (tau_var tau_ac : npfloat) : npfloat :=
  Np.div (Np.add (Np.abs tau_var) (Np.abs tau_ac)) 2.

Definition _estimate_time_to_tipping (tau_var tau_ac : npfloat)
  (timeseries : list Q) (timestamps : option (list Q)) : Z :=
  let months_per_step := months_per_step timestamps in
  let trend_strength := trend_strength tau_var tau_ac in
  let months :=
    (if Np.gt trend_strength 0.3 then 12
     else if Np.gt trend_strength 0.2 then 24
     else if Np.gt trend_strength 0.1 then 36
     else 60)%Z in
  months.

Definition _calculate_confidence (warning_level : Z) (p_var p_ac : npfloat)
  (n_points : Z) : Q :=
  let confidence := 0 in
  let confidence := confidence + inject_Z warning_level * 0.2 in
  let confidence :=
    if Np.lt p_var 0.01 then confidence + 0.2
    else if Np.lt p_var 0.05 then confidence + 0.1
    else confidence in
  let confidence :=
    if Np.lt p_ac 0.01 then confidence + 0.2
    else if Np.lt p_ac 0.05 then confidence + 0.1
    else confidence in
  let confidence :=
    if (n_points >? 200)%Z then confidence + 0.2
    else if (n_points >? 100)%Z then confidence + 0.1
    else confidence in
  Np.py_min confidence 1.

(** ** The warning level: four updates of [warning_level] and [indicators] *)

Definition warn_state : Type := (Q * list string)%type.

Definition variance_update (alpha : Q) (k : KendallStats) (w : warn_state)
  : warn_state :=
  let (warning_level, indicators) := w in
  if Np.gt (tau_var k) 0.2 && Np.lt (p_var k) alpha then
    (warning_level + 1, (indicators ++ ["variance_increase"])%list)
  else if Np.gt (tau_var k) 0.1 then
    (warning_level + 0.5, (indicators ++ ["variance_increase_trend"])%list)
  else w.

Definition autocorrelation_update (alpha : Q) (k : KendallStats) (w : warn_state)
  : warn_state :=
  let (warning_level, indicators) := w in
  if Np.gt (tau_ac k) 0.2 && Np.lt (p_ac k) alpha then
    (warning_level + 1, (indicators ++ ["autocorrelation_increase"])%list)
  else if Np.gt (tau_ac k) 0.1 then
    (warning_level + 0.5, (indicators ++ ["autocorrelation_trend"])%list)
  else w.

Definition skewness_update (alpha : Q) (k : KendallStats) (w : warn_state)
  : warn_state :=
  let (warning_level, indicators) := w in
  if Np.gt (Np.abs (tau_skew k)) 0.15 && Np.lt (p_skew k) alpha then
    (warning_level + 0.5, (indicators ++ ["skewness_change"])%list)
  else w.

Definition recovery_update (alpha : Q) (k : KendallStats) (w : warn_state)
  : warn_state :=
  let (warning_level, indicators) := w in
  if Np.lt (tau_rec k) (-0.15) && Np.lt (p_rec k) alpha then
    (warning_level + 0.5, (indicators ++ ["recovery_slowing"])%list)
  else w.

(** Lines 163-190. *)
Definition accumulate (alpha : Q) (k : KendallStats) : warn_state :=
  recovery_update alpha k
    (skewness_update alpha k
       (autocorrelation_update alpha k
          (variance_update alpha k (0, [])))).

(** Lines 162-256 of [detect]: the result, once the four Kendall tests have
    been run on the rolling statistics. *)
Definition analyse (self : state) (k : KendallStats) (timeseries : list Q)
  (timestamps : option (list Q)) (variable_name : string)
  : TippingPointResult.t :=
  let (warning_level, indicators) := accumulate (significance_level self) k in
  let warning_level := Qfloor warning_level in
  let warning_level := Z.min warning_level 3 in
  let estimated_months :=
    _estimate_time_to_tipping (tau_var k) (tau_ac k) timeseries timestamps in
  let confidence :=
    _calculate_confidence warning_level (p_var k) (p_ac k)
      (Z.of_nat (List.length timeseries)) in
  let critical_slowing_down := (warning_level >=? 2)%Z in
  {| critical_slowing_down := critical_slowing_down;
     warning_level := warning_level;
     variance_trend := tau_var k;
     autocorrelation_trend := tau_ac k;
     skewness_trend := tau_skew k;
     recovery_rate_trend := tau_rec k;
     estimated_months := estimated_months;
     confidence := confidence;
     metrics :=
       Some {| stats := k;
               indicators := indicators;
               n_points := Z.of_nat (List.length timeseries);
               window_size := window self |};
     metadata :=
       Info variable_name (detrend self) (lag self) (significance_level self) |}.

(** ** detect *)

(** [np.asarray(timestamps)[valid_mask]]; NumPy's IndexError also names the
    two lengths, the text kept here is its beginning. *)
Definition mask_timestamps (valid_mask : list bool) (timestamps : option (list Q))
  : outcome (option (list Q)) :=
  match timestamps with
  | None => Return None
  | Some ts =>
      if Nat.eqb (List.length ts) (List.length valid_mask)
      then Return (Some (Np.select valid_mask ts))
      else Raise (IndexError "boolean index did not match indexed array")
  end.

Section WithSciPy.

(** Whether [from scipy import stats, signal] succeeded. *)
Variable SCIPY_AVAILABLE : bool.

(** [_detrend_series]: subtracts the line fitted by [np.polyfit]. *)
Variable _detrend_series : list Q -> outcome (list Q).

(** Lines 130-160: the rolling variance, autocorrelation, skewness and
    recovery rate of the windows and [stats.kendalltau] of each against the
    window index. *)
Variable rolling_kendall : state -> list Q -> outcome KendallStats.

Definition detect (self : state) (timeseries : list npfloat)
  (timestamps : option (list Q)) (variable_name : string)
  : outcome TippingPointResult.t :=
  if negb SCIPY_AVAILABLE then Return _fallback_result
  else
    let valid_mask := map (fun x => negb (Np.isnan x)) timeseries in
    let timeseries := Np.dropna timeseries in
    obind (mask_timestamps valid_mask timestamps) (fun timestamps =>
    let len := Z.of_nat (List.length timeseries) in
    if (len <? min_data_points self)%Z then
      Return (insufficient_data_result self len)
    else
      obind (if detrend self then _detrend_series timeseries
             else Return timeseries) (fun timeseries =>
      let n_rolling := (Z.of_nat (List.length timeseries) - window self)%Z in
      if (n_rolling <? 0)%Z then
        Raise (ValueError "negative dimensions are not allowed")
      else
        obind (rolling_kendall self timeseries) (fun k =>
        Return (analyse self k timeseries timestamps variable_name)))).

End WithSciPy.

End TippingPointDetector.

(* ================================================================== *)
(** * equations_fixed.py: the other methods of BIOTICACore *)
(* ================================================================== *)

Module NpStats.

(** [np.mean] of a non-empty array, as the exact quotient; NumPy's value
    differs from it by rounding. *)
Definition mean (l : list Q) : Q :=
  Qsum l / inject_Z (Z.of_nat (List.length l)).

(** [np.var], the population variance, of a non-empty array, computed
    exactly; NumPy's value differs from it by rounding (it need not be 0 on
    a constant array). *)
Definition var (l : list Q) : Q :=
  mean (map (fun x => (x - mean l) ^ 2) l).

(** The quotient of two NumPy floats, the dividend not negative: a division
    by zero gives inf or nan, it does not raise. *)
Inductive quotient : Type :=
| Quotient (q : Q)
| Inf
| Nan.

Definition divide (a b : Q) : quotient :=
  if Qeq_bool b 0 then (if Qeq_bool a 0 then Nan else Inf)
  else Quotient (a / b).

End NpStats.

Module BIOTICACoreMethods.

Definition compute_vca (ndvi lai gpp : Q) : ParameterResult :=
  let value := (ndvi + lai / 10 + gpp / 3000) / 3 in
  {| pr_value := Np.py_min value 1;
     pr_uncertainty := 0.05;
     pr_confidence := 0.95 |}.

Definition compute_mdi (shannon chao1 otus : Q) : ParameterResult :=
  let value :=
    (shannon / 5 + Np.py_min (chao1 / 200) 1 + Np.py_min (otus / 200) 1) / 3 in
  {| pr_value := Np.py_min value 1;
     pr_uncertainty := 0.05;
     pr_confidence := 0.95 |}.

(** The two dictionaries [detect_tipping_point] returns: the short one for
    fewer than 50 points, and the analysis. *)
Inductive tipping_point : Type :=
| Insufficient (warning_level : Z) (message : string)
| Analysed (warning_level : Z) (variance_ratio : NpStats.quotient)
           (critical_slowing_down : bool).

Definition warning_level (r : tipping_point) : Z :=
  match r with
  | Insufficient w _ => w
  | Analysed w _ _ => w
  end.

(** [detect_tipping_point(timeseries, window=24)], on a series of finite
    values. *)
Definition detect_tipping_point (timeseries : list Q) (window : Z)
  : tipping_point :=
  if (List.length timeseries <? 50)%nat then
    Insufficient 0 "بيانات غير كافية"
  else
    let half := (List.length timeseries / 2)%nat in
    let first_half := firstn half timeseries in
    let second_half := skipn half timeseries in
    let var1 := NpStats.var first_half in
    let var2 := NpStats.var second_half in
    let warning_level :=
      (if Qgtb var2 (var1 * 1.5) then 2
       else if Qgtb var2 (var1 * 1.2) then 1
       else 0)%Z in
    Analysed warning_level (NpStats.divide var2 var1) (warning_level >=? 2)%Z.

End BIOTICACoreMethods.

(* ================================================================== *)
(** * ibr/composite.py: compute_from_raw and the batch processor *)
(* ================================================================== *)

Module IBRCompositeRaw.

Import IBRComposite.

(** The nine parameter functions of the class [BIOTICACore] that
    [compute_from_raw] calls through [self.core], on raw measurements of any
    type; each may raise. *)
Record core_methods (raw : Type) : Type := {
  compute_vca : raw -> raw -> raw -> outcome ParameterResult;
  compute_mdi : raw -> raw -> raw -> outcome ParameterResult;
  compute_pts : raw -> raw -> raw -> outcome ParameterResult;
  compute_hfi : raw -> raw -> raw -> raw -> outcome ParameterResult;
  compute_bnc : raw -> raw -> raw -> raw -> outcome ParameterResult;
  compute_sgh : raw -> raw -> raw -> raw -> outcome ParameterResult;
  compute_aes : raw -> raw -> raw -> raw -> outcome ParameterResult;
  compute_tmi : raw -> raw -> raw -> raw -> outcome ParameterResult;
  compute_rrc : raw -> raw -> raw -> raw -> outcome ParameterResult
}.

Arguments compute_vca {raw}.
Arguments compute_mdi {raw}.
Arguments compute_pts {raw}.
Arguments compute_hfi {raw}.
Arguments compute_bnc {raw}.
Arguments compute_sgh {raw}.
Arguments compute_aes {raw}.
Arguments compute_tmi {raw}.
Arguments compute_rrc {raw}.

Section WithCore.

Variable _classify_ibr : Q -> IBRClass.
Variable fmt : FloatFormat.

(** The values of [raw_data], and the literal [0]. *)
Variable raw : Type.
Variable zero : raw.

Variable core : core_methods raw.

(** The outcome of a call that does not touch [self]. *)
Definition lift {A : Type} (o : outcome A) : M A := fun self => (o, self).

(** [all(k in raw_data for k in keys)] *)
Definition all_in (keys : list string) (raw_data : dict raw) : bool :=
  forallb (fun k => dict_mem k raw_data) keys.

(** [raw_data[k]], read only after [k in raw_data] was tested, and
    [raw_data.get(k, 0)]. *)
Definition item (raw_data : dict raw) (k : string) : raw :=
  match dict_get k raw_data with Some v => v | None => zero end.

(** The nine blocks of [compute_from_raw], in order: the parameter, the raw
    fields it needs, and the call that derives it. *)
Definition derivations (raw_data : dict raw)
  : list (string * list string * outcome ParameterResult) :=
  let v := item raw_data in
  [ ("VCA", ["ndvi"; "lai"; "gpp"],
     compute_vca core (v "ndvi") (v "lai") (v "gpp"));
    ("MDI", ["shannon"; "chao1"; "otus"],
     compute_mdi core (v "shannon") (v "chao1") (v "otus"));
    ("PTS", ["greenup_doy"; "historical_greenup"],
     compute_pts core (v "greenup_doy") (v "senescence_doy")
       (v "historical_greenup"));
    ("HFI", ["precipitation"; "evapotranspiration"; "soil_moisture"; "runoff"],
     compute_hfi core (v "precipitation") (v "evapotranspiration")
       (v "soil_moisture") (v "runoff"));
    ("BNC", ["nitrogen"; "phosphorus"; "potassium"; "organic_matter"],
     compute_bnc core (v "nitrogen") (v "phosphorus") (v "potassium")
       (v "organic_matter"));
    ("SGH", ["heterozygosity"; "allele_richness"; "fst"; "population_size"],
     compute_sgh core (v "heterozygosity") (v "allele_richness") (v "fst")
       (v "population_size"));
    ("AES", ["human_footprint"; "fragmentation"; "pollution_index";
             "distance_to_disturbance"],
     compute_aes core (v "human_footprint") (v "fragmentation")
       (v "pollution_index") (v "distance_to_disturbance"));
    ("TMI", ["connectance"; "modularity"; "trophic_levels"; "omnivory"],
     compute_tmi core (v "connectance") (v "modularity") (v "trophic_levels")
       (v "omnivory"));
    ("RRC", ["recovery_rate"; "resilience"; "seed_bank"; "soil_organic_carbon"],
     compute_rrc core (v "recovery_rate") (v "resilience") (v "seed_bank")
       (v "soil_organic_carbon")) ].

(** One block: [if all(...): p = self.core.compute_x(...);
    self.set_parameter_result(name, p)]. *)
Definition derive (raw_data : dict raw)
  (d : string * list string * outcome ParameterResult) : M unit :=
  let '(name, keys, call) := d in
  if all_in keys raw_data then
    result <- lift call ;; set_parameter_result name result
  else ret tt.

Fixpoint derive_all (raw_data : dict raw)
  (ds : list (string * list string * outcome ParameterResult)) : M unit :=
  match ds with
  | [] => ret tt
  | d :: rest => derive raw_data d ;;; derive_all raw_data rest
  end.

Definition compute_from_raw (raw_data : dict raw) : M IBRResult.t :=
  self <- get_self ;;
  put_self (with_parameters self []) ;;;
  derive_all raw_data (derivations raw_data) ;;;
  compute _classify_ibr fmt true.

End WithCore.

End IBRCompositeRaw.

Module IBRBatchProcessor.

Import IBRCompositeRaw.

(** [self.results] *)
Record state : Type := {
  results : list IBRResult.t
}.

Definition __init__ : state := {| results := [] |}.

Section WithCore.

Variable _classify_ibr : Q -> IBRClass.
Variable fmt : FloatFormat.
Variable raw : Type.
Variable zero : raw.
Variable core : core_methods raw.

(** How the values under ['plot_id'] and ['biome'] are read: as an
    identifier, and as a biome or a falsy value. *)
Variable as_plot_id : raw -> string.
Variable as_biome : raw -> option BiomeType.

Definition process_plot (plot_data : dict raw) : outcome IBRResult.t :=
  let calculator :=
    IBRComposite.__init__
      (option_map as_plot_id (dict_get "plot_id" plot_data))
      (match dict_get "biome" plot_data with
       | Some b => as_biome b
       | None => None
       end) in
  fst (compute_from_raw _classify_ibr fmt raw zero core plot_data calculator).

(** [[self.process_plot(plot) for plot in plots]] *)
Fixpoint process_plots (plots : list (dict raw)) : outcome (list IBRResult.t) :=
  match plots with
  | [] => Return []
  | plot :: rest =>
      obind (process_plot plot) (fun r =>
      obind (process_plots rest) (fun rs => Return (r :: rs)))
  end.

Definition process_batch (plots : list (dict raw)) (self : state)
  : outcome (list IBRResult.t) * state :=
  match process_plots plots with
  | Return rs => (Return rs, {| results := rs |})
  | Raise e => (Raise e, self)
  end.

End WithCore.

(** [np.min] and [np.max] of a non-empty array. *)
Definition np_min (l : list Q) : Q :=
  match l with
  | [] => 0
  | x :: l' => fold_left (fun m y => if Qltb y m then y else m) l' x
  end.

Definition np_max (l : list Q) : Q :=
  match l with
  | [] => 0
  | x :: l' => fold_left (fun m y => if Qltb m y then y else m) l' x
  end.

Definition IBRClass_eqb (a b : IBRClass) : bool :=
  match a, b with
  | PRISTINE, PRISTINE | FUNCTIONAL, FUNCTIONAL | IMPAIRED, IMPAIRED
  | DEGRADED, DEGRADED | COLLAPSED, COLLAPSED => true
  | _, _ => false
  end.

(** [for cls in IBRClass] *)
Definition all_classes : list IBRClass :=
  [PRISTINE; FUNCTIONAL; IMPAIRED; DEGRADED; COLLAPSED].

Record Summary : Type := {
  n_plots : nat;
  mean_score : Q;
  std_score : R;
  min_score : Q;
  max_score : Q;
  classification_counts : list (IBRClass * nat)
}.

(** [summary_statistics]: [None] is the empty dictionary. *)
Definition summary_statistics (self : state) : option Summary :=
  match results self with
  | [] => None
  | _ =>
      let scores := map IBRResult.score (results self) in
      Some {| n_plots := List.length (results self);
              mean_score := NpStats.mean scores;
              std_score := sqrt (Q2R (NpStats.var scores));
              min_score := np_min scores;
              max_score := np_max scores;
              classification_counts :=
                map (fun cls =>
                       (cls,
                        List.length
                          (filter (fun r =>
                                     IBRClass_eqb (IBRResult.classification r) cls)
                                  (results self))))
                    all_classes |}
  end.

End IBRBatchProcessor.

(* ================================================================== *)
(** * statistics/tipping_points.py: detect_multivariate, EarlyWarningSignals *)
(* ================================================================== *)

Module TippingPointMultivariate.

Section WithSciPy.

Variable SCIPY_AVAILABLE : bool.
Variable _detrend_series : list Q -> outcome (list Q).
Variable rolling_kendall :
  TippingPointDetector.state -> list Q
  -> outcome TippingPointResult.KendallStats.

(** The loop [for i, name in enumerate(variable_names)]; the matrix is the
    list of its columns, so [data_matrix[:, i]] is the [i]-th one and an
    index past the last column raises. *)
Fixpoint multivariate_loop (self : TippingPointDetector.state)
  (data_matrix : list (list npfloat)) (timestamps : option (list Q))
  (variable_names : list string) (i : nat)
  (results : dict TippingPointResult.t)
  : outcome (dict TippingPointResult.t) :=
  match variable_names with
  | [] => Return results
  | name :: rest =>
      match nth_error data_matrix i with
      | None => Raise (IndexError "index is out of bounds for axis 1")
      | Some timeseries =>
          obind (TippingPointDetector.detect SCIPY_AVAILABLE _detrend_series
                   rolling_kendall self timeseries timestamps name)
                (fun r =>
                   multivariate_loop self data_matrix timestamps rest (S i)
                     (dict_set name r results))
      end
  end.

Definition detect_multivariate (self : TippingPointDetector.state)
  (data_matrix : list (list npfloat)) (variable_names : list string)
  (timestamps : option (list Q)) : outcome (dict TippingPointResult.t) :=
  multivariate_loop self data_matrix timestamps variable_names 0 [].

End WithSciPy.

End TippingPointMultivariate.

Module EarlyWarningSignals.

(** [True + True + ..]: a boolean counts as 0 or 1. *)
Definition int_of_bool (b : bool) : Z := if b then 1%Z else 0%Z.

(** The combined indicator of [analyze(method='all')], from the three
    Kendall trends. *)
Definition combined_score (tau_var tau_ac tau_skew : npfloat) : Q :=
  inject_Z (int_of_bool (Np.gt tau_var 0.2)
            + int_of_bool (Np.gt tau_ac 0.2)
            + int_of_bool (Np.gt (Np.abs tau_skew) 0.15))
  / 3.

Definition _interpret_score (score : Q) : string :=
  if Qgtb score 0.7 then "High risk - strong early warning signals"
  else if Qgtb score 0.4 then "Moderate risk - some warning signals detected"
  else if Qgtb score 0.1 then "Low risk - weak warning signals"
  else "No clear warning signals".

(** [window = min(50, len(timeseries) // 4)] *)
Definition analyze_window (timeseries : list Q) : nat :=
  Nat.min 50 (List.length timeseries / 4).

(** [data[i:i+window]] *)
Definition segment (data : list Q) (i window : nat) : list Q :=
  firstn window (skipn i data).

(** [_rolling_stat(data, window, func)] for a window that is not negative. *)
Definition _rolling_stat (data : list Q) (window : nat)
  (func : list Q -> npfloat) : outcome (list npfloat) :=
  let n := (Z.of_nat (List.length data) - Z.of_nat window + 1)%Z in
  if (n <? 0)%Z then Raise (ValueError "negative dimensions are not allowed")
  else Return (map (fun i => func (segment data i window))
                   (seq 0 (Z.to_nat n))).

Section WithCorrcoef.

(** [np.corrcoef(a, b)[0,1]] *)
Variable corrcoef : list Q -> list Q -> npfloat.

(** [_rolling_autocorr(data, window)] for a window that is not negative. *)
Definition _rolling_autocorr (data : list Q) (window : nat)
  : outcome (list npfloat) :=
  let n := (Z.of_nat (List.length data) - Z.of_nat window + 1)%Z in
  if (n <? 0)%Z then Raise (ValueError "negative dimensions are not allowed")
  else Return (map (fun i =>
                      let segment := segment data i window in
                      if (1 <? List.length segment)%nat then
                        let autocorr := corrcoef (removelast segment) (tl segment) in
                        if Np.isnan autocorr then Fin 0 else autocorr
                      else Fin 0)
                   (seq 0 (Z.to_nat n))).

End WithCorrcoef.

End EarlyWarningSignals.

(* ================================================================== *)
(** * Specification-side definitions *)
(* ================================================================== *)

(** What the properties below compare the code with: sums over the present
    parameters, the threshold table, the warning points of each indicator. *)

Module Spec.

Import BIOTICACore.

(** The weight-table rows whose parameter is present in the mapping. *)
Definition present (weights parameters : dict Q) : dict Q :=
  filter (fun pw => dict_mem (fst pw) parameters) weights.

Definition value_of (parameters : dict Q) (param : string) : Q :=
  match dict_get param parameters with Some v => v | None => 0 end.

(** Sum over the present parameters of value * weight. *)
Definition weighted_sum (weights parameters : dict Q) : Q :=
  Qsum (map (fun pw => value_of parameters (fst pw) * snd pw)
            (present weights parameters)).

(** Sum of the weights of the present parameters. *)
Definition used_weight (weights parameters : dict Q) : Q :=
  Qsum (map snd (present weights parameters)).

(** The weighted average over the present subset. *)
Definition weighted_average (weights parameters : dict Q) : Q :=
  weighted_sum weights parameters / used_weight weights parameters.

(** Sum over the present parameters of weight^2 * uncertainty^2. *)
Definition variance_sum (weights uncertainties : dict Q) : Q :=
  Qsum (map (fun pw => snd pw ^ 2 * value_of uncertainties (fst pw) ^ 2)
            (present weights uncertainties)).

(** The contribution of a weight row: the parameter and value * weight. *)
Definition contribution_row (parameters : dict Q) (pw : string * Q)
  : string * Q :=
  (fst pw, value_of parameters (fst pw) * snd pw).

(** The threshold table of the classification. *)
Definition in_class (s : Q) (c : IBRClass) : Prop :=
  match c with
  | PRISTINE => 0.88 < s
  | FUNCTIONAL => 0.75 < s <= 0.88
  | IMPAIRED => 0.60 < s <= 0.75
  | DEGRADED => 0.45 < s <= 0.60
  | COLLAPSED => s <= 0.45
  end.

(** *** The calculator's stored parameters *)

(** [self.parameters] is a dictionary: no key occurs twice. *)
Definition well_formed (self : IBRComposite.state) : Prop :=
  NoDup (dict_keys (IBRComposite.parameters self)).

(** The stored values, by name. *)
Definition stored_values (self : IBRComposite.state) : dict Q :=
  map (fun nd => (fst nd, IBRComposite.value (snd nd)))
      (IBRComposite.parameters self).

Definition entry_uncertainty (e : IBRComposite.entry) : Q :=
  match IBRComposite.uncertainty e with Some u => u | None => 0.05 end.

(** The stored uncertainties, by name. *)
Definition stored_uncertainties (self : IBRComposite.state) : dict Q :=
  map (fun nd => (fst nd, entry_uncertainty (snd nd)))
      (IBRComposite.parameters self).

(** A client that loads parameters one call of [set_parameter] at a time. *)
Fixpoint load (fmt : FloatFormat) (calls : list (string * Q * option Q))
  : IBRComposite.M unit :=
  match calls with
  | [] => IBRComposite.ret tt
  | (name, value, uncertainty) :: rest =>
      IBRComposite.bind (IBRComposite.set_parameter fmt name value uncertainty)
                        (fun _ => load fmt rest)
  end.

(** A fresh calculator loaded with [set_parameters(params)]. *)
Definition calculator_with (fmt : FloatFormat) (params : dict Q)
  : IBRComposite.state :=
  snd (IBRComposite.set_parameters fmt params (IBRComposite.__init__ None None)).

(** *** Raw field measurements *)

(** The values of a raw-data dictionary: numbers, lists of numbers, text. *)
Inductive raw_value : Type :=
| Num (q : Q)
| Nums (l : list Q)
| Text (s : string).

(** A core whose nine parameter functions all give the same outcome. *)
Definition constant_core (o : outcome ParameterResult)
  : IBRCompositeRaw.core_methods raw_value :=
  {| IBRCompositeRaw.compute_vca := fun _ _ _ => o;
     IBRCompositeRaw.compute_mdi := fun _ _ _ => o;
     IBRCompositeRaw.compute_pts := fun _ _ _ => o;
     IBRCompositeRaw.compute_hfi := fun _ _ _ _ => o;
     IBRCompositeRaw.compute_bnc := fun _ _ _ _ => o;
     IBRCompositeRaw.compute_sgh := fun _ _ _ _ => o;
     IBRCompositeRaw.compute_aes := fun _ _ _ _ => o;
     IBRCompositeRaw.compute_tmi := fun _ _ _ _ => o;
     IBRCompositeRaw.compute_rrc := fun _ _ _ _ => o |}.

(** The raw data of the example at the end of [composite.py]. *)
Definition example_raw_data : dict raw_value :=
  [ ("plot_id", Text "SAV_001");
    ("ndvi", Num 0.72); ("lai", Num 4.5); ("gpp", Num 1500);
    ("shannon", Num 3.2); ("chao1", Num 150); ("otus", Num 120);
    ("greenup_doy", Num 120);
    ("historical_greenup", Nums [115; 118; 122; 119; 116]);
    ("precipitation", Num 800); ("evapotranspiration", Num 750);
    ("soil_moisture", Num 65); ("runoff", Num 50) ].

(** *** The detector's warning points *)

Import TippingPointResult.

Definition variance_points (alpha : Q) (k : KendallStats) : Q :=
  if Np.gt (tau_var k) 0.2 && Np.lt (p_var k) alpha then 1
  else if Np.gt (tau_var k) 0.1 then 0.5 else 0.

Definition autocorrelation_points (alpha : Q) (k : KendallStats) : Q :=
  if Np.gt (tau_ac k) 0.2 && Np.lt (p_ac k) alpha then 1
  else if Np.gt (tau_ac k) 0.1 then 0.5 else 0.

Definition skewness_points (alpha : Q) (k : KendallStats) : Q :=
  if Np.gt (Np.abs (tau_skew k)) 0.15 && Np.lt (p_skew k) alpha then 0.5 else 0.

Definition recovery_points (alpha : Q) (k : KendallStats) : Q :=
  if Np.lt (tau_rec k) (-0.15) && Np.lt (p_rec k) alpha then 0.5 else 0.

Definition accumulated (alpha : Q) (k : KendallStats) : Q :=
  variance_points alpha k + autocorrelation_points alpha k
  + skewness_points alpha k + recovery_points alpha k.

(** The timestamps, when given, are one per point of the series. *)
Definition timestamps_aligned (timeseries : list npfloat)
  (timestamps : option (list Q)) : Prop :=
  match timestamps with
  | None => True
  | Some ts => List.length ts = List.length timeseries
  end.

(** A result of [detect] that reports an error note instead of an analysis. *)
Definition degraded (r : TippingPointResult.t) : bool :=
  match metadata r with Error _ => true | Info _ _ _ _ => false end.

(** The ranges claimed for every result of [detect]. *)
Definition claimed_ranges (r : TippingPointResult.t) : Prop :=
  In (warning_level r) [0; 1; 2; 3]%Z
  /\ 0 <= confidence r <= 1
  /\ (0 < estimated_months r)%Z.

(** The ranges that hold: the estimate is 0 in a degraded result, and
    positive in every other. *)
Definition result_ranges (r : TippingPointResult.t) : Prop :=
  In (warning_level r) [0; 1; 2; 3]%Z
  /\ 0 <= confidence r <= 1
  /\ (if degraded r then estimated_months r = 0%Z
      else (0 < estimated_months r)%Z).

End Spec.

(* ================================================================== *)
(** * Properties *)
(* ================================================================== *)

(** ** Comparisons and sums *)

Lemma Qgtb_true (a b : Q) : Qgtb a b = true <-> b < a.
Proof.
  unfold Qgtb. rewrite negb_true_iff, <- not_true_iff_false, Qle_bool_iff.
  split; [apply Qnot_le_lt | apply Qlt_not_le].
Qed.

Lemma Qgtb_false (a b : Q) : Qgtb a b = false <-> a <= b.
Proof.
  unfold Qgtb. rewrite negb_false_iff. apply Qle_bool_iff.
Qed.

Lemma Qltb_true (a b : Q) : Qltb a b = true <-> a < b.
Proof. apply Qgtb_true. Qed.

Lemma Qltb_false (a b : Q) : Qltb a b = false <-> b <= a.
Proof. apply Qgtb_false. Qed.

Lemma in_unit_interval_true (v : Q) :
  in_unit_interval v = true <-> 0 <= v <= 1.
Proof.
  unfold in_unit_interval. now rewrite andb_true_iff, !Qle_bool_iff.
Qed.

Lemma Qsum_pos (l : list Q) :
  l <> [] -> Forall (fun w => 0 < w) l -> 0 < Qsum l.
Proof.
  induction l as [|w l IH]; [congruence|].
  intros _ H. inversion_clear H as [|? ? Hw Hl]. cbn beta in Hw.
  destruct l as [|w' l'].
  - unfold Qsum; simpl. lra.
  - assert (0 < Qsum (w' :: l')) by (apply IH; [discriminate | assumption]).
    change (Qsum (w :: w' :: l')) with (w + Qsum (w' :: l')). lra.
Qed.

(** ** BIOTICACore.compute_ibr: normalisation and thresholds *)

Lemma ibr_loop_sums (parameters weights : dict Q) (a : BIOTICACore.acc) :
  let a' := fold_left (BIOTICACore.ibr_step parameters) weights a in
  BIOTICACore.raw_score a'
    == BIOTICACore.raw_score a + Spec.weighted_sum weights parameters
  /\ BIOTICACore.total_weight a'
    == BIOTICACore.total_weight a + Spec.used_weight weights parameters.
Proof.
  revert a. induction weights as [|[param weight] ws IH]; intros a.
  - unfold Spec.weighted_sum, Spec.used_weight, Spec.present, Qsum.
    cbn [fold_left filter map fold_right]. split; ring.
  - cbn [fold_left]. cbv zeta.
    destruct (IH (BIOTICACore.ibr_step parameters a (param, weight))) as [Hr Ht].
    rewrite Hr, Ht. clear IH Hr Ht.
    unfold Spec.weighted_sum, Spec.used_weight, Spec.present, Qsum.
    cbn [filter fst snd]. unfold dict_mem, Spec.value_of, BIOTICACore.ibr_step.
    destruct (dict_get param parameters) as [v|] eqn:E;
      cbn [map fold_right fst snd BIOTICACore.raw_score BIOTICACore.total_weight];
      try rewrite E; split; ring.
Qed.

Lemma IBR_WEIGHTS_positive :
  Forall (fun pw : string * Q => 0 < snd pw) BIOTICACore.IBR_WEIGHTS.
Proof. repeat constructor. Qed.

Lemma IBR_WEIGHTS_sum : Qsum (map snd BIOTICACore.IBR_WEIGHTS) == 1.
Proof. reflexivity. Qed.

Lemma used_weight_positive (parameters : dict Q) :
  Spec.present BIOTICACore.IBR_WEIGHTS parameters <> [] ->
  0 < Spec.used_weight BIOTICACore.IBR_WEIGHTS parameters.
Proof.
  intros Hne. unfold Spec.used_weight. apply Qsum_pos.
  - intros H. apply map_eq_nil in H. contradiction.
  - apply Forall_map. unfold Spec.present.
    apply Forall_forall. intros pw Hin. apply filter_In in Hin.
    destruct Hin as [Hin _].
    exact (proj1 (Forall_forall _ _) IBR_WEIGHTS_positive pw Hin).
Qed.

(** X1.  [compute_ibr] returns the weighted average over the present
    parameters, and 0 when none is present. *)
Lemma compute_ibr_normalized_score (parameters : dict Q) :
  let r := BIOTICACore.compute_ibr parameters in
  let p := Spec.present BIOTICACore.IBR_WEIGHTS parameters in
  BIOTICACore.score r == Spec.weighted_sum BIOTICACore.IBR_WEIGHTS parameters
  /\ (p <> [] ->
      BIOTICACore.normalized_score r
        == Spec.weighted_average BIOTICACore.IBR_WEIGHTS parameters)
  /\ (p = [] -> BIOTICACore.normalized_score r == 0).
Proof.
  intros r p.
  destruct (ibr_loop_sums parameters BIOTICACore.IBR_WEIGHTS
              {| BIOTICACore.raw_score := 0; BIOTICACore.total_weight := 0;
                 BIOTICACore.contribs := [] |}) as [Hr Ht].
  cbn zeta in Hr, Ht. cbn [BIOTICACore.raw_score BIOTICACore.total_weight] in Hr, Ht.
  fold (BIOTICACore.ibr_loop BIOTICACore.IBR_WEIGHTS parameters) in Hr, Ht.
  rewrite Qplus_0_l in Hr, Ht.
  subst r. unfold BIOTICACore.compute_ibr.
  cbn [BIOTICACore.score BIOTICACore.normalized_score].
  split; [exact Hr|]. split.
  - intros Hne. pose proof (used_weight_positive parameters Hne) as Hpos.
    rewrite <- Ht in Hpos.
    rewrite (proj2 (Qgtb_true _ _) Hpos).
    unfold Spec.weighted_average. now rewrite Hr, Ht.
  - intros Hnil. subst p.
    assert (Hz : BIOTICACore.total_weight
                   (BIOTICACore.ibr_loop BIOTICACore.IBR_WEIGHTS parameters) == 0).
    { rewrite Ht. unfold Spec.used_weight. rewrite Hnil. reflexivity. }
    assert (Hf : Qgtb (BIOTICACore.total_weight
                   (BIOTICACore.ibr_loop BIOTICACore.IBR_WEIGHTS parameters)) 0
                 = false).
    { apply Qgtb_false. rewrite Hz. apply Qle_refl. }
    rewrite Hf. reflexivity.
Qed.

Lemma classify_in_class (s : Q) : Spec.in_class s (BIOTICACore.classify s).
Proof.
  unfold BIOTICACore.classify.
  destruct (Qgtb s 0.88) eqn:H1; [now apply Qgtb_true|].
  destruct (Qgtb s 0.75) eqn:H2;
    [split; [now apply Qgtb_true | now apply Qgtb_false]|].
  destruct (Qgtb s 0.60) eqn:H3;
    [split; [now apply Qgtb_true | now apply Qgtb_false]|].
  destruct (Qgtb s 0.45) eqn:H4;
    [split; [now apply Qgtb_true | now apply Qgtb_false]|].
  now apply Qgtb_false.
Qed.

Lemma in_class_unique (s : Q) (c c' : IBRClass) :
  Spec.in_class s c -> Spec.in_class s c' -> c = c'.
Proof.
  destruct c, c'; simpl; intros H H'; try reflexivity; exfalso; lra.
Qed.

(** X2.  [compute_ibr] classifies its normalised score by the threshold
    table, whatever subset of the nine parameters the mapping holds. *)
Lemma compute_ibr_classification (parameters : dict Q) (c : IBRClass) :
  let r := BIOTICACore.compute_ibr parameters in
  BIOTICACore.classification r = c
  <-> Spec.in_class (BIOTICACore.normalized_score r) c.
Proof.
  intros r. subst r. unfold BIOTICACore.compute_ibr.
  cbn [BIOTICACore.classification BIOTICACore.normalized_score].
  split.
  - intros <-. apply classify_in_class.
  - intros H. eapply in_class_unique; [apply classify_in_class | exact H].
Qed.

Lemma classify_boundaries :
  BIOTICACore.classify 0.4499 = COLLAPSED
  /\ BIOTICACore.classify 0.4501 = DEGRADED
  /\ BIOTICACore.classify 0.45 = COLLAPSED
  /\ BIOTICACore.classify 0.60 = DEGRADED
  /\ BIOTICACore.classify 0.75 = IMPAIRED
  /\ BIOTICACore.classify 0.88 = FUNCTIONAL.
Proof. repeat split. Qed.

(** ** Strings and dictionaries *)

Lemma prefix_app (a b : string) : String.prefix a (a ++ b) = true.
Proof.
  induction a as [|c a IH]; simpl.
  - now destruct b.
  - destruct (ascii_dec c c); [exact IH | congruence].
Qed.

Lemma prefix_refl (a : string) : String.prefix a a = true.
Proof.
  induction a as [|c a IH]; simpl; [reflexivity|].
  destruct (ascii_dec c c); [exact IH | congruence].
Qed.

Lemma prefix_app_l (a s q : string) :
  String.prefix a s = true -> String.prefix a (s ++ q) = true.
Proof.
  revert s. induction a as [|c a IH]; intros s H.
  - now destruct (s ++ q).
  - destruct s as [|c' s]; simpl in *; [discriminate|].
    destruct (ascii_dec c c'); [now apply IH | discriminate].
Qed.

Lemma str_in_prefix (a s : string) :
  String.prefix a s = true -> str_in a s = true.
Proof.
  destruct s; simpl; intros H; [exact H | now rewrite H].
Qed.

Lemma str_in_app_r (a p s : string) :
  str_in a s = true -> str_in a (p ++ s) = true.
Proof.
  intros H. induction p as [|c p IH]; simpl; [exact H|].
  rewrite IH. apply orb_true_r.
Qed.

Lemma str_in_app_l (a s q : string) :
  str_in a s = true -> str_in a (s ++ q) = true.
Proof.
  induction s as [|c s IH]; simpl; intros H.
  - destruct a; [|discriminate]. now destruct q.
  - apply orb_true_iff in H. apply orb_true_iff. destruct H as [H|H].
    + left. exact (prefix_app_l a (String c s) q H).
    + right. now apply IH.
Qed.

Lemma str_in_self_app (a q : string) : str_in a (a ++ q) = true.
Proof. apply str_in_prefix, prefix_app. Qed.

(** Every item of a joined list occurs in the joined string. *)
Lemma str_in_join (sep m : string) (l : list string) :
  In m l -> str_in m (join sep l) = true.
Proof.
  unfold join. induction l as [|x l IH]; [contradiction|].
  intros [->|Hin].
  - destruct l; simpl; [|apply str_in_self_app].
    apply str_in_prefix, prefix_refl.
  - destruct l as [|y l]; [contradiction|].
    change (String.concat sep (x :: y :: l))
      with (x ++ sep ++ String.concat sep (y :: l)).
    now apply str_in_app_r, str_in_app_r, IH.
Qed.

Lemma dict_get_set_same {V : Type} (k : string) (v : V) (d : dict V) :
  dict_get k (dict_set k v d) = Some v.
Proof.
  induction d as [|[k' v'] d IH]; simpl.
  - now rewrite String.eqb_refl.
  - destruct (String.eqb k k') eqn:E; simpl.
    + now rewrite String.eqb_refl.
    + now rewrite E.
Qed.

Lemma dict_get_set_other {V : Type} (k k' : string) (v : V) (d : dict V) :
  k <> k' -> dict_get k (dict_set k' v d) = dict_get k d.
Proof.
  intros Hne. induction d as [|[k0 v0] d IH]; simpl.
  - now rewrite (proj2 (String.eqb_neq k k') Hne).
  - destruct (String.eqb k' k0) eqn:E; simpl.
    + apply String.eqb_eq in E. subst k0.
      now rewrite (proj2 (String.eqb_neq k k') Hne).
    + destruct (String.eqb k k0); [reflexivity | exact IH].
Qed.

Lemma dict_get_not_in {V : Type} (k : string) (d : dict V) :
  ~ In k (dict_keys d) -> dict_get k d = None.
Proof.
  induction d as [|[k' v] d IH]; simpl; intros H; [reflexivity|].
  destruct (String.eqb k k') eqn:E.
  - apply String.eqb_eq in E. subst. tauto.
  - apply IH. tauto.
Qed.

Lemma dict_get_in {V : Type} (k : string) (v : V) (d : dict V) :
  dict_get k d = Some v -> In (k, v) d.
Proof.
  induction d as [|[k' v'] d IH]; simpl; [discriminate|].
  destruct (String.eqb k k') eqn:E.
  - apply String.eqb_eq in E. intros [= ->]. subst. now left.
  - intros H. right. now apply IH.
Qed.

Lemma dict_set_in {V : Type} (k : string) (v : V) (d : dict V) :
  In (k, v) (dict_set k v d).
Proof.
  induction d as [|[k' v'] d IH]; simpl; [now left|].
  destruct (String.eqb k k'); [now left | now right].
Qed.

Lemma dict_mem_in {V : Type} (k : string) (v : V) (d : dict V) :
  In (k, v) d -> dict_mem k d = true.
Proof.
  unfold dict_mem. induction d as [|[k' v'] d IH]; simpl; [contradiction|].
  intros [[= -> ->]|Hin].
  - now rewrite String.eqb_refl.
  - destruct (String.eqb k k'); [reflexivity | now apply IH].
Qed.

Lemma dict_get_map {A B : Type} (g : A -> B) (k : string) (d : dict A) :
  dict_get k (map (fun nd => (fst nd, g (snd nd))) d)
  = option_map g (dict_get k d).
Proof.
  induction d as [|[k' v] d IH]; simpl; [reflexivity|].
  destruct (String.eqb k k'); [reflexivity | exact IH].
Qed.

(** A loop that copies the selected items of a dictionary into a fresh one:
    what it holds afterwards under each key. *)
Lemma fold_dict_set_get {A : Type} (keep : string -> bool) (f : A -> Q)
  (l : dict A) (d0 : dict Q) (k : string) :
  NoDup (dict_keys l) ->
  dict_get k
    (fold_left (fun (d : dict Q) (nd : string * A) =>
                  let (n, e) := nd in
                  if keep n then dict_set n (f e) d else d) l d0)
  = match dict_get k l with
    | Some e => if keep k then Some (f e) else dict_get k d0
    | None => dict_get k d0
    end.
Proof.
  revert d0. induction l as [|[n e] l IH]; intros d0 Hnd; simpl; [reflexivity|].
  inversion_clear Hnd as [|? ? Hn Hl].
  rewrite (IH _ Hl). clear IH.
  destruct (String.eqb k n) eqn:E.
  - apply String.eqb_eq in E. subst n.
    rewrite (dict_get_not_in k l Hn).
    destruct (keep k); [apply dict_get_set_same | reflexivity].
  - apply String.eqb_neq in E.
    assert (Hd : dict_get k (if keep n then dict_set n (f e) d0 else d0)
                 = dict_get k d0).
    { destruct (keep n); [now apply dict_get_set_other | reflexivity]. }
    rewrite Hd. reflexivity.
Qed.

(** ** IBRComposite.compute: what it returns *)

Lemma score_loop_fold (pv weights : dict Q) (a : Q) (c : dict Q) :
  fst (fold_left (fun (a : Q * dict Q) (pw : string * Q) =>
                    let (ibr_score, contributions) := a in
                    let (param, weight) := pw in
                    match dict_get param pv with
                    | Some v =>
                        let contrib := v * weight in
                        (ibr_score + contrib, dict_set param contrib contributions)
                    | None => a
                    end) weights (a, c))
  == a + Spec.weighted_sum weights pv.
Proof.
  revert a c. induction weights as [|[param weight] ws IH]; intros a c.
  - unfold Spec.weighted_sum, Spec.present, Qsum.
    cbn [fold_left filter map fold_right fst]. ring.
  - cbn [fold_left].
    unfold Spec.weighted_sum, Spec.present, Qsum in *.
    cbn [filter fst snd]. unfold dict_mem, Spec.value_of in *.
    destruct (dict_get param pv) as [v|] eqn:E; cbv zeta; rewrite IH;
      cbn [map fold_right fst snd]; try rewrite E; ring.
Qed.

Lemma score_loop_sum (pv : dict Q) :
  fst (IBRComposite.score_loop pv)
  == Spec.weighted_sum BIOTICACore.IBR_WEIGHTS pv.
Proof.
  unfold IBRComposite.score_loop. rewrite score_loop_fold. ring.
Qed.

Lemma uncertainty_sq_fold (pu weights : dict Q) (a : Q) :
  fold_left (fun (usq : Q) (pw : string * Q) =>
               let (param, weight) := pw in
               match dict_get param pu with
               | Some u => usq + (weight ^ 2) * (u ^ 2)
               | None => usq
               end) weights a
  == a + Spec.variance_sum weights pu.
Proof.
  revert a. induction weights as [|[param weight] ws IH]; intros a.
  - unfold Spec.variance_sum, Spec.present, Qsum.
    cbn [fold_left filter map fold_right]. ring.
  - cbn [fold_left]. rewrite IH.
    unfold Spec.variance_sum, Spec.present, Qsum.
    cbn [filter fst snd]. unfold dict_mem, Spec.value_of.
    destruct (dict_get param pu) as [u|] eqn:E;
      cbn [map fold_right fst snd]; try rewrite E; ring.
Qed.

Lemma uncertainty_sq_sum (pu : dict Q) :
  IBRComposite.uncertainty_sq pu
  == Spec.variance_sum BIOTICACore.IBR_WEIGHTS pu.
Proof.
  unfold IBRComposite.uncertainty_sq. rewrite uncertainty_sq_fold. ring.
Qed.

(** The sums only read the mapping at the keys of the weight table. *)
Lemma present_ext (weights p1 p2 : dict Q) :
  (forall pw, In pw weights -> dict_get (fst pw) p1 = dict_get (fst pw) p2) ->
  Spec.present weights p1 = Spec.present weights p2.
Proof.
  intros H. unfold Spec.present. apply filter_ext_in.
  intros pw Hin. unfold dict_mem. now rewrite (H pw Hin).
Qed.

Lemma weighted_sum_ext (weights p1 p2 : dict Q) :
  (forall pw, In pw weights -> dict_get (fst pw) p1 = dict_get (fst pw) p2) ->
  Spec.weighted_sum weights p1 = Spec.weighted_sum weights p2.
Proof.
  intros H. unfold Spec.weighted_sum. rewrite (present_ext _ _ _ H).
  f_equal. apply map_ext_in. intros pw Hin.
  apply filter_In in Hin. destruct Hin as [Hin _].
  unfold Spec.value_of. now rewrite (H pw Hin).
Qed.

Lemma variance_sum_ext (weights p1 p2 : dict Q) :
  (forall pw, In pw weights -> dict_get (fst pw) p1 = dict_get (fst pw) p2) ->
  Spec.variance_sum weights p1 = Spec.variance_sum weights p2.
Proof.
  intros H. unfold Spec.variance_sum. rewrite (present_ext _ _ _ H).
  f_equal. apply map_ext_in. intros pw Hin.
  apply filter_In in Hin. destruct Hin as [Hin _].
  unfold Spec.value_of. now rewrite (H pw Hin).
Qed.

Lemma param_values_get (self : IBRComposite.state) (pw : string * Q) :
  Spec.well_formed self -> In pw BIOTICACore.IBR_WEIGHTS ->
  dict_get (fst pw) (IBRComposite.param_values self)
  = dict_get (fst pw) (Spec.stored_values self).
Proof.
  intros Hwf Hin. unfold IBRComposite.param_values, Spec.stored_values.
  rewrite (fold_dict_set_get
             (fun n => dict_mem n BIOTICACore.IBR_WEIGHTS) IBRComposite.value
             _ _ _ Hwf).
  rewrite dict_get_map. destruct pw as [k w]. cbn [fst].
  rewrite (dict_mem_in k w _ Hin).
  now destruct (dict_get k (IBRComposite.parameters self)).
Qed.

Lemma param_uncertainties_get (self : IBRComposite.state) (pw : string * Q) :
  Spec.well_formed self -> In pw BIOTICACore.IBR_WEIGHTS ->
  dict_get (fst pw) (IBRComposite.param_uncertainties self)
  = dict_get (fst pw) (Spec.stored_uncertainties self).
Proof.
  intros Hwf Hin. unfold IBRComposite.param_uncertainties, Spec.stored_uncertainties.
  rewrite (fold_dict_set_get
             (fun n => dict_mem n BIOTICACore.IBR_WEIGHTS) Spec.entry_uncertainty
             _ _ _ Hwf).
  rewrite dict_get_map. destruct pw as [k w]. cbn [fst].
  rewrite (dict_mem_in k w _ Hin).
  now destruct (dict_get k (IBRComposite.parameters self)).
Qed.

(** Whatever [compute] returns was built from [self] as follows, and [self]
    is left as it was. *)
Lemma compute_inv (classify : Q -> IBRClass) (fmt : FloatFormat) (validate : bool)
  (self self' : IBRComposite.state) (r : IBRResult.t) :
  IBRComposite.compute classify fmt validate self = (Return r, self') ->
  self' = self
  /\ IBRResult.score r
     = fst (IBRComposite.score_loop (IBRComposite.param_values self))
  /\ IBRResult.contributions r
     = snd (IBRComposite.score_loop (IBRComposite.param_values self))
  /\ IBRResult.classification r = classify (IBRResult.score r)
  /\ IBRResult.uncertainty r
     = sqrt (Q2R (IBRComposite.uncertainty_sq
                    (IBRComposite.param_uncertainties self)))
  /\ IBRResult.confidence r = (1 - IBRResult.uncertainty r)%R
  /\ IBRResult.biome r = IBRComposite.biome self
  /\ IBRResult.plot_id r = IBRComposite.plot_id self.
Proof.
  cbv beta iota zeta delta
    [IBRComposite.compute IBRComposite.bind IBRComposite.validate_parameters
     IBRComposite.get_self IBRComposite.ret IBRComposite.raise
     IBRComposite._apply_biome_correction].
  destruct validate.
  - match goal with
    | |- context [negb (Nat.eqb ?n 0)] => destruct (negb (Nat.eqb n 0))
    end; [discriminate|].
    destruct (IBRComposite.score_loop (IBRComposite.param_values self))
      as [s c].
    assert (Hs : (if IBRComposite.is_truthy (IBRComposite.biome self)
                  then s else s) = s)
      by now destruct (IBRComposite.is_truthy (IBRComposite.biome self)).
    rewrite Hs. intros [= <- <-]. cbn. repeat split; reflexivity.
  - destruct (IBRComposite.score_loop (IBRComposite.param_values self))
      as [s c].
    assert (Hs : (if IBRComposite.is_truthy (IBRComposite.biome self)
                  then s else s) = s)
      by now destruct (IBRComposite.is_truthy (IBRComposite.biome self)).
    rewrite Hs. intros [= <- <-]. cbn. repeat split; reflexivity.
Qed.

(** Without validation [compute] always returns. *)
Lemma compute_unvalidated_returns (classify : Q -> IBRClass) (fmt : FloatFormat)
  (self : IBRComposite.state) :
  exists r, IBRComposite.compute classify fmt false self = (Return r, self).
Proof.
  cbv beta iota zeta delta
    [IBRComposite.compute IBRComposite.bind IBRComposite.get_self
     IBRComposite.ret].
  destruct (IBRComposite.score_loop (IBRComposite.param_values self)) as [s c].
  eexists. reflexivity.
Qed.

(** With validation passed [compute] returns. *)
Lemma compute_validated_returns (classify : Q -> IBRClass) (fmt : FloatFormat)
  (self : IBRComposite.state)
  (ws : list string) :
  IBRComposite.validate_parameters fmt self = (Return (true, ws), self) ->
  exists r, IBRComposite.compute classify fmt true self = (Return r, self).
Proof.
  intros Hv.
  cbv beta iota zeta delta [IBRComposite.compute IBRComposite.bind].
  rewrite Hv.
  cbv beta iota zeta delta [negb IBRComposite.ret IBRComposite.get_self].
  destruct (IBRComposite.score_loop (IBRComposite.param_values self)) as [s c].
  eexists. reflexivity.
Qed.

(** The score of the calculator is the plain weighted sum of the stored
    values of the weighted parameters; the weights are not renormalised. *)
Lemma composite_score_weighted_sum (classify : Q -> IBRClass)
  (fmt : FloatFormat) (validate : bool)
  (self self' : IBRComposite.state) (r : IBRResult.t) :
  Spec.well_formed self ->
  IBRComposite.compute classify fmt validate self = (Return r, self') ->
  IBRResult.score r
  == Spec.weighted_sum BIOTICACore.IBR_WEIGHTS (Spec.stored_values self).
Proof.
  intros Hwf H. destruct (compute_inv _ _ _ _ _ _ H) as (_ & Hs & _).
  rewrite Hs, score_loop_sum.
  rewrite (weighted_sum_ext _ _ (Spec.stored_values self)
             (fun pw Hin => param_values_get self pw Hwf Hin)).
  reflexivity.
Qed.

(** With all nine weighted parameters stored the used weight is 1, and the
    score is also the weighted average. *)
Lemma composite_score_full_set (classify : Q -> IBRClass)
  (fmt : FloatFormat) (validate : bool)
  (self self' : IBRComposite.state) (r : IBRResult.t) :
  Spec.well_formed self ->
  Spec.present BIOTICACore.IBR_WEIGHTS (Spec.stored_values self)
  = BIOTICACore.IBR_WEIGHTS ->
  IBRComposite.compute classify fmt validate self = (Return r, self') ->
  IBRResult.score r
  == Spec.weighted_average BIOTICACore.IBR_WEIGHTS (Spec.stored_values self).
Proof.
  intros Hwf Hall H.
  rewrite (composite_score_weighted_sum _ _ _ _ _ _ Hwf H).
  unfold Spec.weighted_average, Spec.used_weight. rewrite Hall.
  rewrite IBR_WEIGHTS_sum. field.
Qed.

Lemma classify_ibr_respects_Qeq (x y : Q) :
  x == y -> BIOTICACore._classify_ibr x = BIOTICACore._classify_ibr y.
Proof.
  intros H.
  assert (Hc : forall c, Qgtb x c = Qgtb y c)
    by (intros c; unfold Qgtb; now rewrite H).
  unfold BIOTICACore._classify_ibr. now rewrite !Hc.
Qed.

(** C1 (defect of [IBRComposite.compute]).  The claim: every computed
    classification is the threshold class of the normalised score, also for a
    strict subset of the nine parameters.  [BIOTICACore.compute_ibr] does so
    ([compute_ibr_classification]).  [IBRComposite.compute] passes the score
    it did not normalise to [_classify_ibr]: whatever that method is (as long
    as equal scores get equal classes), the calculator loaded with only
    VCA = 1 and MDI = 1 (validation off) and the one loaded with all nine
    parameters at 0.35 both have the score 0.35 and so the same class, while
    the weighted averages over the present parameters are 1 and 0.35, whose
    classes are PRISTINE and COLLAPSED, the classes [compute_ibr] returns. *)
Theorem composite_classifies_raw_score
  (classify : Q -> IBRClass) (fmt : FloatFormat) :
  (forall x y, x == y -> classify x = classify y) ->
  let subset := [("VCA", 1); ("MDI", 1)] in
  let full := map (fun pw : string * Q => (fst pw, 0.35)) BIOTICACore.IBR_WEIGHTS in
  exists r r',
    IBRComposite.compute classify fmt false (Spec.calculator_with fmt subset)
    = (Return r, Spec.calculator_with fmt subset)
    /\ IBRComposite.compute classify fmt true (Spec.calculator_with fmt full)
       = (Return r', Spec.calculator_with fmt full)
    /\ IBRResult.score r == 0.35
    /\ IBRResult.score r' == 0.35
    /\ IBRResult.classification r = IBRResult.classification r'
    /\ Spec.in_class (Spec.weighted_average BIOTICACore.IBR_WEIGHTS subset)
                     PRISTINE
    /\ Spec.in_class (Spec.weighted_average BIOTICACore.IBR_WEIGHTS full)
                     COLLAPSED
    /\ BIOTICACore.classification (BIOTICACore.compute_ibr subset) = PRISTINE
    /\ BIOTICACore.classification (BIOTICACore.compute_ibr full) = COLLAPSED.
Proof.
  intros Hproper subset full.
  destruct (compute_unvalidated_returns classify fmt
              (Spec.calculator_with fmt subset)) as [r Hr].
  assert (Hv : IBRComposite.validate_parameters fmt (Spec.calculator_with fmt full)
               = (Return (true, []), Spec.calculator_with fmt full))
    by (vm_compute; reflexivity).
  destruct (compute_validated_returns classify fmt _ [] Hv) as [r' Hr'].
  exists r, r'. split; [exact Hr|]. split; [exact Hr'|].
  destruct (compute_inv _ _ _ _ _ _ Hr) as (_ & Hs & _ & Hc & _).
  destruct (compute_inv _ _ _ _ _ _ Hr') as (_ & Hs' & _ & Hc' & _).
  assert (H35 : IBRResult.score r == 0.35) by (rewrite Hs; reflexivity).
  assert (H35' : IBRResult.score r' == 0.35) by (rewrite Hs'; reflexivity).
  split; [exact H35|]. split; [exact H35'|].
  split; [rewrite Hc, Hc'; apply Hproper; now rewrite H35, H35'|].
  split; [reflexivity|].
  split; [vm_compute; discriminate|].
  split; reflexivity.
Qed.

Lemma composite_classifies_raw_score_witness :
  let fmt := {| str_float := fun _ => "1.0"; format_3f := fun _ => "1.000" |} in
  let subset := [("VCA", 1); ("MDI", 1)] in
  let full := map (fun pw : string * Q => (fst pw, 0.35)) BIOTICACore.IBR_WEIGHTS in
  exists r r',
    IBRComposite.compute BIOTICACore._classify_ibr fmt false
      (Spec.calculator_with fmt subset)
    = (Return r, Spec.calculator_with fmt subset)
    /\ IBRComposite.compute BIOTICACore._classify_ibr fmt true
         (Spec.calculator_with fmt full)
       = (Return r', Spec.calculator_with fmt full)
    /\ IBRResult.score r == 0.35
    /\ IBRResult.score r' == 0.35
    /\ IBRResult.classification r = IBRResult.classification r'
    /\ Spec.in_class (Spec.weighted_average BIOTICACore.IBR_WEIGHTS subset)
                     PRISTINE
    /\ Spec.in_class (Spec.weighted_average BIOTICACore.IBR_WEIGHTS full)
                     COLLAPSED
    /\ BIOTICACore.classification (BIOTICACore.compute_ibr subset) = PRISTINE
    /\ BIOTICACore.classification (BIOTICACore.compute_ibr full) = COLLAPSED.
Proof.
  intros fmt subset full.
  exact (composite_classifies_raw_score BIOTICACore._classify_ibr fmt
           classify_ibr_respects_Qeq).
Defined.

(** With the threshold table as [_classify_ibr], the calculator loaded with
    VCA = 1 and MDI = 1 alone is classified COLLAPSED. *)
Lemma composite_subset_collapsed (fmt : FloatFormat) :
  let self := Spec.calculator_with fmt [("VCA", 1); ("MDI", 1)] in
  exists r,
    IBRComposite.compute BIOTICACore._classify_ibr fmt false self
    = (Return r, self)
    /\ IBRResult.classification r = COLLAPSED.
Proof.
  intros self.
  destruct (compute_unvalidated_returns BIOTICACore._classify_ibr fmt self)
    as [r Hr].
  exists r. split; [exact Hr|].
  destruct (compute_inv _ _ _ _ _ _ Hr) as (_ & Hs & _ & Hc & _).
  rewrite Hc, Hs. reflexivity.
Qed.

(** C2 (defect of [IBRComposite.compute], the same as for C1).  The claim:
    the computed result carries the weighted average over the present
    parameters.  [BIOTICACore.compute_ibr] returns it as [normalized_score]
    ([compute_ibr_normalized_score]).  The result of [IBRComposite.compute]
    has a single score, the weighted sum that was never divided by the used
    weight: for VCA = 1 and MDI = 1 it is 0.35, not the weighted average 1
    that [compute_ibr] returns for the same mapping. *)
Theorem composite_score_not_renormalized
  (classify : Q -> IBRClass) (fmt : FloatFormat) :
  let mapping := [("VCA", 1); ("MDI", 1)] in
  let self := Spec.calculator_with fmt mapping in
  exists r,
    IBRComposite.compute classify fmt false self = (Return r, self)
    /\ IBRResult.score r == 0.35
    /\ IBRResult.score r == Spec.weighted_sum BIOTICACore.IBR_WEIGHTS mapping
    /\ ~ IBRResult.score r
         == Spec.weighted_average BIOTICACore.IBR_WEIGHTS mapping
    /\ BIOTICACore.normalized_score (BIOTICACore.compute_ibr mapping)
       == Spec.weighted_average BIOTICACore.IBR_WEIGHTS mapping
    /\ Spec.weighted_average BIOTICACore.IBR_WEIGHTS mapping == 1.
Proof.
  intros mapping self.
  destruct (compute_unvalidated_returns classify fmt self) as [r Hr].
  exists r. split; [exact Hr|].
  destruct (compute_inv _ _ _ _ _ _ Hr) as (_ & Hs & _).
  rewrite Hs.
  split; [reflexivity|].
  split; [reflexivity|].
  split; [intros H; vm_compute in H; discriminate|].
  split; reflexivity.
Qed.

(** ** IBRComposite: validation *)

Lemma set_mem_In (k : string) (l : list string) :
  set_mem k l = true <-> In k l.
Proof.
  unfold set_mem. rewrite existsb_exists. split.
  - intros [x [Hin Hx]]. apply String.eqb_eq in Hx. now subst.
  - intros Hin. exists k. split; [exact Hin | apply String.eqb_refl].
Qed.

(** The missing parameters are the keys of the weight table that are not
    keys of [self.parameters]. *)
Lemma missing_spec (self : IBRComposite.state) (m : string) :
  In m (IBRComposite.missing self)
  <-> In m (dict_keys BIOTICACore.IBR_WEIGHTS)
      /\ ~ In m (dict_keys (IBRComposite.parameters self)).
Proof.
  unfold IBRComposite.missing, IBRComposite.required_params,
    IBRComposite.provided_params, set_diff, set_of.
  rewrite filter_In, nodup_In, negb_true_iff, <- not_true_iff_false,
    set_mem_In, nodup_In.
  reflexivity.
Qed.

(** With a required parameter missing, validation reports invalid with a
    warning that names every missing parameter, and [compute(validate=True)]
    raises a ValueError that carries the warnings. *)
Lemma compute_raises_when_missing (classify : Q -> IBRClass) (fmt : FloatFormat)
  (self : IBRComposite.state) :
  IBRComposite.missing self <> [] ->
  exists ws,
    IBRComposite.validate_parameters fmt self = (Return (false, ws), self)
    /\ ws <> []
    /\ (exists w, In w ws
          /\ forall m, In m (IBRComposite.missing self) -> str_in m w = true)
    /\ IBRComposite.compute classify fmt true self
       = (Raise (ValueError ("Parameter validation failed: " ++ repr_list ws)),
          self).
Proof.
  intros Hmiss.
  assert (Hw : IBRComposite.missing_warning self
               = ["Missing parameters: "
                  ++ join ", " (IBRComposite.missing self)]).
  { unfold IBRComposite.missing_warning.
    destruct (IBRComposite.missing self); [congruence | reflexivity]. }
  assert (Hv : exists ws,
             IBRComposite.validate_parameters fmt self
             = (Return (false, ("Missing parameters: "
                                ++ join ", " (IBRComposite.missing self)) :: ws),
                self)).
  { cbv beta iota zeta delta
      [IBRComposite.validate_parameters IBRComposite.bind
       IBRComposite.get_self IBRComposite.ret].
    rewrite Hw. eexists. cbn [app filter].
    change (str_in "Missing"
              ("Missing parameters: " ++ join ", " (IBRComposite.missing self)))
      with true.
    cbn [List.length Nat.eqb]. reflexivity. }
  destruct Hv as [ws Hv].
  eexists. split; [exact Hv|]. split; [discriminate|]. split.
  - eexists. split; [now left|].
    intros m Hm. now apply str_in_app_r, str_in_join.
  - cbv beta iota zeta delta [IBRComposite.compute IBRComposite.bind].
    rewrite Hv. reflexivity.
Qed.

(** C5 (defect of [validate_parameters]).  The claim: with no required
    parameter missing validation never fails, extra parameters only add a
    warning.  [is_valid] is computed by searching the rendered warnings for
    the text "Missing", which also matches the name of a parameter: with the
    nine required parameters at 0.5 and one extra parameter named
    "Missing_X", nothing is missing, the only warning is the one about the
    extra parameter, and yet validation reports invalid and
    [compute(validate=True)] raises.  (With a required parameter missing the
    code does what the claim says: [compute_raises_when_missing].) *)
Theorem validation_fails_on_extra_named_Missing
  (classify : Q -> IBRClass) (fmt : FloatFormat) :
  let params :=
    (map (fun pw : string * Q => (fst pw, 0.5)) BIOTICACore.IBR_WEIGHTS
     ++ [("Missing_X", 0.5)])%list in
  let self := Spec.calculator_with fmt params in
  IBRComposite.missing self = []
  /\ IBRComposite.validate_parameters fmt self
     = (Return (false, ["Extra parameters (will be ignored): Missing_X"]), self)
  /\ IBRComposite.compute classify fmt true self
     = (Raise (ValueError
          "Parameter validation failed: ['Extra parameters (will be ignored): Missing_X']"),
        self).
Proof.
  intros params self. split; [reflexivity|].
  assert (Hv : IBRComposite.validate_parameters fmt self
     = (Return (false, ["Extra parameters (will be ignored): Missing_X"]), self))
    by (vm_compute; reflexivity).
  split; [exact Hv|].
  cbv beta iota zeta delta [IBRComposite.compute IBRComposite.bind].
  rewrite Hv. reflexivity.
Qed.

Lemma validate_parameters_range_warning (fmt : FloatFormat)
  (self : IBRComposite.state) (name : string) (data : IBRComposite.entry) :
  In (name, data) (IBRComposite.parameters self) ->
  ~ 0 <= IBRComposite.value data <= 1 ->
  exists is_valid ws,
    IBRComposite.validate_parameters fmt self = (Return (is_valid, ws), self)
    /\ In (IBRComposite.out_of_range_message fmt name (IBRComposite.value data))
          ws.
Proof.
  intros Hin Hout.
  cbv beta iota zeta delta
    [IBRComposite.validate_parameters IBRComposite.bind
     IBRComposite.get_self IBRComposite.ret].
  do 2 eexists. split; [reflexivity|].
  apply in_or_app. right. apply in_or_app. right. apply in_or_app. left.
  unfold IBRComposite.range_warnings. apply in_flat_map.
  exists (name, data). split; [exact Hin|].
  destruct (in_unit_interval (IBRComposite.value data)) eqn:E.
  - apply in_unit_interval_true in E. contradiction.
  - now left.
Qed.

(** C9.  [set_parameter] raises a ValueError exactly when the value is
    outside [0,1] (inside, it stores the value), and when it raises the
    stored parameters are unchanged.  An out-of-range value that is already
    stored (the unchecked [set_parameter_result] stores one without raising)
    makes [validate_parameters] return, without raising, a warnings list
    with the out-of-range warning for that parameter. *)
Theorem set_parameter_strict_validate_advisory
  (fmt : FloatFormat) (name : string) (v : Q) (unc : option Q)
  (self : IBRComposite.state) :
  (0 <= v <= 1 ->
     IBRComposite.set_parameter fmt name v unc self
     = (Return tt,
        IBRComposite.with_parameters self
          (dict_set name
             {| IBRComposite.value := v;
                IBRComposite.uncertainty :=
                  Some (IBRComposite.uncertainty_or_default unc) |}
             (IBRComposite.parameters self))))
  /\ (~ 0 <= v <= 1 ->
        IBRComposite.set_parameter fmt name v unc self
        = (Raise (ValueError ("Parameter " ++ name ++ " value "
                              ++ str_float fmt v ++ " must be in [0,1]")),
           self))
  /\ (forall data,
        In (name, data) (IBRComposite.parameters self) ->
        ~ 0 <= IBRComposite.value data <= 1 ->
        exists is_valid ws,
          IBRComposite.validate_parameters fmt self
          = (Return (is_valid, ws), self)
          /\ In (IBRComposite.out_of_range_message fmt name
                   (IBRComposite.value data)) ws)
  /\ (forall result,
        ~ 0 <= pr_value result <= 1 ->
        exists self' is_valid ws,
          IBRComposite.set_parameter_result name result self = (Return tt, self')
          /\ IBRComposite.validate_parameters fmt self'
             = (Return (is_valid, ws), self')
          /\ In (IBRComposite.out_of_range_message fmt name (pr_value result))
                ws).
Proof.
  unfold IBRComposite.set_parameter.
  split; [|split; [|split]].
  - intros Hin. apply in_unit_interval_true in Hin. rewrite Hin. reflexivity.
  - intros Hout.
    destruct (in_unit_interval v) eqn:E.
    + apply in_unit_interval_true in E. contradiction.
    + reflexivity.
  - intros data. apply validate_parameters_range_warning.
  - intros result Hout.
    eexists.
    destruct (validate_parameters_range_warning fmt
                (IBRComposite.with_parameters self
                   (dict_set name
                      {| IBRComposite.value := pr_value result;
                         IBRComposite.uncertainty := Some (pr_uncertainty result) |}
                      (IBRComposite.parameters self)))
                name
                {| IBRComposite.value := pr_value result;
                   IBRComposite.uncertainty := Some (pr_uncertainty result) |})
      as (ok & ws & Hv & Hw); [apply dict_set_in | exact Hout |].
    exists ok, ws. split; [reflexivity|]. split; [exact Hv | exact Hw].
Qed.

Lemma set_parameter_strict_validate_advisory_witness :
  let fmt := {| str_float := fun _ => "1.5"; format_3f := fun _ => "1.500" |} in
  let self := IBRComposite.__init__ None None in
  IBRComposite.set_parameter fmt "VCA" 1.5 None self
  = (Raise (ValueError "Parameter VCA value 1.5 must be in [0,1]"), self).
Proof.
  intros fmt self.
  apply (proj1 (proj2
           (set_parameter_strict_validate_advisory fmt "VCA" 1.5 None self))).
  intros [_ H]. vm_compute in H. apply H. reflexivity.
Defined.

(** C10.  The biome correction is the identity, so [compute] returns the
    same outcome with and without a biome, except for the [biome] field of
    the result. *)
Theorem biome_only_sets_the_biome_field
  (classify : Q -> IBRClass) (fmt : FloatFormat) (validate : bool) (self : IBRComposite.state)
  (b : option BiomeType) :
  (forall score params, IBRComposite._apply_biome_correction score params = score)
  /\ IBRComposite.compute classify fmt validate (IBRComposite.with_biome self b)
     = (outcome_map (IBRResult.with_biome b)
          (fst (IBRComposite.compute classify fmt validate
                  (IBRComposite.with_biome self None))),
        IBRComposite.with_biome self b).
Proof.
  split; [reflexivity|].
  destruct self as [pid bio params].
  cbv beta iota zeta delta
    [IBRComposite.compute IBRComposite.bind IBRComposite.validate_parameters
     IBRComposite.get_self IBRComposite.ret IBRComposite.raise
     IBRComposite._apply_biome_correction IBRComposite.with_biome
     IBRComposite.missing_warning IBRComposite.extra_warning
     IBRComposite.range_warnings IBRComposite.extreme_warnings
     IBRComposite.missing IBRComposite.extra IBRComposite.provided_params
     IBRComposite.param_values IBRComposite.param_uncertainties
     IBRComposite.parameters IBRComposite.biome IBRComposite.plot_id
     IBRComposite.is_truthy].
  destruct validate.
  - match goal with
    | |- context [negb (Nat.eqb ?n 0)] => destruct (negb (Nat.eqb n 0))
    end; [reflexivity|].
    match goal with
    | |- context [IBRComposite.score_loop ?pv] =>
        destruct (IBRComposite.score_loop pv) as [s c]
    end.
    destruct b; cbn [fst outcome_map IBRResult.with_biome];
      repeat match goal with
             | |- context [Qltb ?a ?c] => destruct (Qltb a c)
             end; reflexivity.
  - match goal with
    | |- context [IBRComposite.score_loop ?pv] =>
        destruct (IBRComposite.score_loop pv) as [s c]
    end.
    destruct b; cbn [fst outcome_map IBRResult.with_biome];
      repeat match goal with
             | |- context [Qltb ?a ?c] => destruct (Qltb a c)
             end; reflexivity.
Qed.

(** ** IBRComposite: uncertainty and confidence *)

Lemma Q2R_gt_1 (q : Q) : 1 < q -> (1 < Q2R q)%R.
Proof.
  intros H. apply Qlt_Rlt in H.
  replace (Q2R 1) with 1%R in H by (unfold Q2R; simpl; field).
  exact H.
Qed.

Lemma confidence_negative (q : Q) : 1 < q -> (1 - sqrt (Q2R q) < 0)%R.
Proof.
  intros H. apply Q2R_gt_1 in H.
  assert (1 < sqrt (Q2R q))%R.
  { rewrite <- sqrt_1 at 1. apply sqrt_lt_1_alt. lra. }
  lra.
Qed.

(** C6.  Whenever [compute] returns, the uncertainty of the result is the
    square root of the sum, over the weighted parameters that are stored, of
    weight^2 times the stored uncertainty^2, and the confidence is
    1 - uncertainty, not clamped: with the nine parameters stored at 0.5 with
    uncertainty 10 each, [compute(validate=True)] returns a negative
    confidence. *)
Theorem compute_uncertainty_confidence :
  (forall (classify : Q -> IBRClass) (fmt : FloatFormat) (validate : bool)
          (self self' : IBRComposite.state) (r : IBRResult.t),
     Spec.well_formed self ->
     IBRComposite.compute classify fmt validate self = (Return r, self') ->
     IBRResult.uncertainty r
     = sqrt (Q2R (Spec.variance_sum BIOTICACore.IBR_WEIGHTS
                    (Spec.stored_uncertainties self)))
     /\ IBRResult.confidence r = (1 - IBRResult.uncertainty r)%R)
  /\ (forall (classify : Q -> IBRClass) (fmt : FloatFormat),
      let calls :=
        map (fun pw : string * Q => (fst pw, 0.5, Some 10))
            BIOTICACore.IBR_WEIGHTS in
      exists self r,
        Spec.load fmt calls (IBRComposite.__init__ None None)
        = (Return tt, self)
        /\ IBRComposite.compute classify fmt true self = (Return r, self)
        /\ (IBRResult.confidence r < 0)%R).
Proof.
  assert (Hgen : forall classify fmt validate self self' r,
     Spec.well_formed self ->
     IBRComposite.compute classify fmt validate self = (Return r, self') ->
     IBRResult.uncertainty r
     = sqrt (Q2R (Spec.variance_sum BIOTICACore.IBR_WEIGHTS
                    (Spec.stored_uncertainties self)))
     /\ IBRResult.confidence r = (1 - IBRResult.uncertainty r)%R).
  { intros classify fmt validate self self' r Hwf H.
    destruct (compute_inv _ _ _ _ _ _ H) as (_ & _ & _ & _ & Hu & Hc & _).
    split; [|exact Hc]. rewrite Hu. f_equal. apply Qeq_eqR.
    rewrite uncertainty_sq_sum.
    rewrite (variance_sum_ext _ _ (Spec.stored_uncertainties self)
               (fun pw Hin => param_uncertainties_get self pw Hwf Hin)).
    reflexivity. }
  split; [exact Hgen|].
  intros classify fmt calls.
  set (self := snd (Spec.load fmt calls (IBRComposite.__init__ None None))).
  assert (Hload : Spec.load fmt calls (IBRComposite.__init__ None None)
                  = (Return tt, self)) by reflexivity.
  assert (Hv : IBRComposite.validate_parameters fmt self = (Return (true, []), self))
    by (vm_compute; reflexivity).
  destruct (compute_validated_returns classify fmt self [] Hv) as [r Hr].
  exists self, r. split; [exact Hload|]. split; [exact Hr|].
  assert (Hwf : Spec.well_formed self).
  { unfold Spec.well_formed. vm_compute.
    repeat (constructor; [intros H; repeat (destruct H as [H|H]; [discriminate|]);
                          exact H|]).
    constructor. }
  destruct (Hgen classify fmt true self self r Hwf Hr) as [Hu Hc].
  rewrite Hc, Hu. apply confidence_negative. reflexivity.
Qed.

Lemma compute_uncertainty_confidence_witness :
  let classify := BIOTICACore._classify_ibr in
  let fmt := {| str_float := fun _ => "0.5"; format_3f := fun _ => "0.500" |} in
  let self := Spec.calculator_with fmt [("VCA", 0.5)] in
  exists r,
    IBRComposite.compute classify fmt false self = (Return r, self)
    /\ IBRResult.uncertainty r
       = sqrt (Q2R (Spec.variance_sum BIOTICACore.IBR_WEIGHTS
                      (Spec.stored_uncertainties self)))
    /\ IBRResult.confidence r = (1 - IBRResult.uncertainty r)%R.
Proof.
  intros classify fmt self.
  destruct (compute_unvalidated_returns classify fmt self) as [r Hr].
  exists r. split; [exact Hr|].
  apply (proj1 compute_uncertainty_confidence classify fmt false self self r);
    [|exact Hr].
  unfold Spec.well_formed. vm_compute.
  constructor; [intros H; exact H | constructor].
Defined.

(** ** TippingPointDetector: the warning level *)

Ltac split_conditions :=
  repeat match goal with
         | |- context [if ?c then _ else _] => destruct c
         end.

(** The four updates add up the points of the four indicators. *)
Lemma accumulate_points (alpha : Q) (k : TippingPointResult.KendallStats) :
  fst (TippingPointDetector.accumulate alpha k) == Spec.accumulated alpha k.
Proof.
  unfold TippingPointDetector.accumulate, TippingPointDetector.recovery_update,
    TippingPointDetector.skewness_update,
    TippingPointDetector.autocorrelation_update,
    TippingPointDetector.variance_update,
    Spec.accumulated, Spec.variance_points, Spec.autocorrelation_points,
    Spec.skewness_points, Spec.recovery_points.
  split_conditions; cbn [fst]; ring.
Qed.

Lemma accumulated_range (alpha : Q) (k : TippingPointResult.KendallStats) :
  0 <= Spec.accumulated alpha k <= 3.
Proof.
  unfold Spec.accumulated, Spec.variance_points, Spec.autocorrelation_points,
    Spec.skewness_points, Spec.recovery_points.
  split_conditions; split; lra.
Qed.

Lemma floor_accumulated_range (alpha : Q) (k : TippingPointResult.KendallStats) :
  (0 <= Qfloor (Spec.accumulated alpha k) <= 3)%Z.
Proof.
  destruct (accumulated_range alpha k) as [H0 H3].
  apply Qfloor_resp_le in H0, H3.
  change (Qfloor 0) with 0%Z in H0. change (Qfloor 3) with 3%Z in H3.
  lia.
Qed.

(** The fields of the result of the analysis. *)
Lemma analyse_fields (self : TippingPointDetector.state)
  (k : TippingPointResult.KendallStats) (d : list Q) (tst : option (list Q))
  (name : string) :
  let r := TippingPointDetector.analyse self k d tst name in
  let wl :=
    Z.min 3 (Qfloor (Spec.accumulated
                       (TippingPointDetector.significance_level self) k)) in
  TippingPointResult.warning_level r = wl
  /\ TippingPointResult.critical_slowing_down r = (wl >=? 2)%Z
  /\ TippingPointResult.estimated_months r
     = TippingPointDetector._estimate_time_to_tipping
         (TippingPointResult.tau_var k) (TippingPointResult.tau_ac k) d tst
  /\ TippingPointResult.confidence r
     = TippingPointDetector._calculate_confidence wl
         (TippingPointResult.p_var k) (TippingPointResult.p_ac k)
         (Z.of_nat (List.length d))
  /\ Spec.degraded r = false.
Proof.
  intros r wl. subst r wl. unfold TippingPointDetector.analyse.
  pose proof (accumulate_points
                (TippingPointDetector.significance_level self) k) as Hacc.
  destruct (TippingPointDetector.accumulate
              (TippingPointDetector.significance_level self) k) as [q ind].
  cbn [fst] in Hacc. apply Qfloor_comp in Hacc.
  cbn [TippingPointResult.warning_level TippingPointResult.critical_slowing_down
       TippingPointResult.estimated_months TippingPointResult.confidence].
  rewrite Hacc, Z.min_comm. repeat split; reflexivity.
Qed.

(** Every way [detect] can return. *)
Lemma detect_inv (scipy : bool) (detrend_fn : list Q -> outcome (list Q))
  (rolling : TippingPointDetector.state -> list Q
             -> outcome TippingPointResult.KendallStats)
  (self : TippingPointDetector.state) (ts : list npfloat)
  (tst : option (list Q)) (name : string) (r : TippingPointResult.t) :
  TippingPointDetector.detect scipy detrend_fn rolling self ts tst name
  = Return r ->
  (scipy = false /\ r = TippingPointDetector._fallback_result)
  \/ (scipy = true
      /\ (Z.of_nat (List.length (Np.dropna ts))
          < TippingPointDetector.min_data_points self)%Z
      /\ r = TippingPointDetector.insufficient_data_result self
               (Z.of_nat (List.length (Np.dropna ts))))
  \/ (scipy = true
      /\ exists k d tst',
           rolling self d = Return k
           /\ r = TippingPointDetector.analyse self k d tst' name).
Proof.
  unfold TippingPointDetector.detect.
  destruct scipy; cbn [negb]; [|intros [= <-]; now left].
  destruct (TippingPointDetector.mask_timestamps _ tst) as [tst'|e];
    cbn [obind]; [|discriminate].
  destruct (Z.ltb_spec (Z.of_nat (List.length (Np.dropna ts)))
                       (TippingPointDetector.min_data_points self)) as [Hlt|Hge].
  - intros [= <-]. right; left. repeat split. exact Hlt.
  - destruct (if TippingPointDetector.detrend self
              then detrend_fn (Np.dropna ts) else Return (Np.dropna ts))
      as [d|e]; cbn [obind]; [|discriminate].
    destruct (Z.of_nat (List.length d) - TippingPointDetector.window self <? 0)%Z;
      [discriminate|].
    destruct (rolling self d) as [k|e] eqn:Hk; cbn [obind]; [|discriminate].
    intros [= <-]. right; right. split; [reflexivity|].
    exists k, d, tst'. split; [exact Hk | reflexivity].
Qed.

(** C3.  On the analysis path (SciPy available, enough points, the rolling
    statistics computed) [detect] returns a result whose warning level is
    min(3, floor(points)), where the points are: 1 for a variance tau > 0.2
    with p < alpha, else 0.5 for tau > 0.1; the same for the autocorrelation;
    0.5 for |skewness tau| > 0.15 with p < alpha; 0.5 for a recovery tau
    < -0.15 with p < alpha.  [critical_slowing_down] holds exactly when the
    warning level is at least 2. *)
Theorem detect_warning_level
  (detrend_fn : list Q -> outcome (list Q))
  (rolling : TippingPointDetector.state -> list Q
             -> outcome TippingPointResult.KendallStats)
  (self : TippingPointDetector.state) (ts : list npfloat)
  (tst : option (list Q)) (name : string)
  (d : list Q) (k : TippingPointResult.KendallStats) :
  Spec.timestamps_aligned ts tst ->
  (TippingPointDetector.min_data_points self
   <= Z.of_nat (List.length (Np.dropna ts)))%Z ->
  (if TippingPointDetector.detrend self
   then detrend_fn (Np.dropna ts) else Return (Np.dropna ts)) = Return d ->
  (TippingPointDetector.window self <= Z.of_nat (List.length d))%Z ->
  rolling self d = Return k ->
  exists r,
    TippingPointDetector.detect true detrend_fn rolling self ts tst name
    = Return r
    /\ TippingPointResult.warning_level r
       = Z.min 3 (Qfloor (Spec.accumulated
                            (TippingPointDetector.significance_level self) k))
    /\ (TippingPointResult.critical_slowing_down r = true
        <-> (2 <= TippingPointResult.warning_level r)%Z).
Proof.
  intros Hal Hmin Hd Hwin Hk.
  unfold TippingPointDetector.detect. cbn [negb].
  assert (Hm : exists tst',
             TippingPointDetector.mask_timestamps
               (map (fun x => negb (Np.isnan x)) ts) tst = Return tst').
  { destruct tst as [l|]; cbn in *; [|now eexists].
    rewrite length_map, Hal, Nat.eqb_refl. now eexists. }
  destruct Hm as [tst' ->]. cbn [obind].
  destruct (Z.ltb_spec (Z.of_nat (List.length (Np.dropna ts)))
                       (TippingPointDetector.min_data_points self)); [lia|].
  rewrite Hd. cbn [obind].
  destruct (Z.ltb_spec (Z.of_nat (List.length d)
                        - TippingPointDetector.window self) 0); [lia|].
  rewrite Hk. cbn [obind].
  eexists. split; [reflexivity|].
  destruct (analyse_fields self k d tst' name) as (Hw & Hc & _).
  split; [exact Hw|].
  rewrite Hc, Hw, Z.geb_le. reflexivity.
Qed.

Lemma detect_warning_level_witness :
  let self :=
    {| TippingPointDetector.window := 2; TippingPointDetector.lag := 1;
       TippingPointDetector.min_data_points := 3;
       TippingPointDetector.significance_level := 0.05;
       TippingPointDetector.detrend := true |} in
  let k :=
    {| TippingPointResult.tau_var := Fin 0.5; TippingPointResult.p_var := Fin 0.01;
       TippingPointResult.tau_ac := Fin 0.15; TippingPointResult.p_ac := Fin 0.5;
       TippingPointResult.tau_skew := NaN; TippingPointResult.p_skew := NaN;
       TippingPointResult.tau_rec := Fin (-0.4);
       TippingPointResult.p_rec := Fin 0.2 |} in
  exists r,
    TippingPointDetector.detect true (fun l => Return l) (fun _ _ => Return k)
      self [Fin 1; NaN; Fin 2; Fin 3; Fin 5] None "IBR" = Return r
    /\ TippingPointResult.warning_level r
       = Z.min 3 (Qfloor (Spec.accumulated 0.05 k))
    /\ (TippingPointResult.critical_slowing_down r = true
        <-> (2 <= TippingPointResult.warning_level r)%Z).
Proof.
  intros self k.
  apply (detect_warning_level (fun l => Return l) (fun _ _ => Return k) self
           [Fin 1; NaN; Fin 2; Fin 3; Fin 5] None "IBR" [1; 2; 3; 5] k).
  - exact I.
  - vm_compute. discriminate.
  - reflexivity.
  - vm_compute. discriminate.
  - reflexivity.
Defined.

(** ** TippingPointDetector: too few points *)

(** C7, as the code has it.  For a series with fewer non-NaN points than
    [min_data_points]: when SciPy is unavailable, or the timestamps are
    absent or one per point, [detect] does not raise and returns a result
    with warning level 0, no critical slowing down, confidence 0, the four
    trends 0 and an error note in the metadata (the insufficient-data text
    when SciPy is available, the SciPy text otherwise); with SciPy and
    timestamps of another length it raises an IndexError, since the mask is
    applied to the timestamps before the length is tested. *)
Theorem detect_insufficient_data
  (scipy : bool) (detrend_fn : list Q -> outcome (list Q))
  (rolling : TippingPointDetector.state -> list Q
             -> outcome TippingPointResult.KendallStats)
  (self : TippingPointDetector.state) (ts : list npfloat)
  (tst : option (list Q)) (name : string) :
  (Z.of_nat (List.length (Np.dropna ts))
   < TippingPointDetector.min_data_points self)%Z ->
  (scipy = false \/ Spec.timestamps_aligned ts tst ->
   exists r,
     TippingPointDetector.detect scipy detrend_fn rolling self ts tst name
     = Return r
     /\ TippingPointResult.warning_level r = 0%Z
     /\ TippingPointResult.critical_slowing_down r = false
     /\ TippingPointResult.confidence r = 0
     /\ TippingPointResult.variance_trend r = Fin 0
     /\ TippingPointResult.autocorrelation_trend r = Fin 0
     /\ TippingPointResult.skewness_trend r = Fin 0
     /\ TippingPointResult.recovery_rate_trend r = Fin 0
     /\ TippingPointResult.metadata r
        = TippingPointResult.Error
            (if scipy then
               "Insufficient data: "
               ++ str_int (Z.of_nat (List.length (Np.dropna ts))) ++ " < "
               ++ str_int (TippingPointDetector.min_data_points self)
             else "SciPy not available"))
  /\ (scipy = true -> ~ Spec.timestamps_aligned ts tst ->
      exists msg,
        TippingPointDetector.detect scipy detrend_fn rolling self ts tst name
        = Raise (IndexError msg)).
Proof.
  intros Hlt. split.
  - intros Hal. unfold TippingPointDetector.detect.
    destruct scipy; cbn [negb].
    + destruct Hal as [Hal|Hal]; [discriminate Hal|].
      assert (Hm : exists tst',
                 TippingPointDetector.mask_timestamps
                   (map (fun x => negb (Np.isnan x)) ts) tst = Return tst').
      { destruct tst as [l|]; cbn in *; [|now eexists].
        rewrite length_map, Hal, Nat.eqb_refl. now eexists. }
      destruct Hm as [tst' ->]. cbn [obind].
      destruct (Z.ltb_spec (Z.of_nat (List.length (Np.dropna ts)))
                           (TippingPointDetector.min_data_points self)); [|lia].
      eexists. split; [reflexivity|]. repeat split.
    + eexists. split; [reflexivity|]. repeat split.
  - intros -> Hal. unfold TippingPointDetector.detect. cbn [negb].
    destruct tst as [stamps|]; [|exfalso; apply Hal; exact I].
    cbn [Spec.timestamps_aligned] in Hal.
    cbn [TippingPointDetector.mask_timestamps]. rewrite length_map.
    destruct (Nat.eqb (List.length stamps) (List.length ts)) eqn:E.
    + apply Nat.eqb_eq in E. contradiction.
    + eexists. reflexivity.
Qed.

Lemma detect_insufficient_data_witness :
  exists r,
    TippingPointDetector.detect true (fun l => Return l)
      (fun _ _ => Raise (ValueError "not reached"))
      TippingPointDetector.default
      [Fin 0.71; Fin 0.69; NaN; Fin 0.70; Fin 0.68; Fin 0.66; Fin 0.67;
       Fin 0.65; Fin 0.64; Fin 0.66; Fin 0.63] None "IBR"
    = Return r
    /\ TippingPointResult.warning_level r = 0%Z
    /\ TippingPointResult.critical_slowing_down r = false
    /\ TippingPointResult.confidence r = 0
    /\ TippingPointResult.variance_trend r = Fin 0
    /\ TippingPointResult.autocorrelation_trend r = Fin 0
    /\ TippingPointResult.skewness_trend r = Fin 0
    /\ TippingPointResult.recovery_rate_trend r = Fin 0
    /\ TippingPointResult.metadata r
       = TippingPointResult.Error "Insufficient data: 10 < 50".
Proof.
  refine (proj1 (detect_insufficient_data true (fun l => Return l)
                   (fun _ _ => Raise (ValueError "not reached"))
                   TippingPointDetector.default
                   [Fin 0.71; Fin 0.69; NaN; Fin 0.70; Fin 0.68; Fin 0.66;
                    Fin 0.67; Fin 0.65; Fin 0.64; Fin 0.66; Fin 0.63]
                   None "IBR" _) _).
  - vm_compute. reflexivity.
  - right. exact I.
Defined.

(** C7 as claimed fails: a series of ten points passed with three
    timestamps has fewer points than the default minimum of 50, and the
    default detector raises an IndexError on it instead of returning the
    degraded result. *)
Lemma detect_short_series_raises_on_misaligned_timestamps :
  (Z.of_nat (List.length (Np.dropna (repeat (Fin 0.7) 10)))
   < TippingPointDetector.min_data_points TippingPointDetector.default)%Z
  /\ (exists msg,
        TippingPointDetector.detect true (fun l => Return l)
          (fun _ _ => Raise (ValueError "not reached"))
          TippingPointDetector.default (repeat (Fin 0.7) 10)
          (Some [0; 1; 2]) "IBR"
        = Raise (IndexError msg))
  /\ forall r,
       TippingPointDetector.detect true (fun l => Return l)
         (fun _ _ => Raise (ValueError "not reached"))
         TippingPointDetector.default (repeat (Fin 0.7) 10)
         (Some [0; 1; 2]) "IBR"
       <> Return r.
Proof.
  split; [vm_compute; reflexivity|]. split.
  - eexists. reflexivity.
  - intros r H. discriminate H.
Qed.

(** ** TippingPointDetector: the estimate and the ranges of a result *)

Lemma estimate_values (tau_var tau_ac : npfloat) (d : list Q)
  (tst : option (list Q)) :
  In (TippingPointDetector._estimate_time_to_tipping tau_var tau_ac d tst)
     [12; 24; 36; 60]%Z.
Proof.
  unfold TippingPointDetector._estimate_time_to_tipping.
  cbv zeta. split_conditions; simpl; tauto.
Qed.

(** C4 (defect of [_estimate_time_to_tipping]).  The claim: the estimate is
    12, 24, 36 or 60 by the mean of |variance tau| and |autocorrelation tau|,
    scaled by the median time step when timestamps are given.  The code
    computes the scale [months_per_step] and never uses it: the estimate is
    the same with and without timestamps.  For yearly timestamps the scale is
    12 and the estimate stays 60; for daily ones the scale is 1/30.44 and the
    estimate stays 12. *)
Theorem estimate_ignores_timestamps :
  (forall tau_var tau_ac d tst,
     TippingPointDetector._estimate_time_to_tipping tau_var tau_ac d tst
     = TippingPointDetector._estimate_time_to_tipping tau_var tau_ac d None)
  /\ TippingPointDetector.months_per_step (Some [0; 400; 800]) == 12
  /\ TippingPointDetector._estimate_time_to_tipping
       (Fin 0) (Fin 0) [] (Some [0; 400; 800]) = 60%Z
  /\ TippingPointDetector.months_per_step (Some [0; 1; 2]) == 1 / 30.44
  /\ TippingPointDetector._estimate_time_to_tipping
       (Fin 0.5) (Fin 0.5) [] (Some [0; 1; 2]) = 12%Z.
Proof.
  split; [reflexivity|]. repeat split.
Qed.

Lemma confidence_range (wl : Z) (p_var p_ac : npfloat) (n : Z) :
  (0 <= wl)%Z ->
  0 <= TippingPointDetector._calculate_confidence wl p_var p_ac n <= 1.
Proof.
  intros Hwl.
  assert (Hx : 0 <= inject_Z wl) by (rewrite Zle_Qle in Hwl; exact Hwl).
  unfold TippingPointDetector._calculate_confidence, Np.py_min. cbv zeta.
  generalize dependent (inject_Z wl). intros x Hx.
  repeat match goal with
         | |- context [if Qltb ?a ?b then _ else _] =>
             destruct (Qltb a b) eqn:?
         | |- context [if ?c then _ else _] => destruct c
         end;
    repeat match goal with
           | H : Qltb _ _ = true |- _ => apply Qltb_true in H
           | H : Qltb _ _ = false |- _ => apply Qltb_false in H
           end;
    split; lra.
Qed.

Lemma warning_level_values (z : Z) :
  (0 <= z <= 3)%Z -> In (Z.min 3 z) [0; 1; 2; 3]%Z.
Proof.
  intros H. rewrite Z.min_r by lia.
  assert (Hz : (z = 0 \/ z = 1 \/ z = 2 \/ z = 3)%Z) by lia.
  destruct Hz as [->|[->|[->| ->]]]; simpl; tauto.
Qed.

(** C8, as the code has it.  Every result that [detect] returns has a
    warning level in {0, 1, 2, 3} and a confidence in [0, 1]; its estimate is
    a positive number of months when the analysis ran, and 0 in the two
    degraded results (too few points, SciPy unavailable). *)
Theorem detect_result_ranges
  (scipy : bool) (detrend_fn : list Q -> outcome (list Q))
  (rolling : TippingPointDetector.state -> list Q
             -> outcome TippingPointResult.KendallStats)
  (self : TippingPointDetector.state) (ts : list npfloat)
  (tst : option (list Q)) (name : string) (r : TippingPointResult.t) :
  TippingPointDetector.detect scipy detrend_fn rolling self ts tst name
  = Return r ->
  Spec.result_ranges r.
Proof.
  intros H. apply detect_inv in H.
  destruct H as [[_ ->]|[(_ & _ & ->)|(_ & k & d & tst' & _ & ->)]].
  - unfold Spec.result_ranges; cbn. repeat split; try tauto; lra.
  - unfold Spec.result_ranges; cbn. repeat split; try tauto; lra.
  - destruct (analyse_fields self k d tst' name) as (Hw & _ & Hm & Hc & Hd).
    pose proof (floor_accumulated_range
                  (TippingPointDetector.significance_level self) k) as Hfl.
    unfold Spec.result_ranges. rewrite Hw, Hm, Hc, Hd. split; [|split].
    + now apply warning_level_values.
    + apply confidence_range. lia.
    + pose proof (estimate_values (TippingPointResult.tau_var k)
                    (TippingPointResult.tau_ac k) d tst') as Hin.
      cbn [In] in Hin. lia.
Qed.

Lemma detect_result_ranges_witness :
  let self :=
    {| TippingPointDetector.window := 2; TippingPointDetector.lag := 1;
       TippingPointDetector.min_data_points := 3;
       TippingPointDetector.significance_level := 0.05;
       TippingPointDetector.detrend := false |} in
  let k :=
    {| TippingPointResult.tau_var := Fin 0.5; TippingPointResult.p_var := Fin 0.001;
       TippingPointResult.tau_ac := Fin 0.4; TippingPointResult.p_ac := Fin 0.02;
       TippingPointResult.tau_skew := Fin 0.2; TippingPointResult.p_skew := Fin 0.01;
       TippingPointResult.tau_rec := NaN; TippingPointResult.p_rec := NaN |} in
  Spec.result_ranges
    (TippingPointDetector.analyse self k [1; 2; 4; 8] None "IBR").
Proof.
  intros self k.
  apply (detect_result_ranges true (fun l => Return l) (fun _ _ => Return k)
           self [Fin 1; Fin 2; Fin 4; Fin 8] None "IBR").
  reflexivity.
Defined.

(** C8 as claimed fails: for a series of ten points the default detector
    returns an estimate of 0 months, which is not positive; so does the
    fallback result when SciPy is unavailable. *)
Lemma detect_degraded_estimate_not_positive :
  exists r r',
    TippingPointDetector.detect true (fun l => Return l)
      (fun _ _ => Raise (ValueError "not reached"))
      TippingPointDetector.default (repeat (Fin 0.7) 10) None "IBR" = Return r
    /\ TippingPointDetector.detect false (fun l => Return l)
         (fun _ _ => Raise (ValueError "not reached"))
         TippingPointDetector.default (repeat (Fin 0.7) 10) None "IBR"
       = Return r'
    /\ TippingPointResult.estimated_months r = 0%Z
    /\ TippingPointResult.estimated_months r' = 0%Z
    /\ ~ Spec.claimed_ranges r
    /\ ~ Spec.claimed_ranges r'.
Proof.
  do 2 eexists. split; [reflexivity|]. split; [reflexivity|].
  split; [reflexivity|]. split; [reflexivity|].
  split; intros (_ & _ & H); vm_compute in H; discriminate.
Qed.

(* ================================================================== *)
(** * Further properties *)
(* ================================================================== *)

(** ** Sums over the weight table *)

Lemma Qsum_map_le {A : Type} (f g : A -> Q) (l : list A) :
  (forall x, In x l -> f x <= g x) -> Qsum (map f l) <= Qsum (map g l).
Proof.
  induction l as [|a l IH]; intros H.
  - apply Qle_refl.
  - change (f a + Qsum (map f l) <= g a + Qsum (map g l)).
    apply Qplus_le_compat; [apply H; now left|].
    apply IH. intros x Hx. apply H. now right.
Qed.

Lemma Qsum_map_scale {A : Type} (c : Q) (f : A -> Q) (l : list A) :
  Qsum (map (fun x => c * f x) l) == c * Qsum (map f l).
Proof.
  induction l as [|a l IH].
  - unfold Qsum; simpl. ring.
  - change (c * f a + Qsum (map (fun x => c * f x) l)
            == c * (f a + Qsum (map f l))).
    rewrite IH. ring.
Qed.

Lemma Qsum_map_ext {A : Type} (f g : A -> Q) (l : list A) :
  (forall x, In x l -> f x == g x) -> Qsum (map f l) == Qsum (map g l).
Proof.
  intros H. apply Qle_antisym; apply Qsum_map_le; intros x Hx;
    rewrite (H x Hx); apply Qle_refl.
Qed.

Lemma Qsum_nonneg (l : list Q) : Forall (fun w => 0 <= w) l -> 0 <= Qsum l.
Proof.
  induction 1 as [|w l Hw _ IH]; [apply Qle_refl|].
  change (0 <= w + Qsum l). lra.
Qed.

Lemma Qsum_filter_le (keep : string * Q -> bool) (ws : dict Q) :
  Forall (fun pw : string * Q => 0 < snd pw) ws ->
  Qsum (map snd (filter keep ws)) <= Qsum (map snd ws).
Proof.
  induction 1 as [|pw ws Hw _ IH]; [apply Qle_refl|].
  cbn [filter]. destruct (keep pw).
  - change (snd pw + Qsum (map snd (filter keep ws))
            <= snd pw + Qsum (map snd ws)). lra.
  - change (Qsum (map snd (filter keep ws)) <= snd pw + Qsum (map snd ws)).
    lra.
Qed.

(** What [compute_ibr] returns, in terms of the sums over the present rows. *)
Lemma compute_ibr_sums (parameters : dict Q) :
  let r := BIOTICACore.compute_ibr parameters in
  let W := Spec.used_weight BIOTICACore.IBR_WEIGHTS parameters in
  BIOTICACore.score r == Spec.weighted_sum BIOTICACore.IBR_WEIGHTS parameters
  /\ 0 <= W <= 1
  /\ (0 < W ->
      BIOTICACore.normalized_score r
      == Spec.weighted_sum BIOTICACore.IBR_WEIGHTS parameters / W)
  /\ (W == 0 -> BIOTICACore.normalized_score r == 0)
  /\ (Spec.present BIOTICACore.IBR_WEIGHTS parameters <> [] -> 0 < W).
Proof.
  intros r W.
  destruct (ibr_loop_sums parameters BIOTICACore.IBR_WEIGHTS
              {| BIOTICACore.raw_score := 0; BIOTICACore.total_weight := 0;
                 BIOTICACore.contribs := [] |}) as [Hr Ht].
  cbn zeta in Hr, Ht.
  cbn [BIOTICACore.raw_score BIOTICACore.total_weight] in Hr, Ht.
  fold (BIOTICACore.ibr_loop BIOTICACore.IBR_WEIGHTS parameters) in Hr, Ht.
  rewrite Qplus_0_l in Hr, Ht. fold W in Ht.
  subst r. unfold BIOTICACore.compute_ibr.
  cbn [BIOTICACore.score BIOTICACore.normalized_score].
  split; [exact Hr|]. split; [|split; [|split]].
  - split.
    + apply Qsum_nonneg, Forall_map. unfold Spec.present.
      apply Forall_forall. intros pw Hin. apply filter_In in Hin.
      apply Qlt_le_weak.
      exact (proj1 (Forall_forall _ _) IBR_WEIGHTS_positive pw (proj1 Hin)).
    + subst W. unfold Spec.used_weight, Spec.present.
      rewrite <- IBR_WEIGHTS_sum.
      apply Qsum_filter_le, IBR_WEIGHTS_positive.
  - intros Hpos. rewrite <- Ht in Hpos.
    rewrite (proj2 (Qgtb_true _ _) Hpos). now rewrite Hr, Ht.
  - intros Hz. rewrite <- Ht in Hz.
    assert (Hf : Qgtb (BIOTICACore.total_weight
                   (BIOTICACore.ibr_loop BIOTICACore.IBR_WEIGHTS parameters)) 0
                 = false)
      by (apply Qgtb_false; rewrite Hz; apply Qle_refl).
    rewrite Hf. reflexivity.
  - apply used_weight_positive.
Qed.



(** ** BIOTICACore.compute_ibr: one parameter changed *)

Lemma dict_mem_set_present {V : Type} (k p : string) (v v' : V) (d : dict V) :
  dict_get p d = Some v ->
  dict_mem k (dict_set p v' d) = dict_mem k d.
Proof.
  intros Hp. unfold dict_mem. destruct (String.eqb k p) eqn:E.
  - apply String.eqb_eq in E. subst k.
    now rewrite dict_get_set_same, Hp.
  - apply String.eqb_neq in E. now rewrite dict_get_set_other.
Qed.

Lemma present_set_present (ws parameters : dict Q) (p : string) (v v' : Q) :
  dict_get p parameters = Some v ->
  Spec.present ws (dict_set p v' parameters) = Spec.present ws parameters.
Proof.
  intros Hp. unfold Spec.present. apply filter_ext.
  intros pw. exact (dict_mem_set_present (fst pw) p v v' parameters Hp).
Qed.

Lemma weighted_sum_set_absent (ws parameters : dict Q) (p : string) (v v' : Q) :
  dict_get p parameters = Some v -> ~ In p (dict_keys ws) ->
  Spec.weighted_sum ws (dict_set p v' parameters)
  = Spec.weighted_sum ws parameters.
Proof.
  intros Hp Hnot. unfold Spec.weighted_sum.
  rewrite (present_set_present ws parameters p v v' Hp).
  f_equal. apply map_ext_in. intros pw Hin. apply filter_In in Hin.
  unfold Spec.value_of. rewrite dict_get_set_other; [reflexivity|].
  intros E. apply Hnot. rewrite <- E. unfold dict_keys. apply in_map.
  exact (proj1 Hin).
Qed.

(** Changing the value of a present parameter moves the weighted sum by its
    weight times the change. *)
Lemma weighted_sum_set_present (ws parameters : dict Q) (p : string)
  (w v v' : Q) :
  NoDup (dict_keys ws) ->
  dict_get p ws = Some w -> dict_get p parameters = Some v ->
  Spec.weighted_sum ws (dict_set p v' parameters)
  == Spec.weighted_sum ws parameters + w * (v' - v).
Proof.
  intros Hnd Hw Hp. induction ws as [|[k wk] ws IH]; [discriminate|].
  inversion_clear Hnd as [|? ? Hk Hnd'].
  cbn [dict_get] in Hw.
  assert (Hsplit : forall q,
             Spec.weighted_sum ((k, wk) :: ws) q
             == (if dict_mem k q then Spec.value_of q k * wk else 0)
                + Spec.weighted_sum ws q).
  { intros q. unfold Spec.weighted_sum, Spec.present. cbn [filter fst].
    destruct (dict_mem k q).
    - reflexivity.
    - ring. }
  rewrite !Hsplit. rewrite (dict_mem_set_present k p v v' parameters Hp).
  destruct (String.eqb p k) eqn:E.
  - apply String.eqb_eq in E. subst k. injection Hw as ->.
    rewrite (weighted_sum_set_absent ws parameters p v v' Hp Hk).
    unfold dict_mem, Spec.value_of. rewrite dict_get_set_same, Hp. ring.
  - rewrite (IH Hnd' Hw).
    apply String.eqb_neq in E.
    unfold Spec.value_of.
    rewrite (dict_get_set_other k p v' parameters (fun H => E (eq_sym H))).
    ring.
Qed.

Lemma IBR_WEIGHTS_NoDup : NoDup (dict_keys BIOTICACore.IBR_WEIGHTS).
Proof.
  unfold dict_keys, BIOTICACore.IBR_WEIGHTS. cbn [map fst].
  repeat (constructor;
          [intros H; repeat (destruct H as [H|H]; [discriminate|]); exact H|]).
  constructor.
Qed.

(** X4.  [compute_ibr] responds linearly to one parameter: replacing the
    value [v] of a present weighted parameter by [v'] moves the raw score by
    weight * (v' - v) and the normalised score by that amount divided by the
    weight in use; so raising a value never lowers the normalised score. *)
Theorem compute_ibr_linear_response (parameters : dict Q) (p : string)
  (w v v' : Q) :
  dict_get p BIOTICACore.IBR_WEIGHTS = Some w ->
  dict_get p parameters = Some v ->
  let r := BIOTICACore.compute_ibr parameters in
  let r' := BIOTICACore.compute_ibr (dict_set p v' parameters) in
  let W := Spec.used_weight BIOTICACore.IBR_WEIGHTS parameters in
  BIOTICACore.score r' == BIOTICACore.score r + w * (v' - v)
  /\ BIOTICACore.normalized_score r'
     == BIOTICACore.normalized_score r + w * (v' - v) / W
  /\ (v <= v' ->
      BIOTICACore.normalized_score r <= BIOTICACore.normalized_score r').
Proof.
  intros Hw Hp r r' W.
  assert (Hpres : Spec.present BIOTICACore.IBR_WEIGHTS parameters <> []).
  { unfold Spec.present. intros Hnil.
    pose proof (dict_get_in p w _ Hw) as Hin.
    assert (Hf : In (p, w) (filter (fun pw : string * Q =>
                                      dict_mem (fst pw) parameters)
                                   BIOTICACore.IBR_WEIGHTS)).
    { apply filter_In. split; [exact Hin|]. cbn [fst]. unfold dict_mem.
      now rewrite Hp. }
    rewrite Hnil in Hf. contradiction. }
  destruct (compute_ibr_sums parameters) as (Hs & _ & Hn & _ & Hpos).
  destruct (compute_ibr_sums (dict_set p v' parameters))
    as (Hs' & _ & Hn' & _ & _).
  specialize (Hpos Hpres). fold W in Hpos.
  assert (HW : Spec.used_weight BIOTICACore.IBR_WEIGHTS (dict_set p v' parameters)
               = W).
  { subst W. unfold Spec.used_weight.
    now rewrite (present_set_present _ parameters p v v' Hp). }
  rewrite HW in Hn'. specialize (Hn Hpos). specialize (Hn' Hpos).
  fold r in Hs, Hn. fold r' in Hs', Hn'.
  pose proof (weighted_sum_set_present BIOTICACore.IBR_WEIGHTS parameters
                p w v v' IBR_WEIGHTS_NoDup Hw Hp) as Hsum.
  assert (Hwpos : 0 < w).
  { exact (proj1 (Forall_forall _ _) IBR_WEIGHTS_positive (p, w)
             (dict_get_in p w _ Hw)). }
  fold W in Hn. clearbody W.
  assert (Hn2 : BIOTICACore.normalized_score r'
                == BIOTICACore.normalized_score r + w * (v' - v) / W).
  { rewrite Hn', Hn, Hsum. field. lra. }
  split; [now rewrite Hs', Hs, Hsum|]. split; [exact Hn2|].
  intros Hle. rewrite Hn2.
  assert (0 <= w * (v' - v) / W).
  { apply Qle_shift_div_l; [exact Hpos|]. nra. }
  lra.
Qed.

Lemma compute_ibr_linear_response_witness :
  let parameters := [("VCA", 0.8); ("HFI", 0.72)] in
  let r := BIOTICACore.compute_ibr parameters in
  let r' := BIOTICACore.compute_ibr (dict_set "HFI" 1 parameters) in
  let W := Spec.used_weight BIOTICACore.IBR_WEIGHTS parameters in
  BIOTICACore.score r' == BIOTICACore.score r + 0.11 * (1 - 0.72)
  /\ BIOTICACore.normalized_score r'
     == BIOTICACore.normalized_score r + 0.11 * (1 - 0.72) / W
  /\ (0.72 <= 1 ->
      BIOTICACore.normalized_score r <= BIOTICACore.normalized_score r').
Proof.
  apply (compute_ibr_linear_response
           [("VCA", 0.8); ("HFI", 0.72)] "HFI" 0.11 0.72 1); reflexivity.
Defined.

(** ** The contributions *)

Lemma dict_set_app {V : Type} (k : string) (v : V) (d : dict V) :
  ~ In k (dict_keys d) -> dict_set k v d = (d ++ [(k, v)])%list.
Proof.
  induction d as [|[k' v'] d IH]; intros Hnot; [reflexivity|].
  cbn [dict_set app]. destruct (String.eqb k k') eqn:E.
  - apply String.eqb_eq in E. subst k'. exfalso. apply Hnot. now left.
  - f_equal. apply IH. intros H. apply Hnot. now right.
Qed.

Lemma contribution_rows_keys (parameters ws : dict Q) :
  dict_keys (map (Spec.contribution_row parameters) ws) = dict_keys ws.
Proof.
  unfold dict_keys. rewrite map_map. reflexivity.
Qed.

Lemma ibr_loop_contribs (parameters ws : dict Q) (a : BIOTICACore.acc) :
  NoDup (dict_keys ws) ->
  (forall k, In k (dict_keys ws) ->
             ~ In k (dict_keys (BIOTICACore.contribs a))) ->
  BIOTICACore.contribs (fold_left (BIOTICACore.ibr_step parameters) ws a)
  = (BIOTICACore.contribs a
     ++ map (Spec.contribution_row parameters) (Spec.present ws parameters))%list.
Proof.
  revert a. induction ws as [|[k w] ws IH]; intros a Hnd Hfresh.
  - cbn. now rewrite app_nil_r.
  - inversion_clear Hnd as [|? ? Hk Hnd'].
    cbn [fold_left]. rewrite IH; [|exact Hnd'|].
    + unfold Spec.present. cbn [filter fst]. unfold dict_mem.
      unfold BIOTICACore.ibr_step.
      destruct (dict_get k parameters) as [v|] eqn:E; [|reflexivity].
      cbn [BIOTICACore.contribs map].
      rewrite dict_set_app by (apply Hfresh; now left).
      rewrite <- app_assoc. cbn [app]. unfold Spec.contribution_row.
      cbn [fst snd]. unfold Spec.value_of. now rewrite E.
    + intros k' Hk'. unfold BIOTICACore.ibr_step.
      destruct (dict_get k parameters) as [v|];
        [|apply Hfresh; now right].
      cbn [BIOTICACore.contribs].
      rewrite dict_set_app by (apply Hfresh; now left).
      unfold dict_keys. rewrite map_app, in_app_iff. cbn [map fst In].
      intros [H|[H|[]]].
      * exact (Hfresh k' (or_intror Hk') H).
      * subst k'. contradiction.
Qed.

Lemma dict_get_contribution_rows (parameters ws : dict Q) (p : string) :
  dict_get p (map (Spec.contribution_row parameters) (Spec.present ws parameters))
  = match dict_get p ws, dict_get p parameters with
    | Some w, Some v => Some (v * w)
    | _, _ => None
    end.
Proof.
  induction ws as [|[k w] ws IH]; [reflexivity|].
  unfold Spec.present in *. cbn [filter fst dict_get].
  destruct (String.eqb p k) eqn:E.
  - apply String.eqb_eq in E. subst k.
    destruct (dict_mem p parameters) eqn:Em; unfold dict_mem in Em;
      destruct (dict_get p parameters) as [v|] eqn:Ep; try discriminate.
    + cbn [map dict_get Spec.contribution_row fst snd]. rewrite String.eqb_refl.
      unfold Spec.value_of. now rewrite Ep.
    + rewrite IH. now destruct (dict_get p ws).
  - destruct (dict_mem k parameters); [|exact IH].
    cbn [map dict_get Spec.contribution_row fst]. rewrite E. exact IH.
Qed.

(** X5.  [compute_ibr]: the contributions hold one entry per weighted
    parameter present in the mapping and no other, in the order of the
    weight table, each equal to value * weight, and they add up to the raw
    score. *)
Theorem compute_ibr_contributions (parameters : dict Q) :
  let r := BIOTICACore.compute_ibr parameters in
  dict_keys (BIOTICACore.contributions r)
  = dict_keys (Spec.present BIOTICACore.IBR_WEIGHTS parameters)
  /\ (forall p,
        dict_get p (BIOTICACore.contributions r)
        = match dict_get p BIOTICACore.IBR_WEIGHTS, dict_get p parameters with
          | Some w, Some v => Some (v * w)
          | _, _ => None
          end)
  /\ Qsum (map snd (BIOTICACore.contributions r)) == BIOTICACore.score r.
Proof.
  intros r.
  assert (Hc : BIOTICACore.contributions r
               = map (Spec.contribution_row parameters)
                     (Spec.present BIOTICACore.IBR_WEIGHTS parameters)).
  { subst r. unfold BIOTICACore.compute_ibr, BIOTICACore.ibr_loop.
    cbn [BIOTICACore.contributions].
    rewrite ibr_loop_contribs;
      [reflexivity | exact IBR_WEIGHTS_NoDup | intros k _ []]. }
  split; [rewrite Hc; apply contribution_rows_keys|].
  split; [intros p; rewrite Hc; apply dict_get_contribution_rows|].
  rewrite Hc, map_map.
  destruct (compute_ibr_sums parameters) as (Hs & _). fold r in Hs.
  rewrite Hs. reflexivity.
Qed.

(** ** BIOTICACore.compute_vca and compute_mdi *)

Lemma py_min_spec (a b : Q) :
  Np.py_min a b <= a /\ Np.py_min a b <= b
  /\ (Np.py_min a b == a \/ Np.py_min a b == b).
Proof.
  unfold Np.py_min. destruct (Qltb b a) eqn:E.
  - apply Qltb_true in E. repeat split; lra.
  - apply Qltb_false in E. repeat split; lra.
Qed.


(** X7.  [compute_mdi] returns the mean of Shannon/5 and the two richness
    terms, each of which saturates at 200, capped at 1: the value is at most
    1, in [0,1] for non-negative inputs, and a Chao1 or OTU count above 200
    counts as 200. *)
Theorem compute_mdi_range (shannon chao1 otus : Q) :
  let r := BIOTICACoreMethods.compute_mdi shannon chao1 otus in
  pr_value r <= 1
  /\ (0 <= shannon -> 0 <= chao1 -> 0 <= otus -> 0 <= pr_value r)
  /\ (200 <= chao1 ->
      pr_value r
      == pr_value (BIOTICACoreMethods.compute_mdi shannon 200 otus))
  /\ (200 <= otus ->
      pr_value r
      == pr_value (BIOTICACoreMethods.compute_mdi shannon chao1 200)).
Proof.
  intros r. subst r. unfold BIOTICACoreMethods.compute_mdi. cbn [pr_value].
  assert (Hsat : forall x, 200 <= x -> Np.py_min (x / 200) 1 == 1).
  { intros x Hx. assert (Hq : 1 <= x / 200) by (apply Qle_shift_div_l; lra).
    destruct (py_min_spec (x / 200) 1) as (Ha & Hb & [Hc|Hc]); lra. }
  assert (Hpos : forall x, 0 <= x -> 0 <= Np.py_min (x / 200) 1).
  { intros x Hx. assert (Hq : 0 <= x / 200) by (apply Qle_shift_div_l; lra).
    destruct (py_min_spec (x / 200) 1) as (Ha & Hb & [Hc|Hc]); lra. }
  assert (Hmin : forall a b, a == b -> Np.py_min a 1 == Np.py_min b 1).
  { intros a b Hab. unfold Np.py_min, Qltb. rewrite Hab.
    destruct (Qle_bool b 1); [exact Hab | reflexivity]. }
  split; [|split; [|split]].
  - apply py_min_spec.
  - intros Hs Hc Ho.
    set (m := (shannon / 5 + Np.py_min (chao1 / 200) 1
               + Np.py_min (otus / 200) 1) / 3).
    assert (Hm0 : 0 <= m).
    { subst m. apply Qle_shift_div_l; [reflexivity|].
      assert (Hq : 0 <= shannon / 5) by (apply Qle_shift_div_l; lra).
      pose proof (Hpos chao1 Hc). pose proof (Hpos otus Ho). lra. }
    destruct (py_min_spec m 1) as (_ & _ & [H1|H1]); rewrite H1; lra.
  - intros Hc. apply Hmin.
    rewrite (Hsat chao1 Hc), (Hsat 200) by lra. reflexivity.
  - intros Ho. apply Hmin.
    rewrite (Hsat otus Ho), (Hsat 200) by lra. reflexivity.
Qed.

(** ** BIOTICACore.detect_tipping_point *)

(** X8.  [detect_tipping_point] never reports more than level 2, reports
    critical slowing down exactly at level 2, returns level 0 with a message
    and no analysis for fewer than 50 points, and ignores its [window]. *)
Theorem detect_tipping_point_levels (timeseries : list Q) (window window' : Z) :
  let r := BIOTICACoreMethods.detect_tipping_point timeseries window in
  In (BIOTICACoreMethods.warning_level r) [0; 1; 2]%Z
  /\ match r with
     | BIOTICACoreMethods.Insufficient w _ =>
         w = 0%Z /\ (List.length timeseries < 50)%nat
     | BIOTICACoreMethods.Analysed w _ csd =>
         (csd = true <-> w = 2%Z) /\ (50 <= List.length timeseries)%nat
     end
  /\ BIOTICACoreMethods.detect_tipping_point timeseries window' = r.
Proof.
  intros r. subst r. unfold BIOTICACoreMethods.detect_tipping_point.
  destruct (Nat.ltb_spec (List.length timeseries) 50) as [Hlt|Hge].
  - cbn. repeat split; tauto || lia.
  - cbv zeta. split_conditions; cbn; repeat split; intros; try tauto;
      try lia; discriminate.
Qed.

(** ** IBRComposite: loading parameters *)

Lemma dict_set_keys {V : Type} (k : string) (v : V) (d : dict V) :
  dict_keys (dict_set k v d)
  = if dict_mem k d then dict_keys d else (dict_keys d ++ [k])%list.
Proof.
  unfold dict_mem. induction d as [|[k' v'] d IH]; [reflexivity|].
  cbn [dict_set dict_get]. destruct (String.eqb k k') eqn:E.
  - apply String.eqb_eq in E. now subst.
  - unfold dict_keys in *. cbn [map fst]. rewrite IH.
    now destruct (dict_get k d).
Qed.

Lemma dict_mem_false_not_in {V : Type} (k : string) (d : dict V) :
  dict_mem k d = false -> ~ In k (dict_keys d).
Proof.
  unfold dict_mem. induction d as [|[k' v'] d IH]; cbn; [tauto|].
  destruct (String.eqb k k') eqn:E; [discriminate|].
  apply String.eqb_neq in E. intros H [H'|H']; [congruence | now apply IH].
Qed.

Lemma dict_set_NoDup {V : Type} (k : string) (v : V) (d : dict V) :
  NoDup (dict_keys d) -> NoDup (dict_keys (dict_set k v d)).
Proof.
  intros Hnd. rewrite dict_set_keys. destruct (dict_mem k d) eqn:E; [exact Hnd|].
  apply NoDup_app; [exact Hnd | repeat constructor; intros [] |].
  intros x Hx [<-|[]]. exact (dict_mem_false_not_in _ _ E Hx).
Qed.

(** What a successful [set_parameter] leaves behind. *)
Lemma set_parameter_accepts (fmt : FloatFormat) (name : string) (v : Q)
  (unc : option Q) (self : IBRComposite.state) :
  0 <= v <= 1 ->
  IBRComposite.set_parameter fmt name v unc self
  = (Return tt,
     IBRComposite.with_parameters self
       (dict_set name
          {| IBRComposite.value := v;
             IBRComposite.uncertainty :=
               Some (IBRComposite.uncertainty_or_default unc) |}
          (IBRComposite.parameters self))).
Proof.
  intros Hin. unfold IBRComposite.set_parameter.
  rewrite (proj2 (in_unit_interval_true v) Hin). reflexivity.
Qed.

(** X11.  After a successful [set_parameter(name, v, u)] the calculator
    holds [v] under [name] with uncertainty [u], or 0.05 when [u] is omitted
    or is zero; every other parameter is as before, and the keys stay
    distinct. *)
Theorem set_parameter_lookup (fmt : FloatFormat) (name : string) (v : Q)
  (unc : option Q) (self : IBRComposite.state) :
  0 <= v <= 1 ->
  let self' := snd (IBRComposite.set_parameter fmt name v unc self) in
  let stored := dict_get name (IBRComposite.parameters self') in
  option_map IBRComposite.value stored = Some v
  /\ (forall u, unc = Some u -> ~ u == 0 ->
        option_map IBRComposite.uncertainty stored = Some (Some u))
  /\ (unc = None \/ (exists u, unc = Some u /\ u == 0) ->
        option_map IBRComposite.uncertainty stored = Some (Some 0.05))
  /\ (forall k, k <> name ->
        dict_get k (IBRComposite.parameters self')
        = dict_get k (IBRComposite.parameters self))
  /\ (Spec.well_formed self -> Spec.well_formed self').
Proof.
  intros Hin self' stored. subst stored self'.
  rewrite (set_parameter_accepts fmt name v unc self Hin).
  cbn [snd IBRComposite.with_parameters IBRComposite.parameters].
  rewrite dict_get_set_same. cbn [option_map IBRComposite.value
                                  IBRComposite.uncertainty].
  split; [reflexivity|]. split; [|split; [|split]].
  - intros u -> Hu. unfold IBRComposite.uncertainty_or_default.
    destruct (Qeq_bool u 0) eqn:E; [|reflexivity].
    apply Qeq_bool_iff in E. contradiction.
  - intros [->|[u [-> Hu]]]; [reflexivity|].
    unfold IBRComposite.uncertainty_or_default.
    now rewrite (proj2 (Qeq_bool_iff u 0) Hu).
  - intros k Hk. now apply dict_get_set_other.
  - unfold Spec.well_formed.
    cbn [IBRComposite.parameters]. apply dict_set_NoDup.
Qed.

Lemma set_parameter_lookup_witness :
  let fmt := {| str_float := fun _ => "0.85"; format_3f := fun _ => "0.850" |} in
  let self := IBRComposite.__init__ None None in
  let self' := snd (IBRComposite.set_parameter fmt "VCA" 0.85 (Some 0) self) in
  let stored := dict_get "VCA" (IBRComposite.parameters self') in
  option_map IBRComposite.value stored = Some 0.85
  /\ (forall u, Some 0 = Some u -> ~ u == 0 ->
        option_map IBRComposite.uncertainty stored = Some (Some u))
  /\ (Some 0 = None \/ (exists u, Some 0 = Some u /\ u == 0) ->
        option_map IBRComposite.uncertainty stored = Some (Some 0.05))
  /\ (forall k, k <> "VCA" ->
        dict_get k (IBRComposite.parameters self')
        = dict_get k (IBRComposite.parameters self))
  /\ (Spec.well_formed self -> Spec.well_formed self').
Proof.
  intros fmt self.
  apply (set_parameter_lookup fmt "VCA" 0.85 (Some 0) self).
  split; [intros H | intros H]; vm_compute in H; discriminate H.
Defined.

(** X12.  [set_parameters] is not atomic: the items before the first value
    outside [0,1] are stored, each under its name with uncertainty 0.05, and
    then the ValueError of that item is raised; without such an item it
    returns with every item stored. *)
Theorem set_parameters_partial (fmt : FloatFormat) (good : dict Q)
  (name : string) (v : Q) (rest : dict Q) (self : IBRComposite.state) :
  NoDup (dict_keys good) ->
  (forall k x, In (k, x) good -> 0 <= x <= 1) ->
  ~ 0 <= v <= 1 ->
  exists self1,
    IBRComposite.set_parameters fmt good self = (Return tt, self1)
    /\ IBRComposite.set_parameters fmt (good ++ (name, v) :: rest)%list self
       = (Raise (ValueError ("Parameter " ++ name ++ " value "
                             ++ str_float fmt v ++ " must be in [0,1]")),
          self1)
    /\ (forall k x, In (k, x) good ->
          dict_get k (IBRComposite.parameters self1)
          = Some {| IBRComposite.value := x;
                    IBRComposite.uncertainty := Some 0.05 |})
    /\ (forall k, ~ In k (dict_keys good) ->
          dict_get k (IBRComposite.parameters self1)
          = dict_get k (IBRComposite.parameters self)).
Proof.
  intros Hnd Hgood Hbad. revert self.
  induction good as [|[k0 x0] good IH]; intros self.
  - exists self. split; [reflexivity|]. split; [|split].
    + cbn [app IBRComposite.set_parameters]. unfold IBRComposite.bind.
      unfold IBRComposite.set_parameter.
      destruct (in_unit_interval v) eqn:E;
        [apply in_unit_interval_true in E; contradiction | reflexivity].
    + intros k x [].
    + reflexivity.
  - inversion_clear Hnd as [|? ? Hk0 Hnd'].
    assert (Hx0 : 0 <= x0 <= 1) by (apply (Hgood k0 x0); now left).
    set (self0 := IBRComposite.with_parameters self
                    (dict_set k0
                       {| IBRComposite.value := x0;
                          IBRComposite.uncertainty := Some 0.05 |}
                       (IBRComposite.parameters self))).
    destruct (IH Hnd' (fun k x H => Hgood k x (or_intror H)) self0)
      as (self1 & Hret & Hraise & Hstored & Hframe).
    assert (Hstep : IBRComposite.set_parameter fmt k0 x0 None self
                    = (Return tt, self0))
      by exact (set_parameter_accepts fmt k0 x0 None self Hx0).
    exists self1. split; [|split; [|split]].
    + cbn [IBRComposite.set_parameters]. unfold IBRComposite.bind.
      rewrite Hstep. exact Hret.
    + cbn [app IBRComposite.set_parameters]. unfold IBRComposite.bind at 1.
      rewrite Hstep. exact Hraise.
    + intros k x [[= <- <-]|Hin]; [|now apply Hstored].
      rewrite (Hframe k0 Hk0). subst self0.
      cbn [IBRComposite.parameters IBRComposite.with_parameters].
      apply dict_get_set_same.
    + intros k Hk. rewrite Hframe by (intros H; apply Hk; now right).
      subst self0. cbn [IBRComposite.parameters IBRComposite.with_parameters].
      apply dict_get_set_other. intros ->. apply Hk. now left.
Qed.

Lemma set_parameters_partial_witness :
  let fmt := {| str_float := fun _ => "1.5"; format_3f := fun _ => "1.500" |} in
  exists self1,
    IBRComposite.set_parameters fmt [("VCA", 0.85)] (IBRComposite.__init__ None None)
    = (Return tt, self1)
    /\ IBRComposite.set_parameters fmt
         ([("VCA", 0.85)] ++ ("MDI", 1.5) :: [("PTS", 0.82)])%list
         (IBRComposite.__init__ None None)
       = (Raise (ValueError "Parameter MDI value 1.5 must be in [0,1]"), self1)
    /\ (forall k x, In (k, x) [("VCA", 0.85)] ->
          dict_get k (IBRComposite.parameters self1)
          = Some {| IBRComposite.value := x;
                    IBRComposite.uncertainty := Some 0.05 |})
    /\ (forall k, ~ In k (dict_keys [("VCA", 0.85)]) ->
          dict_get k (IBRComposite.parameters self1)
          = dict_get k (IBRComposite.parameters (IBRComposite.__init__ None None))).
Proof.
  intros fmt.
  apply (set_parameters_partial fmt [("VCA", 0.85)] "MDI" 1.5 [("PTS", 0.82)]
           (IBRComposite.__init__ None None)).
  - repeat constructor. intros [].
  - intros k x [[= <- <-]|[]]. split; intros H; vm_compute in H; discriminate H.
  - intros [_ H]. vm_compute in H. apply H. reflexivity.
Defined.

(** ** IBRComposite: validation of a complete set *)

Lemma filter_none {A : Type} (f : A -> bool) (l : list A) :
  (forall x, In x l -> f x = false) -> filter f l = [].
Proof.
  induction l as [|a l IH]; intros H; [reflexivity|].
  cbn [filter]. rewrite (H a (or_introl eq_refl)).
  apply IH. intros x Hx. apply H. now right.
Qed.

Lemma flat_map_none {A B : Type} (f : A -> list B) (l : list A) :
  (forall x, In x l -> f x = []) -> flat_map f l = [].
Proof.
  induction l as [|a l IH]; intros H; [reflexivity|].
  cbn [flat_map]. rewrite (H a (or_introl eq_refl)).
  apply IH. intros x Hx. apply H. now right.
Qed.

Lemma set_diff_subset (a b : list string) :
  (forall k, In k a -> In k b) -> set_diff (set_of a) (set_of b) = [].
Proof.
  intros H. unfold set_diff, set_of. apply filter_none.
  intros k Hk. apply nodup_In in Hk. apply negb_false_iff, set_mem_In.
  apply nodup_In. now apply H.
Qed.

(** The notice that [compute] appends for a low score. *)
Lemma compute_validated_warnings (classify : Q -> IBRClass) (fmt : FloatFormat)
  (self : IBRComposite.state) (ws : list string) :
  IBRComposite.validate_parameters fmt self = (Return (true, ws), self) ->
  exists r,
    IBRComposite.compute classify fmt true self = (Return r, self)
    /\ IBRResult.warnings r
       = (if Qltb (IBRResult.score r) 0.45 then
            ws ++ ["CRITICAL: Ecosystem in COLLAPSED state"]
          else if Qltb (IBRResult.score r) 0.6 then
            ws ++ ["WARNING: Ecosystem DEGRADED, intervention recommended"]
          else ws)%list
    /\ IBRResult.validation_passed (IBRResult.metadata r) = true.
Proof.
  intros Hv.
  cbv beta iota zeta delta [IBRComposite.compute IBRComposite.bind].
  rewrite Hv.
  cbv beta iota zeta delta
    [negb IBRComposite.ret IBRComposite.get_self
     IBRComposite._apply_biome_correction].
  destruct (IBRComposite.score_loop (IBRComposite.param_values self)) as [s c].
  assert (Hs : (if IBRComposite.is_truthy (IBRComposite.biome self)
                then s else s) = s)
    by now destruct (IBRComposite.is_truthy (IBRComposite.biome self)).
  rewrite Hs. eexists. split; [reflexivity|]. split; reflexivity.
Qed.

(** X13.  With exactly the nine weighted parameters stored, each between 0.2
    and 0.95 (bounds included), [validate_parameters] returns (True, []) and
    [compute(validate=True)] returns a result that passed validation and
    whose only possible warning is the notice for a score below 0.6. *)
Theorem validate_parameters_clean (classify : Q -> IBRClass) (fmt : FloatFormat)
  (self : IBRComposite.state) :
  (forall k, In k (dict_keys BIOTICACore.IBR_WEIGHTS)
             <-> In k (dict_keys (IBRComposite.parameters self))) ->
  (forall k e, In (k, e) (IBRComposite.parameters self) ->
               0.2 <= IBRComposite.value e <= 0.95) ->
  IBRComposite.validate_parameters fmt self = (Return (true, []), self)
  /\ exists r,
       IBRComposite.compute classify fmt true self = (Return r, self)
       /\ IBRResult.validation_passed (IBRResult.metadata r) = true
       /\ IBRResult.warnings r
          = if Qltb (IBRResult.score r) 0.45 then
              ["CRITICAL: Ecosystem in COLLAPSED state"]
            else if Qltb (IBRResult.score r) 0.6 then
              ["WARNING: Ecosystem DEGRADED, intervention recommended"]
            else [].
Proof.
  intros Hkeys Hrange.
  assert (Hm : IBRComposite.missing_warning self = []).
  { unfold IBRComposite.missing_warning, IBRComposite.missing,
      IBRComposite.required_params, IBRComposite.provided_params.
    rewrite set_diff_subset; [reflexivity | intros k; apply Hkeys]. }
  assert (He : IBRComposite.extra_warning self = []).
  { unfold IBRComposite.extra_warning, IBRComposite.extra,
      IBRComposite.required_params, IBRComposite.provided_params.
    rewrite set_diff_subset; [reflexivity | intros k; apply Hkeys]. }
  assert (Hr : IBRComposite.range_warnings fmt self = []).
  { unfold IBRComposite.range_warnings. apply flat_map_none.
    intros [k e] Hin. destruct (Hrange k e Hin) as [Hlo Hhi].
    rewrite (proj2 (in_unit_interval_true (IBRComposite.value e)));
      [reflexivity | split; lra]. }
  assert (Hx : IBRComposite.extreme_warnings fmt self = []).
  { unfold IBRComposite.extreme_warnings. apply flat_map_none.
    intros [k e] Hin. destruct (Hrange k e Hin) as [Hlo Hhi].
    rewrite (proj2 (Qltb_false _ _) Hlo), (proj2 (Qgtb_false _ _) Hhi).
    reflexivity. }
  assert (Hv : IBRComposite.validate_parameters fmt self
               = (Return (true, []), self)).
  { cbv beta iota zeta delta
      [IBRComposite.validate_parameters IBRComposite.bind
       IBRComposite.get_self IBRComposite.ret].
    rewrite Hm, He, Hr, Hx. reflexivity. }
  split; [exact Hv|].
  destruct (compute_validated_warnings classify fmt self [] Hv)
    as (r & Hc & Hw & Hp).
  exists r. split; [exact Hc|]. split; [exact Hp|]. exact Hw.
Qed.

Lemma validate_parameters_clean_witness :
  let fmt := {| str_float := fun _ => "0.2"; format_3f := fun _ => "0.200" |} in
  let self :=
    Spec.calculator_with fmt
      [("VCA", 0.95); ("MDI", 0.2); ("PTS", 0.82); ("HFI", 0.79); ("BNC", 0.81);
       ("SGH", 0.76); ("AES", 0.72); ("TMI", 0.68); ("RRC", 0.91)] in
  IBRComposite.validate_parameters fmt self = (Return (true, []), self).
Proof.
  intros fmt self.
  apply (validate_parameters_clean BIOTICACore._classify_ibr fmt self).
  - intros k. vm_compute. tauto.
  - intros k e Hin. vm_compute in Hin.
    repeat (destruct Hin as [[= <- <-]|Hin];
            [split; intros H; vm_compute in H; discriminate H|]).
    contradiction.
Defined.

(** ** IBRComposite.compute: the result *)

Lemma score_loop_contribs (pv ws : dict Q) (a : Q) (c : dict Q) :
  NoDup (dict_keys ws) ->
  (forall k, In k (dict_keys ws) -> ~ In k (dict_keys c)) ->
  snd (fold_left (fun (a : Q * dict Q) (pw : string * Q) =>
                    let (ibr_score, contributions) := a in
                    let (param, weight) := pw in
                    match dict_get param pv with
                    | Some v =>
                        let contrib := v * weight in
                        (ibr_score + contrib, dict_set param contrib contributions)
                    | None => a
                    end) ws (a, c))
  = (c ++ map (Spec.contribution_row pv) (Spec.present ws pv))%list.
Proof.
  revert a c. induction ws as [|[k w] ws IH]; intros a c Hnd Hfresh.
  - cbn. now rewrite app_nil_r.
  - inversion_clear Hnd as [|? ? Hk Hnd'].
    cbn [fold_left]. unfold Spec.present. cbn [filter fst]. unfold dict_mem.
    destruct (dict_get k pv) as [v|] eqn:E.
    + cbv zeta. rewrite IH; [|exact Hnd'|].
      * rewrite dict_set_app by (apply Hfresh; now left).
        rewrite <- app_assoc. cbn [app map]. f_equal. f_equal.
        unfold Spec.contribution_row, Spec.value_of. cbn [fst snd].
        now rewrite E.
      * intros k' Hk'.
        rewrite dict_set_app by (apply Hfresh; now left).
        unfold dict_keys. rewrite map_app, in_app_iff. cbn [map fst In].
        intros [H|[H|[]]].
        -- exact (Hfresh k' (or_intror Hk') H).
        -- subst k'. contradiction.
    + apply IH; [exact Hnd'|]. intros k' Hk'. apply Hfresh. now right.
Qed.

Lemma dict_keys_get {V : Type} (k : string) (d : dict V) :
  In k (dict_keys d) <-> dict_mem k d = true.
Proof.
  split.
  - intros Hin. destruct (dict_mem k d) eqn:E; [reflexivity|].
    exfalso. exact (dict_mem_false_not_in k d E Hin).
  - unfold dict_mem. intros H. destruct (dict_get k d) as [v|] eqn:E;
      [|discriminate].
    apply dict_get_in in E. unfold dict_keys.
    change k with (fst (k, v)). now apply in_map.
Qed.

Lemma fold_dict_set_NoDup {A : Type} (keep : string -> bool) (f : A -> Q)
  (l : dict A) (d0 : dict Q) :
  NoDup (dict_keys d0) ->
  NoDup (dict_keys
           (fold_left (fun (d : dict Q) (nd : string * A) =>
                         let (n, e) := nd in
                         if keep n then dict_set n (f e) d else d) l d0)).
Proof.
  revert d0. induction l as [|[n e] l IH]; intros d0 Hnd; [exact Hnd|].
  cbn [fold_left]. apply IH. destruct (keep n); [|exact Hnd].
  now apply dict_set_NoDup.
Qed.

Lemma NoDup_same_length (l1 l2 : list string) :
  NoDup l1 -> NoDup l2 -> (forall k, In k l1 <-> In k l2) ->
  List.length l1 = List.length l2.
Proof.
  intros H1 H2 H.
  apply Nat.le_antisymm; apply NoDup_incl_length; try assumption;
    intros k Hk; now apply H.
Qed.

Lemma present_keys_NoDup (ws parameters : dict Q) :
  NoDup (dict_keys ws) -> NoDup (dict_keys (Spec.present ws parameters)).
Proof.
  unfold Spec.present. induction ws as [|[k w] ws IH]; intros Hnd;
    [constructor|].
  inversion_clear Hnd as [|? ? Hk Hnd']. cbn [filter fst].
  destruct (dict_mem k parameters); [|now apply IH].
  unfold dict_keys in *. cbn [map fst]. constructor; [|now apply IH].
  intros Hin. apply Hk. apply in_map_iff in Hin.
  destruct Hin as [[k' w'] [Heq Hin]]. cbn in Heq. subst k'.
  apply filter_In in Hin. apply in_map_iff. exists (k, w'). now split.
Qed.

Lemma present_keys_In (ws parameters : dict Q) (k : string) :
  In k (dict_keys (Spec.present ws parameters))
  <-> In k (dict_keys ws) /\ dict_mem k parameters = true.
Proof.
  unfold Spec.present, dict_keys. rewrite !in_map_iff. split.
  - intros [[k' w] [Heq Hin]]. cbn in Heq. subst k'.
    apply filter_In in Hin. destruct Hin as [Hin Hm]. split; [|exact Hm].
    exists (k, w). now split.
  - intros [[[k' w] [Heq Hin]] Hm]. cbn in Heq. subst k'.
    exists (k, w). split; [reflexivity|]. apply filter_In. now split.
Qed.

(** The number of entries of [param_values] is the number of weight rows
    whose parameter is stored. *)
Lemma param_values_length (self : IBRComposite.state) :
  Spec.well_formed self ->
  List.length (IBRComposite.param_values self)
  = List.length (Spec.present BIOTICACore.IBR_WEIGHTS (Spec.stored_values self)).
Proof.
  intros Hwf.
  rewrite <- (length_map fst (IBRComposite.param_values self)).
  rewrite <- (length_map fst (Spec.present _ _)).
  apply NoDup_same_length.
  - apply (fold_dict_set_NoDup
             (fun n => dict_mem n BIOTICACore.IBR_WEIGHTS) IBRComposite.value).
    constructor.
  - apply present_keys_NoDup, IBR_WEIGHTS_NoDup.
  - intros k.
    change (In k (dict_keys (IBRComposite.param_values self))
            <-> In k (dict_keys (Spec.present BIOTICACore.IBR_WEIGHTS
                                   (Spec.stored_values self)))).
    rewrite present_keys_In, !dict_keys_get.
    unfold dict_mem at 1 3. unfold IBRComposite.param_values.
    rewrite (fold_dict_set_get
               (fun n => dict_mem n BIOTICACore.IBR_WEIGHTS) IBRComposite.value
               _ [] k Hwf).
    unfold Spec.stored_values. rewrite dict_get_map.
    destruct (dict_get k (IBRComposite.parameters self)) as [e|];
      cbn [option_map dict_get];
      destruct (dict_mem k BIOTICACore.IBR_WEIGHTS); intuition congruence.
Qed.

Lemma compute_inv_metadata (classify : Q -> IBRClass) (fmt : FloatFormat)
  (validate : bool) (self self' : IBRComposite.state) (r : IBRResult.t) :
  IBRComposite.compute classify fmt validate self = (Return r, self') ->
  IBRResult.n_parameters (IBRResult.metadata r)
  = List.length (IBRComposite.param_values self)
  /\ IBRResult.validation_passed (IBRResult.metadata r) = validate
  /\ IBRResult.method (IBRResult.metadata r) = "weighted_sum".
Proof.
  cbv beta iota zeta delta
    [IBRComposite.compute IBRComposite.bind IBRComposite.validate_parameters
     IBRComposite.get_self IBRComposite.ret IBRComposite.raise
     IBRComposite._apply_biome_correction].
  destruct validate.
  - match goal with
    | |- context [negb (Nat.eqb ?n 0)] => destruct (negb (Nat.eqb n 0))
    end; [discriminate|].
    destruct (IBRComposite.score_loop (IBRComposite.param_values self))
      as [s c].
    intros [= <- <-]. cbn. repeat split; reflexivity.
  - destruct (IBRComposite.score_loop (IBRComposite.param_values self))
      as [s c].
    intros [= <- <-]. cbn. repeat split; reflexivity.
Qed.

Lemma weighted_sum_unit_interval (parameters : dict Q) :
  (forall pw v, In pw BIOTICACore.IBR_WEIGHTS ->
                dict_get (fst pw) parameters = Some v -> 0 <= v <= 1) ->
  0 <= Spec.weighted_sum BIOTICACore.IBR_WEIGHTS parameters <= 1.
Proof.
  intros Hrange.
  destruct (compute_ibr_sums parameters) as (_ & [HW0 HW1] & _).
  assert (Hrow : forall pw,
             In pw (Spec.present BIOTICACore.IBR_WEIGHTS parameters) ->
             0 <= Spec.value_of parameters (fst pw) * snd pw <= snd pw).
  { intros pw Hin. apply filter_In in Hin. destruct Hin as [Hin Hmem].
    pose proof (proj1 (Forall_forall _ _) IBR_WEIGHTS_positive pw Hin) as Hw.
    cbn beta in Hw.
    unfold dict_mem in Hmem. unfold Spec.value_of.
    destruct (dict_get (fst pw) parameters) as [v|] eqn:E; [|discriminate].
    destruct (Hrange pw v Hin E) as [Hlo Hhi]. split; nra. }
  unfold Spec.weighted_sum. split.
  - apply Qsum_nonneg, Forall_map, Forall_forall. intros pw Hin.
    apply (Hrow pw Hin).
  - apply Qle_trans with (2 := HW1). unfold Spec.used_weight.
    apply Qsum_map_le. intros pw Hin. apply (Hrow pw Hin).
Qed.

(** X14.  Whatever [compute] returns: the contributions are the rows
    value * weight of the stored weighted parameters, in the order of the
    weight table; they add up to the score; [n_parameters] counts them;
    [validation_passed] repeats the [validate] argument; and when every
    stored value is in [0,1] so is the score. *)
Theorem compute_result_shape (classify : Q -> IBRClass) (fmt : FloatFormat)
  (validate : bool) (self self' : IBRComposite.state) (r : IBRResult.t) :
  Spec.well_formed self ->
  IBRComposite.compute classify fmt validate self = (Return r, self') ->
  IBRResult.contributions r
  = map (Spec.contribution_row (Spec.stored_values self))
        (Spec.present BIOTICACore.IBR_WEIGHTS (Spec.stored_values self))
  /\ Qsum (map snd (IBRResult.contributions r)) == IBRResult.score r
  /\ IBRResult.n_parameters (IBRResult.metadata r)
     = List.length (IBRResult.contributions r)
  /\ IBRResult.validation_passed (IBRResult.metadata r) = validate
  /\ ((forall k e, In (k, e) (IBRComposite.parameters self) ->
                   0 <= IBRComposite.value e <= 1) ->
      0 <= IBRResult.score r <= 1).
Proof.
  intros Hwf H.
  destruct (compute_inv _ _ _ _ _ _ H) as (_ & _ & Hc & _).
  destruct (compute_inv_metadata _ _ _ _ _ _ H) as (Hn & Hp & _).
  pose proof (composite_score_weighted_sum _ _ _ _ _ _ Hwf H) as Hs.
  assert (Hrows : IBRResult.contributions r
                  = map (Spec.contribution_row (Spec.stored_values self))
                        (Spec.present BIOTICACore.IBR_WEIGHTS
                           (Spec.stored_values self))).
  { rewrite Hc. unfold IBRComposite.score_loop.
    rewrite score_loop_contribs;
      [| exact IBR_WEIGHTS_NoDup | intros k _ []].
    cbn [app].
    rewrite (present_ext _ _ (Spec.stored_values self)
               (fun pw Hin => param_values_get self pw Hwf Hin)).
    apply map_ext_in. intros pw Hin. apply filter_In in Hin.
    unfold Spec.contribution_row, Spec.value_of.
    now rewrite (param_values_get self pw Hwf (proj1 Hin)). }
  split; [exact Hrows|]. split; [|split; [|split]].
  - rewrite Hrows, map_map, Hs. reflexivity.
  - rewrite Hn, Hrows, length_map. now apply param_values_length.
  - exact Hp.
  - intros Hrange. rewrite Hs. apply weighted_sum_unit_interval.
    intros pw v _ Hget. unfold Spec.stored_values in Hget.
    rewrite dict_get_map in Hget.
    destruct (dict_get (fst pw) (IBRComposite.parameters self)) as [e|] eqn:E;
      [|discriminate].
    injection Hget as <-. apply (Hrange (fst pw) e). now apply dict_get_in.
Qed.

Lemma compute_result_shape_witness :
  let fmt := {| str_float := fun _ => "0.85"; format_3f := fun _ => "0.850" |} in
  let self := Spec.calculator_with fmt [("VCA", 0.85); ("MDI", 0.78)] in
  exists r,
    IBRComposite.compute BIOTICACore._classify_ibr fmt false self
    = (Return r, self)
    /\ IBRResult.contributions r = [("VCA", 0.85 * 0.20); ("MDI", 0.78 * 0.15)]
    /\ IBRResult.n_parameters (IBRResult.metadata r) = 2%nat.
Proof.
  intros fmt self.
  destruct (compute_unvalidated_returns BIOTICACore._classify_ibr fmt self)
    as [r Hr].
  exists r. split; [exact Hr|].
  assert (Hwf : Spec.well_formed self)
    by (repeat constructor; cbn; intuition discriminate).
  destruct (compute_result_shape BIOTICACore._classify_ibr fmt false self self r
              Hwf Hr) as (Hc & _ & Hn & _).
  split; [exact Hc|]. rewrite Hn, Hc. reflexivity.
Defined.

(** ** IBRComposite.compute: parameters outside the weight table *)

Lemma fold_dict_set_skip {A : Type} (keep : string -> bool) (f : A -> Q)
  (name : string) (e : A) (l : dict A) (d0 : dict Q) :
  keep name = false ->
  fold_left (fun (d : dict Q) (nd : string * A) =>
               let (n, x) := nd in
               if keep n then dict_set n (f x) d else d)
            (dict_set name e l) d0
  = fold_left (fun (d : dict Q) (nd : string * A) =>
                 let (n, x) := nd in
                 if keep n then dict_set n (f x) d else d) l d0.
Proof.
  intros Hk. revert d0. induction l as [|[k x] l IH]; intros d0.
  - cbn. now rewrite Hk.
  - cbn [dict_set]. destruct (String.eqb name k) eqn:E.
    + apply String.eqb_eq in E. subst k. cbn [fold_left]. now rewrite Hk.
    + cbn [fold_left]. apply IH.
Qed.

(** X15.  A stored parameter whose name is not in the weight table has no
    effect on what [compute] returns: without validation the whole outcome is
    the same with and without it, and whenever both calls return (with or
    without validation) score, contributions, class, uncertainty, confidence
    and parameter count agree. *)
Theorem compute_ignores_unweighted (classify : Q -> IBRClass) (fmt : FloatFormat)
  (self : IBRComposite.state) (name : string) (e : IBRComposite.entry) :
  dict_mem name BIOTICACore.IBR_WEIGHTS = false ->
  let self' :=
    IBRComposite.with_parameters self
      (dict_set name e (IBRComposite.parameters self)) in
  fst (IBRComposite.compute classify fmt false self')
  = fst (IBRComposite.compute classify fmt false self)
  /\ forall validate validate' s s' r r',
       IBRComposite.compute classify fmt validate self = (Return r, s) ->
       IBRComposite.compute classify fmt validate' self' = (Return r', s') ->
       IBRResult.score r' = IBRResult.score r
       /\ IBRResult.contributions r' = IBRResult.contributions r
       /\ IBRResult.classification r' = IBRResult.classification r
       /\ IBRResult.uncertainty r' = IBRResult.uncertainty r
       /\ IBRResult.confidence r' = IBRResult.confidence r
       /\ IBRResult.n_parameters (IBRResult.metadata r')
          = IBRResult.n_parameters (IBRResult.metadata r).
Proof.
  intros Hname self'.
  assert (Hpv : IBRComposite.param_values self'
                = IBRComposite.param_values self).
  { unfold IBRComposite.param_values. subst self'.
    cbn [IBRComposite.parameters IBRComposite.with_parameters].
    apply (fold_dict_set_skip
             (fun n => dict_mem n BIOTICACore.IBR_WEIGHTS) IBRComposite.value).
    exact Hname. }
  assert (Hpu : IBRComposite.param_uncertainties self'
                = IBRComposite.param_uncertainties self).
  { unfold IBRComposite.param_uncertainties. subst self'.
    cbn [IBRComposite.parameters IBRComposite.with_parameters].
    apply (fold_dict_set_skip
             (fun n => dict_mem n BIOTICACore.IBR_WEIGHTS)
             (fun x => match IBRComposite.uncertainty x with
                       | Some u => u
                       | None => 0.05
                       end)).
    exact Hname. }
  split.
  - cbv beta iota zeta delta
      [IBRComposite.compute IBRComposite.bind IBRComposite.get_self
       IBRComposite.ret].
    rewrite Hpv, Hpu.
    destruct (IBRComposite.score_loop (IBRComposite.param_values self))
      as [sc c].
    reflexivity.
  - intros validate validate' s s' r r' H H'.
    destruct (compute_inv _ _ _ _ _ _ H) as (_ & Hs & Hc & Hcl & Hu & Hcf & _).
    destruct (compute_inv _ _ _ _ _ _ H') as (_ & Hs' & Hc' & Hcl' & Hu' & Hcf' & _).
    destruct (compute_inv_metadata _ _ _ _ _ _ H) as (Hn & _).
    destruct (compute_inv_metadata _ _ _ _ _ _ H') as (Hn' & _).
    rewrite Hpv in Hs', Hc', Hn'. rewrite Hpu in Hu'.
    assert (Hscore : IBRResult.score r' = IBRResult.score r) by congruence.
    assert (Hunc : IBRResult.uncertainty r' = IBRResult.uncertainty r)
      by congruence.
    repeat split; congruence.
Qed.

Lemma compute_ignores_unweighted_witness :
  let fmt := {| str_float := fun _ => "0.5"; format_3f := fun _ => "0.500" |} in
  let self := Spec.calculator_with fmt [("VCA", 0.85)] in
  let self' :=
    IBRComposite.with_parameters self
      (dict_set "NDVI" {| IBRComposite.value := 0.5;
                          IBRComposite.uncertainty := None |}
         (IBRComposite.parameters self)) in
  fst (IBRComposite.compute BIOTICACore._classify_ibr fmt false self')
  = fst (IBRComposite.compute BIOTICACore._classify_ibr fmt false self).
Proof.
  intros fmt self.
  apply (compute_ignores_unweighted BIOTICACore._classify_ibr fmt self "NDVI").
  reflexivity.
Defined.

(** ** IBRComposite.compute_from_raw *)

Lemma NoDup_map_inj_on {A B : Type} (f : A -> B) (l : list A) (x y : A) :
  NoDup (map f l) -> In x l -> In y l -> f x = f y -> x = y.
Proof.
  induction l as [|a l IH]; intros Hnd Hx Hy Heq; [contradiction|].
  cbn [map] in Hnd. inversion_clear Hnd as [|? ? Ha Hnd'].
  destruct Hx as [<-|Hx], Hy as [<-|Hy].
  - reflexivity.
  - exfalso. apply Ha. rewrite Heq. now apply in_map.
  - exfalso. apply Ha. rewrite <- Heq. now apply in_map.
  - now apply IH.
Qed.

Section RawDerivations.

Variable raw : Type.
Variable zero : raw.
Variable core : IBRCompositeRaw.core_methods raw.
Variable raw_data : dict raw.

(** Every block of [compute_from_raw] derives a parameter of the weight
    table, and no two blocks derive the same one. *)
Lemma derivations_weighted (name : string) (keys : list string)
  (call : outcome ParameterResult) :
  In (name, keys, call) (IBRCompositeRaw.derivations raw zero core raw_data) ->
  In name (dict_keys BIOTICACore.IBR_WEIGHTS).
Proof.
  intros Hin. apply dict_keys_get.
  unfold IBRCompositeRaw.derivations in Hin. cbn [In] in Hin.
  repeat (destruct Hin as [Hin|Hin];
          [injection Hin as <- _ _; reflexivity|]).
  contradiction.
Qed.

Lemma derivations_names_unique :
  NoDup (map (fun d : string * list string * outcome ParameterResult =>
                fst (fst d))
             (IBRCompositeRaw.derivations raw zero core raw_data)).
Proof.
  unfold IBRCompositeRaw.derivations. cbn [map fst].
  repeat (constructor; [cbn [In]; intuition discriminate|]).
  constructor.
Qed.

(** What the blocks leave in [self]: identity and biome as before, and a
    parameter only where it was there before or its block found all its
    fields. *)
Lemma derive_all_keys
  (ds : list (string * list string * outcome ParameterResult))
  (s s' : IBRComposite.state) (o : outcome unit) :
  IBRCompositeRaw.derive_all raw raw_data ds s = (o, s') ->
  IBRComposite.plot_id s' = IBRComposite.plot_id s
  /\ IBRComposite.biome s' = IBRComposite.biome s
  /\ forall k, In k (dict_keys (IBRComposite.parameters s')) ->
       In k (dict_keys (IBRComposite.parameters s))
       \/ exists keys call,
            In (k, keys, call) ds
            /\ IBRCompositeRaw.all_in raw keys raw_data = true.
Proof.
  revert s. induction ds as [|[[n ks] call] ds IH]; intros s H.
  - cbn in H. injection H as <- <-. repeat split; try reflexivity. now left.
  - cbn [IBRCompositeRaw.derive_all] in H.
    unfold IBRComposite.bind at 1 in H. unfold IBRCompositeRaw.derive in H.
    destruct (IBRCompositeRaw.all_in raw ks raw_data) eqn:Ek.
    + unfold IBRComposite.bind at 1 in H. unfold IBRCompositeRaw.lift in H.
      destruct call as [result|e].
      * unfold IBRComposite.set_parameter_result, IBRComposite.bind,
          IBRComposite.get_self, IBRComposite.put_self in H.
        destruct (IH _ H) as (Hp & Hb & Hk).
        split; [exact Hp|]. split; [exact Hb|].
        intros k Hin. destruct (Hk k Hin) as [Hold|(keys & c & Hd & Ha)].
        -- cbn [IBRComposite.parameters IBRComposite.with_parameters] in Hold.
           rewrite dict_set_keys in Hold.
           destruct (dict_mem n (IBRComposite.parameters s)); [now left|].
           apply in_app_iff in Hold. destruct Hold as [Hold|[<-|[]]];
             [now left|].
           right. exists ks, (Return result). split; [now left | exact Ek].
        -- right. exists keys, c. split; [now right | exact Ha].
      * injection H as <- <-. repeat split; try reflexivity. now left.
    + unfold IBRComposite.ret in H.
      destruct (IH _ H) as (Hp & Hb & Hk).
      split; [exact Hp|]. split; [exact Hb|].
      intros k Hin. destruct (Hk k Hin) as [Hold|(keys & c & Hd & Ha)];
        [now left|].
      right. exists keys, c. split; [now right | exact Ha].
Qed.

(** A block with a field missing leaves its parameter out. *)
Lemma derive_all_incomplete (self s' : IBRComposite.state) (o : outcome unit)
  (name : string) (keys : list string) (call : outcome ParameterResult) :
  In (name, keys, call) (IBRCompositeRaw.derivations raw zero core raw_data) ->
  IBRCompositeRaw.all_in raw keys raw_data = false ->
  IBRCompositeRaw.derive_all raw raw_data
    (IBRCompositeRaw.derivations raw zero core raw_data)
    (IBRComposite.with_parameters self []) = (o, s') ->
  IBRComposite.missing s' <> []
  /\ ~ In name (dict_keys (IBRComposite.parameters s')).
Proof.
  intros Hrow Hkeys Hd.
  destruct (derive_all_keys _ _ _ _ Hd) as (_ & _ & Hk).
  assert (Hnot : ~ In name (dict_keys (IBRComposite.parameters s'))).
  { intros Hin. destruct (Hk name Hin) as [[]|(keys' & call' & Hrow' & Ha)].
    pose proof (NoDup_map_inj_on _ _ _ _ derivations_names_unique
                  Hrow Hrow' eq_refl) as Heq.
    injection Heq as <- _. congruence. }
  split; [|exact Hnot].
  intros Hm.
  assert (Hin : In name (IBRComposite.missing s')).
  { apply missing_spec. split; [|exact Hnot].
    exact (derivations_weighted name keys call Hrow). }
  rewrite Hm in Hin. contradiction.
Qed.

End RawDerivations.

(** X16.  [compute_from_raw]: when the raw data lack a field of any of the
    nine blocks, the call raises (the block's parameter is missing at the
    final validation, unless a parameter function raised before); the
    calculator keeps its identity and biome, and is left holding only
    parameters derived by this call, none of those stored before. *)
Theorem compute_from_raw_incomplete (classify : Q -> IBRClass) (fmt : FloatFormat)
  (raw : Type) (zero : raw) (core : IBRCompositeRaw.core_methods raw)
  (raw_data : dict raw) (self : IBRComposite.state)
  (name : string) (keys : list string) (call : outcome ParameterResult) :
  In (name, keys, call) (IBRCompositeRaw.derivations raw zero core raw_data) ->
  IBRCompositeRaw.all_in raw keys raw_data = false ->
  exists e self',
    IBRCompositeRaw.compute_from_raw classify fmt raw zero core raw_data self
    = (Raise e, self')
    /\ IBRComposite.plot_id self' = IBRComposite.plot_id self
    /\ IBRComposite.biome self' = IBRComposite.biome self
    /\ ~ In name (dict_keys (IBRComposite.parameters self'))
    /\ forall k, In k (dict_keys (IBRComposite.parameters self')) ->
         exists keys' call',
           In (k, keys', call')
              (IBRCompositeRaw.derivations raw zero core raw_data)
           /\ IBRCompositeRaw.all_in raw keys' raw_data = true.
Proof.
  intros Hrow Hkeys.
  unfold IBRCompositeRaw.compute_from_raw.
  unfold IBRComposite.bind at 1 2. unfold IBRComposite.get_self.
  unfold IBRComposite.bind at 1. unfold IBRComposite.put_self.
  destruct (IBRCompositeRaw.derive_all raw raw_data
              (IBRCompositeRaw.derivations raw zero core raw_data)
              (IBRComposite.with_parameters self [])) as [o s'] eqn:Hd.
  destruct (derive_all_keys _ _ _ _ _ _ Hd) as (Hp & Hb & Hk).
  destruct (derive_all_incomplete _ _ _ _ _ _ _ _ _ _ Hrow Hkeys Hd)
    as [Hmiss Hnot].
  assert (Hderived : forall k,
             In k (dict_keys (IBRComposite.parameters s')) ->
             exists keys' call',
               In (k, keys', call')
                  (IBRCompositeRaw.derivations raw zero core raw_data)
               /\ IBRCompositeRaw.all_in raw keys' raw_data = true).
  { intros k Hin. destruct (Hk k Hin) as [[]|H]. exact H. }
  destruct o as [[]|e].
  - destruct (compute_raises_when_missing classify fmt s' Hmiss)
      as (ws & _ & _ & _ & Hc).
    eexists. exists s'. split; [exact Hc|]. repeat split; assumption.
  - exists e, s'. split; [reflexivity|]. repeat split; assumption.
Qed.

Lemma compute_from_raw_incomplete_witness :
  let core :=
    Spec.constant_core
      (Return {| pr_value := 0.5; pr_uncertainty := 0.05;
                 pr_confidence := 0.95 |}) in
  let fmt := {| str_float := fun _ => "0.5"; format_3f := fun _ => "0.500" |} in
  exists e self',
    IBRCompositeRaw.compute_from_raw BIOTICACore._classify_ibr fmt
      Spec.raw_value (Spec.Num 0) core Spec.example_raw_data
      (IBRComposite.__init__ None None)
    = (Raise e, self').
Proof.
  intros core fmt.
  edestruct (compute_from_raw_incomplete BIOTICACore._classify_ibr fmt
               Spec.raw_value (Spec.Num 0) core Spec.example_raw_data
               (IBRComposite.__init__ None None) "BNC")
    as (e & self' & H & _).
  - do 4 right. left. reflexivity.
  - reflexivity.
  - exists e, self'. exact H.
Defined.

(** ** IBRBatchProcessor *)

Section Batch.

Variable classify : Q -> IBRClass.
Variable fmt : FloatFormat.
Variable raw : Type.
Variable zero : raw.
Variable core : IBRCompositeRaw.core_methods raw.
Variable as_plot_id : raw -> string.
Variable as_biome : raw -> option BiomeType.

(** A plot with an incomplete block fails. *)
Lemma process_plot_incomplete (plot : dict raw)
  (name : string) (keys : list string) (call : outcome ParameterResult) :
  In (name, keys, call) (IBRCompositeRaw.derivations raw zero core plot) ->
  IBRCompositeRaw.all_in raw keys plot = false ->
  exists e,
    IBRBatchProcessor.process_plot classify fmt raw zero core
      as_plot_id as_biome plot = Raise e.
Proof.
  intros Hrow Hkeys.
  unfold IBRBatchProcessor.process_plot, IBRCompositeRaw.compute_from_raw.
  unfold IBRComposite.bind at 1 2. unfold IBRComposite.get_self.
  unfold IBRComposite.bind at 1. unfold IBRComposite.put_self.
  match goal with
  | |- context [IBRCompositeRaw.derive_all raw plot ?ds ?s0] =>
      destruct (IBRCompositeRaw.derive_all raw plot ds s0) as [o s'] eqn:Hd
  end.
  destruct (derive_all_incomplete _ _ _ _ _ _ _ _ _ _ Hrow Hkeys Hd)
    as [Hmiss _].
  destruct o as [[]|e].
  - destruct (compute_raises_when_missing classify fmt s' Hmiss)
      as (ws & _ & _ & _ & Hc).
    rewrite Hc. eexists. reflexivity.
  - exists e. reflexivity.
Qed.

(** A processed plot carries the identifier and biome read from its data. *)
Lemma process_plot_identity (plot : dict raw) (r : IBRResult.t) :
  IBRBatchProcessor.process_plot classify fmt raw zero core
      as_plot_id as_biome plot = Return r ->
  IBRResult.plot_id r = option_map as_plot_id (dict_get "plot_id" plot)
  /\ IBRResult.biome r
     = match dict_get "biome" plot with Some b => as_biome b | None => None end.
Proof.
  unfold IBRBatchProcessor.process_plot, IBRCompositeRaw.compute_from_raw.
  unfold IBRComposite.bind at 1 2. unfold IBRComposite.get_self.
  unfold IBRComposite.bind at 1. unfold IBRComposite.put_self.
  match goal with
  | |- context [IBRCompositeRaw.derive_all raw plot ?ds ?s0] =>
      destruct (IBRCompositeRaw.derive_all raw plot ds s0) as [o s'] eqn:Hd
  end.
  destruct (derive_all_keys _ _ _ _ _ _ Hd) as (Hp & Hb & _).
  destruct o as [[]|e]; [|discriminate].
  destruct (IBRComposite.compute classify fmt true s') as [o' s''] eqn:Hc.
  cbn [fst]. intros ->.
  destruct (compute_inv _ _ _ _ _ _ Hc) as (_ & _ & _ & _ & _ & _ & Hrb & Hrp).
  rewrite Hrb, Hrp, Hb, Hp. split; reflexivity.
Qed.

Lemma process_plots_returns (plots : list (dict raw)) (rs : list IBRResult.t) :
  IBRBatchProcessor.process_plots classify fmt raw zero core
      as_plot_id as_biome plots = Return rs ->
  Forall2 (fun plot r =>
             IBRBatchProcessor.process_plot classify fmt raw zero core
               as_plot_id as_biome plot = Return r)
          plots rs.
Proof.
  revert rs.
  induction plots as [|plot plots IH]; intros rs H.
  - cbn in H. injection H as <-. constructor.
  - cbn [IBRBatchProcessor.process_plots] in H.
    destruct (IBRBatchProcessor.process_plot classify fmt raw zero core
                as_plot_id as_biome plot) as [r|e] eqn:Hr; [|discriminate].
    cbn [obind] in H.
    destruct (IBRBatchProcessor.process_plots classify fmt raw zero core
                as_plot_id as_biome plots) as [rs'|e]; [|discriminate].
    cbn [obind] in H. injection H as <-.
    constructor; [exact Hr | now apply IH].
Qed.

Lemma process_plots_raises (plots : list (dict raw)) (plot : dict raw)
  (e : exn) :
  In plot plots ->
  IBRBatchProcessor.process_plot classify fmt raw zero core
    as_plot_id as_biome plot = Raise e ->
  exists e',
    IBRBatchProcessor.process_plots classify fmt raw zero core
      as_plot_id as_biome plots = Raise e'.
Proof.
  induction plots as [|p plots IH]; intros Hin He; [contradiction|].
  cbn [IBRBatchProcessor.process_plots].
  destruct (IBRBatchProcessor.process_plot classify fmt raw zero core
              as_plot_id as_biome p) as [r|e0] eqn:Hr.
  - destruct Hin as [->|Hin]; [congruence|].
    destruct (IH Hin He) as [e' He']. exists e'. cbn [obind].
    now rewrite He'.
  - exists e0. reflexivity.
Qed.

(** X17.  [process_batch] is all or nothing.  When it returns, [self.results]
    is the returned list: one result per plot, in order, each the result of
    [process_plot] on that plot and carrying the plot's identifier and
    biome.  When the data of any one plot lack a field of any block, the
    whole batch raises and [self.results] stays as it was. *)
Theorem process_batch_all_or_nothing (plots : list (dict raw))
  (self : IBRBatchProcessor.state) :
  (forall rs self',
     IBRBatchProcessor.process_batch classify fmt raw zero core
       as_plot_id as_biome plots self = (Return rs, self') ->
     IBRBatchProcessor.results self' = rs
     /\ List.length rs = List.length plots
     /\ Forall2 (fun plot r =>
                   IBRBatchProcessor.process_plot classify fmt raw zero core
                     as_plot_id as_biome plot = Return r
                   /\ IBRResult.plot_id r
                      = option_map as_plot_id (dict_get "plot_id" plot)
                   /\ IBRResult.biome r
                      = match dict_get "biome" plot with
                        | Some b => as_biome b
                        | None => None
                        end)
                plots rs)
  /\ (forall plot name keys call,
        In plot plots ->
        In (name, keys, call) (IBRCompositeRaw.derivations raw zero core plot) ->
        IBRCompositeRaw.all_in raw keys plot = false ->
        exists e,
          IBRBatchProcessor.process_batch classify fmt raw zero core
            as_plot_id as_biome plots self = (Raise e, self)).
Proof.
  split.
  - intros rs self' H. unfold IBRBatchProcessor.process_batch in H.
    destruct (IBRBatchProcessor.process_plots classify fmt raw zero core
                as_plot_id as_biome plots) as [rs'|e] eqn:Hp; [|discriminate].
    injection H as <- <-. cbn [IBRBatchProcessor.results].
    pose proof (process_plots_returns plots rs' Hp) as HF.
    split; [reflexivity|]. split.
    + symmetry. exact (Forall2_length HF).
    + clear Hp. induction HF as [|plot r plots' rs'' Hr _ IH]; constructor.
      * split; [exact Hr|]. now apply process_plot_identity.
      * exact IH.
  - intros plot name keys call Hin Hrow Hkeys.
    destruct (process_plot_incomplete plot name keys call Hrow Hkeys)
      as [e He].
    destruct (process_plots_raises plots plot e Hin He) as [e' He'].
    exists e'. unfold IBRBatchProcessor.process_batch.
    now rewrite He'.
Qed.

End Batch.

Lemma process_batch_all_or_nothing_witness :
  let core :=
    Spec.constant_core
      (Return {| pr_value := 0.5; pr_uncertainty := 0.05;
                 pr_confidence := 0.95 |}) in
  let fmt := {| str_float := fun _ => "0.5"; format_3f := fun _ => "0.500" |} in
  let as_plot_id :=
    fun v => match v with Spec.Text s => s | _ => "plot" end in
  exists e,
    IBRBatchProcessor.process_batch BIOTICACore._classify_ibr fmt
      Spec.raw_value (Spec.Num 0) core as_plot_id (fun _ => None)
      [Spec.example_raw_data] IBRBatchProcessor.__init__
    = (Raise e, IBRBatchProcessor.__init__).
Proof.
  intros core fmt as_plot_id.
  refine (proj2 (process_batch_all_or_nothing BIOTICACore._classify_ibr fmt
                   Spec.raw_value (Spec.Num 0) core as_plot_id (fun _ => None)
                   [Spec.example_raw_data] IBRBatchProcessor.__init__)
            Spec.example_raw_data "RRC" _ _ _ _ _).
  - now left.
  - do 8 right. left. reflexivity.
  - reflexivity.
Defined.

(** ** IBRBatchProcessor.summary_statistics *)

Lemma fold_min_le (l : list Q) (m : Q) :
  fold_left (fun m y => if Qltb y m then y else m) l m <= m
  /\ forall y, In y l ->
       fold_left (fun m y => if Qltb y m then y else m) l m <= y.
Proof.
  revert m. induction l as [|a l IH]; intros m.
  - split; [apply Qle_refl | intros y []].
  - cbn [fold_left]. destruct (Qltb a m) eqn:E.
    + apply Qltb_true in E. destruct (IH a) as [H1 H2]. split.
      * lra.
      * intros y [<-|Hy]; [exact H1 | now apply H2].
    + apply Qltb_false in E. destruct (IH m) as [H1 H2]. split.
      * exact H1.
      * intros y [<-|Hy]; [lra | now apply H2].
Qed.

Lemma fold_max_ge (l : list Q) (m : Q) :
  m <= fold_left (fun m y => if Qltb m y then y else m) l m
  /\ forall y, In y l ->
       y <= fold_left (fun m y => if Qltb m y then y else m) l m.
Proof.
  revert m. induction l as [|a l IH]; intros m.
  - split; [apply Qle_refl | intros y []].
  - cbn [fold_left]. destruct (Qltb m a) eqn:E.
    + apply Qltb_true in E. destruct (IH a) as [H1 H2]. split.
      * lra.
      * intros y [<-|Hy]; [exact H1 | now apply H2].
    + apply Qltb_false in E. destruct (IH m) as [H1 H2]. split.
      * exact H1.
      * intros y [<-|Hy]; [lra | now apply H2].
Qed.

Lemma np_min_max_bounds (l : list Q) (x : Q) :
  In x l -> IBRBatchProcessor.np_min l <= x <= IBRBatchProcessor.np_max l.
Proof.
  destruct l as [|a l]; [intros []|].
  unfold IBRBatchProcessor.np_min, IBRBatchProcessor.np_max.
  destruct (fold_min_le l a) as [Hm1 Hm2].
  destruct (fold_max_ge l a) as [HM1 HM2].
  intros [<-|Hx]; split.
  - exact Hm1.
  - exact HM1.
  - now apply Hm2.
  - now apply HM2.
Qed.

Lemma classification_counts_total (rs : list IBRResult.t) :
  fold_right Nat.add 0%nat
    (map (fun cls =>
            List.length
              (filter (fun r =>
                         IBRBatchProcessor.IBRClass_eqb
                           (IBRResult.classification r) cls) rs))
         IBRBatchProcessor.all_classes)
  = List.length rs.
Proof.
  induction rs as [|r rs IH]; [reflexivity|].
  unfold IBRBatchProcessor.all_classes in *.
  cbn [map fold_right filter] in *.
  destruct (IBRResult.classification r);
    cbn [IBRBatchProcessor.IBRClass_eqb List.length]; lia.
Qed.

(** X18.  [summary_statistics] gives the empty summary exactly when there
    are no results.  Otherwise [n_plots] is the number of results, the
    counts are listed for the five classes in order and add up to it, every
    score lies between [min_score] and [max_score], and [std_score] is not
    negative. *)
Theorem summary_statistics_consistent (self : IBRBatchProcessor.state) :
  (IBRBatchProcessor.summary_statistics self = None
   <-> IBRBatchProcessor.results self = [])
  /\ forall s,
       IBRBatchProcessor.summary_statistics self = Some s ->
       IBRBatchProcessor.n_plots s
       = List.length (IBRBatchProcessor.results self)
       /\ fold_right Nat.add 0%nat
            (map snd (IBRBatchProcessor.classification_counts s))
          = IBRBatchProcessor.n_plots s
       /\ map fst (IBRBatchProcessor.classification_counts s)
          = [PRISTINE; FUNCTIONAL; IMPAIRED; DEGRADED; COLLAPSED]
       /\ (forall r, In r (IBRBatchProcessor.results self) ->
             IBRBatchProcessor.min_score s <= IBRResult.score r
             /\ IBRResult.score r <= IBRBatchProcessor.max_score s)
       /\ IBRBatchProcessor.min_score s <= IBRBatchProcessor.max_score s
       /\ (0 <= IBRBatchProcessor.std_score s)%R.
Proof.
  unfold IBRBatchProcessor.summary_statistics.
  destruct (IBRBatchProcessor.results self) as [|r0 rs] eqn:Hres.
  - split; [split; reflexivity | intros s [=]].
  - split; [split; discriminate|].
    intros s [= <-].
    cbn [IBRBatchProcessor.n_plots IBRBatchProcessor.classification_counts
         IBRBatchProcessor.min_score IBRBatchProcessor.max_score
         IBRBatchProcessor.mean_score IBRBatchProcessor.std_score].
    set (results := r0 :: rs).
    assert (Hb : forall x, In x (map IBRResult.score results) ->
                   IBRBatchProcessor.np_min (map IBRResult.score results) <= x
                   <= IBRBatchProcessor.np_max (map IBRResult.score results))
      by (intros x; apply np_min_max_bounds).
    split; [reflexivity|]. split; [|split; [|split; [|split]]].
    + exact (classification_counts_total results).
    + reflexivity.
    + intros r Hr. apply Hb. now apply in_map.
    + destruct (Hb (IBRResult.score r0)) as [Hlo Hhi]; [now left|].
      now apply Qle_trans with (IBRResult.score r0).
    + apply sqrt_pos.
Qed.

(** ** TippingPointDetector.detect: the paths that do not analyse *)

(** X19.  [detect] without SciPy returns the fallback result whatever it is
    given.  With SciPy, timestamps that are not one per point raise an
    IndexError (whatever its message), before the insufficient-data guard is
    reached; and a series that passes the guard but is shorter than the
    window raises the ValueError of [np.zeros] on a negative length. *)
Theorem detect_error_paths
  (detrend_fn : list Q -> outcome (list Q))
  (rolling : TippingPointDetector.state -> list Q
             -> outcome TippingPointResult.KendallStats)
  (self : TippingPointDetector.state) (ts : list npfloat) (name : string) :
  (forall tst,
     TippingPointDetector.detect false detrend_fn rolling self ts tst name
     = Return TippingPointDetector._fallback_result)
  /\ (forall stamps,
        List.length stamps <> List.length ts ->
        exists msg,
          TippingPointDetector.detect true detrend_fn rolling self ts
            (Some stamps) name
          = Raise (IndexError msg))
  /\ (forall tst d,
        Spec.timestamps_aligned ts tst ->
        (TippingPointDetector.min_data_points self
         <= Z.of_nat (List.length (Np.dropna ts)))%Z ->
        (if TippingPointDetector.detrend self
         then detrend_fn (Np.dropna ts) else Return (Np.dropna ts)) = Return d ->
        (Z.of_nat (List.length d) < TippingPointDetector.window self)%Z ->
        TippingPointDetector.detect true detrend_fn rolling self ts tst name
        = Raise (ValueError "negative dimensions are not allowed")).
Proof.
  split; [reflexivity|]. split.
  - intros stamps Hlen. unfold TippingPointDetector.detect.
    cbn [negb TippingPointDetector.mask_timestamps].
    rewrite length_map.
    destruct (Nat.eqb (List.length stamps) (List.length ts)) eqn:E.
    + apply Nat.eqb_eq in E. contradiction.
    + eexists. reflexivity.
  - intros tst d Hal Hmin Hd Hw. unfold TippingPointDetector.detect.
    cbn [negb].
    assert (Hm : exists tst',
               TippingPointDetector.mask_timestamps
                 (map (fun x => negb (Np.isnan x)) ts) tst = Return tst').
    { destruct tst as [stamps|]; [|now exists None].
      cbn in Hal. unfold TippingPointDetector.mask_timestamps.
      rewrite length_map, Hal, Nat.eqb_refl. eexists. reflexivity. }
    destruct Hm as [tst' ->]. cbn [obind].
    rewrite (proj2 (Z.ltb_ge _ _) Hmin), Hd. cbn [obind].
    assert (Hn : (Z.of_nat (List.length d)
                  - TippingPointDetector.window self <? 0)%Z = true)
      by (apply Z.ltb_lt; lia).
    rewrite Hn. reflexivity.
Qed.

Lemma detect_error_paths_witness :
  let self :=
    {| TippingPointDetector.window := 24; TippingPointDetector.lag := 1;
       TippingPointDetector.min_data_points := 10;
       TippingPointDetector.significance_level := 0.05;
       TippingPointDetector.detrend := false |} in
  TippingPointDetector.detect true (fun l => Return l)
    (fun _ _ => Raise (ValueError "not reached")) self
    (repeat (Fin 0.7) 12) None "IBR"
  = Raise (ValueError "negative dimensions are not allowed").
Proof.
  intros self.
  destruct (detect_error_paths (fun l => Return l)
              (fun _ _ => Raise (ValueError "not reached")) self
              (repeat (Fin 0.7) 12) "IBR") as (_ & _ & H).
  apply (H None (Np.dropna (repeat (Fin 0.7) 12))).
  - exact I.
  - vm_compute. discriminate.
  - reflexivity.
  - vm_compute. reflexivity.
Defined.

(** ** TippingPointDetector.detect: what a warning level takes *)

Lemma gt_weaker (x : npfloat) (a b : Q) :
  a <= b -> Np.gt x b = true -> Np.gt x a = true.
Proof.
  intros Hab. destruct x as [q|]; [|discriminate]. cbn [Np.gt].
  rewrite !Qgtb_true. lra.
Qed.

Lemma variance_points_cases (alpha : Q) (k : TippingPointResult.KendallStats) :
  (Spec.variance_points alpha k = 0
   /\ Np.gt (TippingPointResult.tau_var k) 0.1 = false)
  \/ (Spec.variance_points alpha k = 0.5
      /\ Np.gt (TippingPointResult.tau_var k) 0.1 = true)
  \/ (Spec.variance_points alpha k = 1
      /\ Np.gt (TippingPointResult.tau_var k) 0.2 = true
      /\ Np.gt (TippingPointResult.tau_var k) 0.1 = true).
Proof.
  unfold Spec.variance_points.
  destruct (Np.gt (TippingPointResult.tau_var k) 0.2) eqn:E2;
    destruct (Np.lt (TippingPointResult.p_var k) alpha);
    destruct (Np.gt (TippingPointResult.tau_var k) 0.1) eqn:E1;
    cbn [andb]; auto.
  all: exfalso; apply (gt_weaker _ 0.1 0.2) in E2; [congruence | lra].
Qed.

Lemma autocorrelation_points_cases (alpha : Q)
  (k : TippingPointResult.KendallStats) :
  (Spec.autocorrelation_points alpha k = 0
   /\ Np.gt (TippingPointResult.tau_ac k) 0.1 = false)
  \/ (Spec.autocorrelation_points alpha k = 0.5
      /\ Np.gt (TippingPointResult.tau_ac k) 0.1 = true)
  \/ (Spec.autocorrelation_points alpha k = 1
      /\ Np.gt (TippingPointResult.tau_ac k) 0.2 = true
      /\ Np.gt (TippingPointResult.tau_ac k) 0.1 = true).
Proof.
  unfold Spec.autocorrelation_points.
  destruct (Np.gt (TippingPointResult.tau_ac k) 0.2) eqn:E2;
    destruct (Np.lt (TippingPointResult.p_ac k) alpha);
    destruct (Np.gt (TippingPointResult.tau_ac k) 0.1) eqn:E1;
    cbn [andb]; auto.
  all: exfalso; apply (gt_weaker _ 0.1 0.2) in E2; [congruence | lra].
Qed.

Lemma skewness_points_cases (alpha : Q) (k : TippingPointResult.KendallStats) :
  Spec.skewness_points alpha k = 0
  \/ (Spec.skewness_points alpha k = 0.5
      /\ Np.gt (Np.abs (TippingPointResult.tau_skew k)) 0.15 = true).
Proof.
  unfold Spec.skewness_points.
  destruct (Np.gt (Np.abs (TippingPointResult.tau_skew k)) 0.15);
    destruct (Np.lt (TippingPointResult.p_skew k) alpha); cbn [andb]; auto.
Qed.

Lemma recovery_points_cases (alpha : Q) (k : TippingPointResult.KendallStats) :
  Spec.recovery_points alpha k = 0
  \/ (Spec.recovery_points alpha k = 0.5
      /\ Np.lt (TippingPointResult.tau_rec k) (-0.15) = true).
Proof.
  unfold Spec.recovery_points.
  destruct (Np.lt (TippingPointResult.tau_rec k) (-0.15));
    destruct (Np.lt (TippingPointResult.p_rec k) alpha); cbn [andb]; auto.
Qed.

(** The level of an analysis, by what the four trends are. *)
Lemma level_needs_indicators (alpha : Q) (k : TippingPointResult.KendallStats) :
  let wl := Z.min 3 (Qfloor (Spec.accumulated alpha k)) in
  ((2 <= wl)%Z ->
     Np.gt (TippingPointResult.tau_var k) 0.1 = true
     \/ Np.gt (TippingPointResult.tau_ac k) 0.1 = true)
  /\ (wl = 3%Z ->
        Np.gt (TippingPointResult.tau_var k) 0.2 = true
        /\ Np.gt (TippingPointResult.tau_ac k) 0.2 = true
        /\ Np.gt (Np.abs (TippingPointResult.tau_skew k)) 0.15 = true
        /\ Np.lt (TippingPointResult.tau_rec k) (-0.15) = true)
  /\ (Np.gt (TippingPointResult.tau_var k) 0.1 = false ->
      Np.gt (TippingPointResult.tau_ac k) 0.1 = false ->
      (wl <= 1)%Z).
Proof.
  unfold Spec.accumulated.
  destruct (variance_points_cases alpha k)
    as [[-> Hv]|[[-> Hv]|(-> & Hv2 & Hv)]];
    destruct (autocorrelation_points_cases alpha k)
      as [[-> Ha]|[[-> Ha]|(-> & Ha2 & Ha)]];
    destruct (skewness_points_cases alpha k) as [->|[-> Hs]];
    destruct (recovery_points_cases alpha k) as [->|[-> Hr]];
    cbv zeta;
    match goal with
    | |- context [Z.min 3 (Qfloor ?q)] =>
        let z := eval vm_compute in (Z.min 3 (Qfloor q)) in
        change (Z.min 3 (Qfloor q)) with z
    end;
    (split; [|split]); intros; try lia; try congruence;
    try (repeat split; assumption); try (left; assumption);
    try (right; assumption).
Qed.

Lemma analyse_trends (self : TippingPointDetector.state)
  (k : TippingPointResult.KendallStats) (d : list Q) (tst : option (list Q))
  (name : string) :
  let r := TippingPointDetector.analyse self k d tst name in
  TippingPointResult.variance_trend r = TippingPointResult.tau_var k
  /\ TippingPointResult.autocorrelation_trend r = TippingPointResult.tau_ac k
  /\ TippingPointResult.skewness_trend r = TippingPointResult.tau_skew k
  /\ TippingPointResult.recovery_rate_trend r = TippingPointResult.tau_rec k
  /\ TippingPointResult.metrics r
     = Some {| TippingPointResult.stats := k;
               TippingPointResult.indicators :=
                 snd (TippingPointDetector.accumulate
                        (TippingPointDetector.significance_level self) k);
               TippingPointResult.n_points := Z.of_nat (List.length d);
               TippingPointResult.window_size :=
                 TippingPointDetector.window self |}.
Proof.
  unfold TippingPointDetector.analyse.
  destruct (TippingPointDetector.accumulate
              (TippingPointDetector.significance_level self) k) as [w ind].
  cbn. repeat split; reflexivity.
Qed.

(** The indicators listed are those that gave points, at most one point
    each. *)
Lemma accumulate_indicators (alpha : Q) (k : TippingPointResult.KendallStats) :
  let w := TippingPointDetector.accumulate alpha k in
  fst w <= inject_Z (Z.of_nat (List.length (snd w)))
  /\ (List.length (snd w) <= 4)%nat
  /\ (snd w = [] -> fst w == 0).
Proof.
  unfold TippingPointDetector.accumulate, TippingPointDetector.recovery_update,
    TippingPointDetector.skewness_update,
    TippingPointDetector.autocorrelation_update,
    TippingPointDetector.variance_update.
  split_conditions; cbn [fst snd app List.length];
    (split; [vm_compute; discriminate
            | split; [lia | intros H; try discriminate H; reflexivity]]).
Qed.

(** X20.  What the warning level of a result of [detect] takes.  Critical
    slowing down is only reported when the variance or the autocorrelation
    trend exceeds 0.1; level 3 only when all four indicators fire (both key
    trends above 0.2, the skewness trend beyond 0.15 in size, the recovery
    trend below -0.15); NaN or small key trends keep the level at 1 at
    most; and the level never exceeds the number of indicators listed in
    the metrics, of which there are at most four. *)
Theorem detect_level_needs_indicators
  (scipy : bool) (detrend_fn : list Q -> outcome (list Q))
  (rolling : TippingPointDetector.state -> list Q
             -> outcome TippingPointResult.KendallStats)
  (self : TippingPointDetector.state) (ts : list npfloat)
  (tst : option (list Q)) (name : string) (r : TippingPointResult.t) :
  TippingPointDetector.detect scipy detrend_fn rolling self ts tst name
  = Return r ->
  (TippingPointResult.critical_slowing_down r = true ->
     Np.gt (TippingPointResult.variance_trend r) 0.1 = true
     \/ Np.gt (TippingPointResult.autocorrelation_trend r) 0.1 = true)
  /\ (TippingPointResult.warning_level r = 3%Z ->
        Np.gt (TippingPointResult.variance_trend r) 0.2 = true
        /\ Np.gt (TippingPointResult.autocorrelation_trend r) 0.2 = true
        /\ Np.gt (Np.abs (TippingPointResult.skewness_trend r)) 0.15 = true
        /\ Np.lt (TippingPointResult.recovery_rate_trend r) (-0.15) = true)
  /\ (Np.gt (TippingPointResult.variance_trend r) 0.1 = false ->
      Np.gt (TippingPointResult.autocorrelation_trend r) 0.1 = false ->
      (TippingPointResult.warning_level r <= 1)%Z
      /\ TippingPointResult.critical_slowing_down r = false)
  /\ (forall m, TippingPointResult.metrics r = Some m ->
        (TippingPointResult.warning_level r
         <= Z.of_nat (List.length (TippingPointResult.indicators m)) <= 4)%Z).
Proof.
  intros H.
  destruct (detect_inv _ _ _ _ _ _ _ _ H)
    as [[_ ->]|[(_ & _ & ->)|(_ & k & d & tst' & _ & ->)]].
  - cbn. repeat split; try discriminate; try lia.
  - cbn. repeat split; try discriminate; try lia.
  - destruct (analyse_fields self k d tst' name) as (Hwl & Hcsd & _).
    destruct (analyse_trends self k d tst' name)
      as (Hv & Ha & Hs & Hr & Hm).
    cbv zeta in Hwl, Hcsd, Hv, Ha, Hs, Hr, Hm.
    rewrite Hwl, Hcsd, Hv, Ha, Hs, Hr, Hm.
    destruct (level_needs_indicators
                (TippingPointDetector.significance_level self) k)
      as (H2 & H3 & H1).
    cbv zeta in H2, H3, H1.
    split; [|split; [|split]].
    + intros Hc. apply H2. apply Z.geb_le in Hc. lia.
    + exact H3.
    + intros Hv0 Ha0. specialize (H1 Hv0 Ha0). split; [exact H1|].
      destruct (Z.geb_spec
                  (Z.min 3 (Qfloor (Spec.accumulated
                     (TippingPointDetector.significance_level self) k))) 2);
        [lia | reflexivity].
    + intros m [= <-]. cbn [TippingPointResult.indicators].
      destruct (accumulate_indicators
                  (TippingPointDetector.significance_level self) k)
        as (Hle & H4 & _).
      cbv zeta in Hle, H4.
      pose proof (accumulate_points
                    (TippingPointDetector.significance_level self) k) as Hacc.
      rewrite Hacc in Hle. apply Qfloor_resp_le in Hle.
      rewrite Qfloor_Z in Hle. lia.
Qed.

Lemma detect_level_needs_indicators_witness :
  let self :=
    {| TippingPointDetector.window := 2; TippingPointDetector.lag := 1;
       TippingPointDetector.min_data_points := 3;
       TippingPointDetector.significance_level := 0.05;
       TippingPointDetector.detrend := true |} in
  let k :=
    {| TippingPointResult.tau_var := Fin 0.5; TippingPointResult.p_var := Fin 0.01;
       TippingPointResult.tau_ac := Fin 0.3; TippingPointResult.p_ac := Fin 0.02;
       TippingPointResult.tau_skew := NaN; TippingPointResult.p_skew := NaN;
       TippingPointResult.tau_rec := Fin (-0.4);
       TippingPointResult.p_rec := Fin 0.2 |} in
  let r := TippingPointDetector.analyse self k [1; 2; 3; 5] None "IBR" in
  TippingPointResult.critical_slowing_down r = true
  /\ (Np.gt (TippingPointResult.variance_trend r) 0.1 = true
      \/ Np.gt (TippingPointResult.autocorrelation_trend r) 0.1 = true).
Proof.
  intros self k r. split; [reflexivity|].
  refine (proj1 (detect_level_needs_indicators true (fun l => Return l)
                   (fun _ _ => Return k) self
                   [Fin 1; NaN; Fin 2; Fin 3; Fin 5] None "IBR" r _) _);
    reflexivity.
Defined.

(** ** _estimate_time_to_tipping and _calculate_confidence *)





Lemma py_min_mono (a b c : Q) : a <= b -> Np.py_min a c <= Np.py_min b c.
Proof.
  intros H. unfold Np.py_min.
  destruct (Qltb c a) eqn:Ea, (Qltb c b) eqn:Eb;
    try apply Qltb_true in Ea; try apply Qltb_false in Ea;
    try apply Qltb_true in Eb; try apply Qltb_false in Eb; lra.
Qed.

Lemma py_min_Qeq (a b c : Q) : a == b -> Np.py_min a c == Np.py_min b c.
Proof.
  intros H. apply Qle_antisym; apply py_min_mono; rewrite H; apply Qle_refl.
Qed.

(** The sum that [_calculate_confidence] caps at 1. *)
Lemma confidence_sum (wl : Z) (p_var p_ac : npfloat) (n : Z) :
  TippingPointDetector._calculate_confidence wl p_var p_ac n
  == Np.py_min
       (inject_Z wl * 0.2
        + (if Np.lt p_var 0.01 then 0.2 else if Np.lt p_var 0.05 then 0.1 else 0)
        + (if Np.lt p_ac 0.01 then 0.2 else if Np.lt p_ac 0.05 then 0.1 else 0)
        + (if (n >? 200)%Z then 0.2 else if (n >? 100)%Z then 0.1 else 0))
       1.
Proof.
  unfold TippingPointDetector._calculate_confidence.
  destruct (Np.lt p_var 0.01), (Np.lt p_var 0.05), (Np.lt p_ac 0.01),
    (Np.lt p_ac 0.05), (n >? 200)%Z, (n >? 100)%Z; cbv zeta;
    apply py_min_Qeq; ring.
Qed.

Lemma lt_weaker (p : npfloat) (a b : Q) :
  a <= b -> Np.lt p a = true -> Np.lt p b = true.
Proof.
  intros Hab. destruct p as [q|]; [|discriminate]. cbn [Np.lt].
  rewrite !Qltb_true. lra.
Qed.

Lemma significance_bonus_range (p : npfloat) :
  0 <= (if Np.lt p 0.01 then 0.2 else if Np.lt p 0.05 then 0.1 else 0) <= 0.2.
Proof.
  destruct (Np.lt p 0.01), (Np.lt p 0.05); split; lra.
Qed.

Lemma sample_bonus_mono (n n' : Z) :
  (n <= n')%Z ->
  0 <= (if (n >? 200)%Z then 0.2 else if (n >? 100)%Z then 0.1 else 0)
  /\ (if (n >? 200)%Z then 0.2 else if (n >? 100)%Z then 0.1 else 0)
     <= (if (n' >? 200)%Z then 0.2 else if (n' >? 100)%Z then 0.1 else 0)
  /\ (if (n' >? 200)%Z then 0.2 else if (n' >? 100)%Z then 0.1 else 0) <= 0.2.
Proof.
  intros H.
  destruct (Z.gtb_spec n 200), (Z.gtb_spec n 100), (Z.gtb_spec n' 200),
    (Z.gtb_spec n' 100); try lia; repeat split; lra.
Qed.

(** X22.  [_calculate_confidence] never decreases when the warning level or
    the number of points grows; it is at least the capped level share
    min(0.2 * level, 1) and at most 1; with both p-values NaN or at least
    0.05 and at most 100 points it is the level share alone; and at level 3
    with both p-values below 0.01 it is 1. *)
Theorem calculate_confidence_monotone (wl wl' : Z) (p_var p_ac : npfloat)
  (n n' : Z) :
  (wl <= wl')%Z -> (n <= n')%Z ->
  TippingPointDetector._calculate_confidence wl p_var p_ac n
  <= TippingPointDetector._calculate_confidence wl' p_var p_ac n'
  /\ Np.py_min (inject_Z wl * 0.2) 1
     <= TippingPointDetector._calculate_confidence wl p_var p_ac n
  /\ TippingPointDetector._calculate_confidence wl p_var p_ac n <= 1
  /\ (Np.lt p_var 0.05 = false -> Np.lt p_ac 0.05 = false -> (n <= 100)%Z ->
      TippingPointDetector._calculate_confidence wl p_var p_ac n
      == Np.py_min (inject_Z wl * 0.2) 1)
  /\ (wl = 3%Z -> Np.lt p_var 0.01 = true -> Np.lt p_ac 0.01 = true ->
      TippingPointDetector._calculate_confidence wl p_var p_ac n == 1).
Proof.
  intros Hwl Hn.
  rewrite !confidence_sum.
  pose proof (significance_bonus_range p_var) as Hv.
  pose proof (significance_bonus_range p_ac) as Ha.
  destruct (sample_bonus_mono n n' Hn) as (Hc0 & Hc & Hc2).
  assert (Hq : inject_Z wl * 0.2 <= inject_Z wl' * 0.2).
  { apply Qmult_le_compat_r; [|lra]. now rewrite <- Zle_Qle. }
  split; [|split; [|split; [|split]]].
  - apply py_min_mono. lra.
  - apply py_min_mono. lra.
  - apply py_min_spec.
  - intros Hpv Hpa H100. apply py_min_Qeq.
    assert (Hpv1 : Np.lt p_var 0.01 = false).
    { destruct (Np.lt p_var 0.01) eqn:E; [|reflexivity].
      apply (lt_weaker _ 0.01 0.05) in E; [congruence | lra]. }
    assert (Hpa1 : Np.lt p_ac 0.01 = false).
    { destruct (Np.lt p_ac 0.01) eqn:E; [|reflexivity].
      apply (lt_weaker _ 0.01 0.05) in E; [congruence | lra]. }
    rewrite Hpv, Hpa, Hpv1, Hpa1.
    destruct (Z.gtb_spec n 200), (Z.gtb_spec n 100); try lia. ring.
  - intros -> -> ->. unfold Np.py_min.
    match goal with
    | |- (if Qltb 1 ?q then _ else _) == 1 =>
        assert (Hge : 1 <= q) by (change (inject_Z 3) with 3; lra);
        destruct (Qltb 1 q) eqn:E;
        [reflexivity | apply Qltb_false in E; lra]
    end.
Qed.

Lemma calculate_confidence_monotone_witness :
  TippingPointDetector._calculate_confidence 1 (Fin 0.03) NaN 60
  <= TippingPointDetector._calculate_confidence 2 (Fin 0.03) NaN 150.
Proof.
  apply (calculate_confidence_monotone 1 2 (Fin 0.03) NaN 60 150); lia.
Defined.

(** ** detect_multivariate *)

Section Multivariate.

Variable scipy : bool.
Variable detrend_fn : list Q -> outcome (list Q).
Variable rolling :
  TippingPointDetector.state -> list Q
  -> outcome TippingPointResult.KendallStats.
Variable self : TippingPointDetector.state.
Variable data_matrix : list (list npfloat).
Variable timestamps : option (list Q).

(** The loop, from column [i] on, with distinct names not yet in [results]. *)
Lemma multivariate_loop_returns (names : list string) (i : nat)
  (results out : dict TippingPointResult.t) :
  NoDup names ->
  (forall k, In k names -> ~ In k (dict_keys results)) ->
  TippingPointMultivariate.multivariate_loop scipy detrend_fn rolling self
    data_matrix timestamps names i results = Return out ->
  (names <> [] -> (List.length names + i <= List.length data_matrix)%nat)
  /\ dict_keys out = (dict_keys results ++ names)%list
  /\ (forall k, ~ In k names -> dict_get k out = dict_get k results)
  /\ forall j name,
       nth_error names j = Some name ->
       exists column r,
         nth_error data_matrix (i + j) = Some column
         /\ TippingPointDetector.detect scipy detrend_fn rolling self column
              timestamps name = Return r
         /\ dict_get name out = Some r.
Proof.
  revert i results.
  induction names as [|n names IH]; intros i results Hnd Hfresh H.
  - cbn in H. injection H as <-. split; [congruence|].
    split; [now rewrite app_nil_r|]. split; [reflexivity|].
    intros [|j] name Hj; discriminate Hj.
  - inversion_clear Hnd as [|? ? Hn Hnd'].
    cbn [TippingPointMultivariate.multivariate_loop] in H.
    destruct (nth_error data_matrix i) as [column|] eqn:Ecol; [|discriminate].
    destruct (TippingPointDetector.detect scipy detrend_fn rolling self column
                timestamps n) as [r|e] eqn:Er; [|discriminate].
    cbn [obind] in H.
    assert (Hkeys : dict_keys (dict_set n r results)
                    = (dict_keys results ++ [n])%list).
    { rewrite dict_set_keys. unfold dict_mem.
      now rewrite (dict_get_not_in n results (Hfresh n (or_introl eq_refl))). }
    assert (Hfresh' : forall k, In k names ->
                        ~ In k (dict_keys (dict_set n r results))).
    { intros k Hk. rewrite Hkeys, in_app_iff. intros [Hin|[<-|[]]].
      - exact (Hfresh k (or_intror Hk) Hin).
      - contradiction. }
    destruct (IH (S i) _ Hnd' Hfresh' H) as (Hlen & Hk & Hother & Hcols).
    split; [|split; [|split]].
    + intros _. cbn [List.length].
      assert (Hi : (i < List.length data_matrix)%nat)
        by (apply nth_error_Some; congruence).
      destruct names as [|n' names']; [cbn; lia|].
      specialize (Hlen ltac:(discriminate)). cbn [List.length] in *. lia.
    + rewrite Hk, Hkeys, <- app_assoc. reflexivity.
    + intros k Hnot. rewrite Hother by (intros Hin; apply Hnot; now right).
      apply dict_get_set_other. intros ->. apply Hnot. now left.
    + intros [|j] name Hj.
      * cbn in Hj. injection Hj as <-. exists column, r.
        rewrite Nat.add_0_r. split; [exact Ecol|]. split; [exact Er|].
        rewrite (Hother n Hn). apply dict_get_set_same.
      * cbn [nth_error] in Hj. destruct (Hcols j name Hj) as (c & r' & Hc & Hr & Hg).
        exists c, r'. rewrite Nat.add_succ_r. now repeat split.
Qed.

(** Columns after those the loop reads make no difference. *)
Lemma multivariate_loop_more_columns (names : list string) (i : nat)
  (results out : dict TippingPointResult.t)
  (extra_columns : list (list npfloat)) :
  TippingPointMultivariate.multivariate_loop scipy detrend_fn rolling self
    data_matrix timestamps names i results = Return out ->
  TippingPointMultivariate.multivariate_loop scipy detrend_fn rolling self
    (data_matrix ++ extra_columns) timestamps names i results = Return out.
Proof.
  revert i results.
  induction names as [|n names IH]; intros i results H; [exact H|].
  cbn [TippingPointMultivariate.multivariate_loop] in *.
  destruct (nth_error data_matrix i) as [column|] eqn:Ecol; [|discriminate].
  rewrite nth_error_app1 by (apply nth_error_Some; congruence).
  rewrite Ecol.
  destruct (TippingPointDetector.detect scipy detrend_fn rolling self column
              timestamps n) as [r|e]; [|discriminate].
  cbn [obind] in *. now apply IH.
Qed.

(** X23.  When [detect_multivariate] returns for distinct variable names,
    there are at least as many columns as names, the result has exactly the
    names as its keys, in order, and under the [j]-th name the result of
    [detect] on the [j]-th column, called with that name; columns beyond the
    names are not looked at.  With more names than columns it never
    returns. *)
Theorem detect_multivariate_returns (variable_names : list string)
  (out : dict TippingPointResult.t) :
  NoDup variable_names ->
  TippingPointMultivariate.detect_multivariate scipy detrend_fn rolling self
    data_matrix variable_names timestamps = Return out ->
  (List.length variable_names <= List.length data_matrix)%nat
  /\ dict_keys out = variable_names
  /\ (forall j name,
        nth_error variable_names j = Some name ->
        exists column r,
          nth_error data_matrix j = Some column
          /\ TippingPointDetector.detect scipy detrend_fn rolling self column
               timestamps name = Return r
          /\ dict_get name out = Some r)
  /\ forall extra_columns,
       TippingPointMultivariate.detect_multivariate scipy detrend_fn rolling
         self (data_matrix ++ extra_columns) variable_names timestamps
       = Return out.
Proof.
  intros Hnd H. unfold TippingPointMultivariate.detect_multivariate in *.
  destruct (multivariate_loop_returns variable_names 0 [] out Hnd
              (fun k _ Hin => Hin) H) as (Hlen & Hk & _ & Hcols).
  split.
  { destruct variable_names as [|n names]; [cbn; lia|].
    specialize (Hlen ltac:(discriminate)). lia. }
  split; [exact Hk|]. split; [exact Hcols|].
  intros extra_columns. now apply multivariate_loop_more_columns.
Qed.

End Multivariate.

Lemma detect_multivariate_returns_witness :
  let self := TippingPointDetector.default in
  let column := repeat (Fin 0.7) 10 in
  exists out,
    TippingPointMultivariate.detect_multivariate true (fun l => Return l)
      (fun _ _ => Raise (ValueError "not reached")) self
      [column; column; column] ["IBR"; "VCA"] None = Return out
    /\ dict_keys out = ["IBR"; "VCA"].
Proof.
  intros self column. eexists. split; [reflexivity|].
  refine (proj1 (proj2 (detect_multivariate_returns true (fun l => Return l)
                          (fun _ _ => Raise (ValueError "not reached")) self
                          [column; column; column] None ["IBR"; "VCA"] _ _ _))).
  - repeat constructor; cbn; intuition discriminate.
  - reflexivity.
Defined.

(** ** EarlyWarningSignals *)

(** X24.  The combined indicator of [analyze] is the share of the three
    tests that fired, and its interpretation is fixed by their number: high
    risk only when all three fired, moderate for two (2/3 is not above 0.7),
    low for one, no clear signal for none.  A NaN trend fires no test. *)
Theorem combined_score_interpretation (tau_var tau_ac tau_skew : npfloat) :
  let fired :=
    (EarlyWarningSignals.int_of_bool (Np.gt tau_var 0.2)
     + EarlyWarningSignals.int_of_bool (Np.gt tau_ac 0.2)
     + EarlyWarningSignals.int_of_bool (Np.gt (Np.abs tau_skew) 0.15))%Z in
  let score := EarlyWarningSignals.combined_score tau_var tau_ac tau_skew in
  (0 <= fired <= 3)%Z
  /\ score == inject_Z fired / 3
  /\ 0 <= score <= 1
  /\ EarlyWarningSignals._interpret_score score
     = (if (fired =? 3)%Z then "High risk - strong early warning signals"
        else if (fired =? 2)%Z then
          "Moderate risk - some warning signals detected"
        else if (fired =? 1)%Z then "Low risk - weak warning signals"
        else "No clear warning signals")
  /\ EarlyWarningSignals.combined_score NaN NaN NaN == 0.
Proof.
  unfold EarlyWarningSignals.combined_score.
  destruct (Np.gt tau_var 0.2), (Np.gt tau_ac 0.2),
    (Np.gt (Np.abs tau_skew) 0.15); cbv zeta;
    cbn [EarlyWarningSignals.int_of_bool Z.add Pos.add Pos.succ];
    (split; [lia|]); (split; [reflexivity|]);
    (split; [split; vm_compute; discriminate|]);
    (split; [reflexivity|]); reflexivity.
Qed.

Lemma segment_length (data : list Q) (i window : nat) :
  (i + window <= List.length data)%nat ->
  List.length (EarlyWarningSignals.segment data i window) = window.
Proof.
  intros H. unfold EarlyWarningSignals.segment.
  rewrite length_firstn, length_skipn. lia.
Qed.

(** X25.  [_rolling_stat] with a window no longer than the data returns
    len - window + 1 values, the [i]-th the statistic of the [window] points
    from [i] on, every window full.  With a window of len + 1 it returns the
    empty array, and with a longer one it raises.  The window [analyze]
    chooses, min(50, len // 4), is never longer than the data. *)
Theorem rolling_stat_windows (data : list Q) (window : nat)
  (func : list Q -> npfloat) :
  ((window <= List.length data)%nat ->
   exists out,
     EarlyWarningSignals._rolling_stat data window func = Return out
     /\ List.length out = (List.length data - window + 1)%nat
     /\ forall i, (i < List.length out)%nat ->
          nth_error out i
          = Some (func (EarlyWarningSignals.segment data i window))
          /\ List.length (EarlyWarningSignals.segment data i window) = window)
  /\ (window = S (List.length data) ->
      EarlyWarningSignals._rolling_stat data window func = Return [])
  /\ ((S (List.length data) < window)%nat ->
      EarlyWarningSignals._rolling_stat data window func
      = Raise (ValueError "negative dimensions are not allowed"))
  /\ (EarlyWarningSignals.analyze_window data <= List.length data)%nat.
Proof.
  unfold EarlyWarningSignals._rolling_stat.
  split; [|split; [|split]].
  - intros Hw.
    assert (Hn : (Z.of_nat (List.length data) - Z.of_nat window + 1 <? 0)%Z
                 = false) by (apply Z.ltb_ge; lia).
    assert (Hz : Z.to_nat (Z.of_nat (List.length data) - Z.of_nat window + 1)
                 = (List.length data - window + 1)%nat) by lia.
    cbv zeta. rewrite Hn, Hz. eexists. split; [reflexivity|].
    rewrite length_map, length_seq. split; [reflexivity|].
    intros i Hi. split.
    + rewrite nth_error_map, nth_error_seq.
      destruct (Nat.ltb_spec i (List.length data - window + 1)); [|lia].
      reflexivity.
    + apply segment_length. lia.
  - intros ->. cbv zeta.
    assert (Hn : (Z.of_nat (List.length data)
                  - Z.of_nat (S (List.length data)) + 1 <? 0)%Z = false)
      by (apply Z.ltb_ge; lia).
    assert (Hz : Z.to_nat (Z.of_nat (List.length data)
                           - Z.of_nat (S (List.length data)) + 1) = 0%nat)
      by lia.
    rewrite Hn, Hz. reflexivity.
  - intros Hw. cbv zeta.
    assert (Hn : (Z.of_nat (List.length data) - Z.of_nat window + 1 <? 0)%Z
                 = true) by (apply Z.ltb_lt; lia).
    rewrite Hn. reflexivity.
  - unfold EarlyWarningSignals.analyze_window.
    pose proof (Nat.Div0.div_le_upper_bound (List.length data) 4
                  (List.length data)) as Hd.
    pose proof (Nat.le_min_r 50 (List.length data / 4)).
    assert (List.length data / 4 <= List.length data)%nat by (apply Hd; lia).
    lia.
Qed.

Lemma rolling_stat_windows_witness :
  exists out,
    EarlyWarningSignals._rolling_stat [1; 2; 4; 7; 11] 3
      (fun l => Fin (Qsum l)) = Return out
    /\ List.length out = 3%nat.
Proof.
  destruct (proj1 (rolling_stat_windows [1; 2; 4; 7; 11] 3
                     (fun l => Fin (Qsum l))))
    as (out & Hout & Hlen & _).
  - cbn. lia.
  - exists out. split; [exact Hout | exact Hlen].
Defined.

(** X26.  [_rolling_autocorr] returns len - window + 1 values for a window
    no longer than the data, none of them NaN whatever [np.corrcoef] gives;
    with a window of one point or none every value is 0. *)
Theorem rolling_autocorr_values (corrcoef : list Q -> list Q -> npfloat)
  (data : list Q) (window : nat) :
  (window <= List.length data)%nat ->
  exists out,
    EarlyWarningSignals._rolling_autocorr corrcoef data window = Return out
    /\ List.length out = (List.length data - window + 1)%nat
    /\ Forall (fun x => Np.isnan x = false) out
    /\ ((window <= 1)%nat -> Forall (fun x => x = Fin 0) out).
Proof.
  intros Hw. unfold EarlyWarningSignals._rolling_autocorr.
  assert (Hn : (Z.of_nat (List.length data) - Z.of_nat window + 1 <? 0)%Z
               = false) by (apply Z.ltb_ge; lia).
  assert (Hz : Z.to_nat (Z.of_nat (List.length data) - Z.of_nat window + 1)
               = (List.length data - window + 1)%nat) by lia.
  cbv zeta. rewrite Hn, Hz. eexists. split; [reflexivity|].
  rewrite length_map, length_seq. split; [reflexivity|]. split.
  - apply Forall_map, Forall_forall. intros i _.
    destruct (1 <? List.length (EarlyWarningSignals.segment data i window))%nat;
      [|reflexivity].
    destruct (corrcoef _ _) as [q|]; reflexivity.
  - intros H1. apply Forall_map, Forall_forall. intros i Hi.
    apply in_seq in Hi.
    rewrite segment_length by lia.
    destruct (Nat.ltb_spec 1 window); [lia | reflexivity].
Qed.

Lemma rolling_autocorr_values_witness :
  exists out,
    EarlyWarningSignals._rolling_autocorr (fun _ _ => NaN) [1; 2; 4; 7; 11] 3
    = Return out
    /\ Forall (fun x => Np.isnan x = false) out.
Proof.
  destruct (rolling_autocorr_values (fun _ _ => NaN) [1; 2; 4; 7; 11] 3)
    as (out & Hout & _ & Hnan & _).
  - cbn. lia.
  - exists out. split; [exact Hout | exact Hnan].
Defined.

(** ** IBRComposite.compute with validation, and compute_ibr *)

Lemma filter_all {A : Type} (f : A -> bool) (l : list A) :
  (forall x, In x l -> f x = true) -> filter f l = l.
Proof.
  induction l as [|a l IH]; intros H; [reflexivity|].
  cbn [filter]. rewrite (H a (or_introl eq_refl)). f_equal.
  apply IH. intros x Hx. apply H. now right.
Qed.

Lemma stored_values_keys (self : IBRComposite.state) :
  dict_keys (Spec.stored_values self)
  = dict_keys (IBRComposite.parameters self).
Proof.
  unfold Spec.stored_values, dict_keys. rewrite map_map. reflexivity.
Qed.

(** When [compute(validate=True)] returns, all nine weighted parameters are
    stored. *)
Lemma validated_compute_full_set (classify : Q -> IBRClass) (fmt : FloatFormat)
  (self self' : IBRComposite.state) (r : IBRResult.t) :
  IBRComposite.compute classify fmt true self = (Return r, self') ->
  Spec.present BIOTICACore.IBR_WEIGHTS (Spec.stored_values self)
  = BIOTICACore.IBR_WEIGHTS.
Proof.
  intros H.
  assert (Hm : IBRComposite.missing self = []).
  { destruct (IBRComposite.missing self) as [|m ms] eqn:E; [reflexivity|].
    destruct (compute_raises_when_missing classify fmt self) as (ws & _ & _ & _ & Hc).
    - rewrite E. discriminate.
    - rewrite Hc in H. discriminate. }
  unfold Spec.present. apply filter_all. intros [k w] Hin. cbn [fst].
  apply dict_keys_get. rewrite stored_values_keys.
  destruct (in_dec string_dec k (dict_keys (IBRComposite.parameters self)))
    as [Hk|Hk]; [exact Hk|].
  exfalso.
  assert (Hin' : In k (IBRComposite.missing self)).
  { apply missing_spec. split; [|exact Hk].
    unfold dict_keys. change k with (fst (k, w)). now apply in_map. }
  rewrite Hm in Hin'. contradiction.
Qed.

(** X27.  Whenever [compute] returns, its score and contributions are the
    raw score and contributions that [compute_ibr] gives for the stored
    values, and its class is the classifier's for that raw score (for a
    classifier that gives equal scores equal classes).  When
    [compute(validate=True)] returns, all nine weighted parameters were
    stored: [n_parameters] is 9 and the contributions list the nine
    parameters in the order of the weight table. *)
Theorem compute_agrees_with_compute_ibr (classify : Q -> IBRClass)
  (fmt : FloatFormat) (validate : bool)
  (self self' : IBRComposite.state) (r : IBRResult.t) :
  Spec.well_formed self ->
  IBRComposite.compute classify fmt validate self = (Return r, self') ->
  let c := BIOTICACore.compute_ibr (Spec.stored_values self) in
  IBRResult.score r == BIOTICACore.score c
  /\ IBRResult.contributions r = BIOTICACore.contributions c
  /\ ((forall x y, x == y -> classify x = classify y) ->
      IBRResult.classification r = classify (BIOTICACore.score c))
  /\ (validate = true ->
      IBRResult.n_parameters (IBRResult.metadata r) = 9%nat
      /\ dict_keys (IBRResult.contributions r)
         = dict_keys BIOTICACore.IBR_WEIGHTS).
Proof.
  intros Hwf H c.
  destruct (compute_ibr_sums (Spec.stored_values self)) as (Hs & _).
  fold c in Hs.
  pose proof (composite_score_weighted_sum _ _ _ _ _ _ Hwf H) as Hscore.
  destruct (compute_inv _ _ _ _ _ _ H) as (_ & _ & Hc & Hcl & _).
  destruct (compute_inv_metadata _ _ _ _ _ _ H) as (Hnp & _).
  assert (Hraw : IBRResult.score r == BIOTICACore.score c)
    by now rewrite Hscore, Hs.
  assert (Hrows : IBRResult.contributions r
                  = map (Spec.contribution_row (Spec.stored_values self))
                        (Spec.present BIOTICACore.IBR_WEIGHTS
                           (Spec.stored_values self))).
  { rewrite Hc. unfold IBRComposite.score_loop.
    rewrite score_loop_contribs; [|exact IBR_WEIGHTS_NoDup | intros k _ []].
    cbn [app].
    rewrite (present_ext _ _ (Spec.stored_values self)
               (fun pw Hin => param_values_get self pw Hwf Hin)).
    apply map_ext_in. intros pw Hin. apply filter_In in Hin.
    unfold Spec.contribution_row, Spec.value_of.
    now rewrite (param_values_get self pw Hwf (proj1 Hin)). }
  split; [exact Hraw|]. split; [|split].
  - rewrite Hrows. subst c.
    unfold BIOTICACore.compute_ibr, BIOTICACore.ibr_loop.
    cbn [BIOTICACore.contributions].
    rewrite ibr_loop_contribs; [|exact IBR_WEIGHTS_NoDup | intros k _ []].
    reflexivity.
  - intros Hclass. rewrite Hcl. now apply Hclass.
  - intros ->.
    pose proof (validated_compute_full_set _ _ _ _ _ H) as Hfull.
    split.
    + rewrite Hnp, (param_values_length self Hwf), Hfull. reflexivity.
    + rewrite Hrows, Hfull. apply contribution_rows_keys.
Qed.

Lemma compute_agrees_with_compute_ibr_witness :
  let fmt := {| str_float := fun _ => "0.5"; format_3f := fun _ => "0.500" |} in
  let self :=
    Spec.calculator_with fmt
      [("VCA", 0.85); ("MDI", 0.78); ("PTS", 0.82); ("HFI", 0.71); ("BNC", 0.68);
       ("SGH", 0.73); ("AES", 0.88); ("TMI", 0.79); ("RRC", 0.65)] in
  exists r,
    IBRComposite.compute BIOTICACore.classify fmt true self = (Return r, self)
    /\ IBRResult.contributions r
       = BIOTICACore.contributions
           (BIOTICACore.compute_ibr (Spec.stored_values self))
    /\ IBRResult.n_parameters (IBRResult.metadata r) = 9%nat.
Proof.
  intros fmt self.
  assert (Hv : IBRComposite.validate_parameters fmt self
               = (Return (true, []), self)) by reflexivity.
  destruct (compute_validated_returns BIOTICACore.classify fmt self [] Hv)
    as [r Hr].
  exists r. split; [exact Hr|].
  assert (Hwf : Spec.well_formed self)
    by (repeat constructor; cbn; intuition discriminate).
  destruct (compute_agrees_with_compute_ibr BIOTICACore.classify fmt true self
              self r Hwf Hr) as (_ & Hc & _ & Hval).
  split; [exact Hc|]. apply (Hval eq_refl).
Defined.
